(** * Hashport validator: EVM router watcher and transfer repository

    A shallow embedding of
    - the EVM router watcher (package [evm]: [NewWatcher], [beginWatching],
      [processLogs] and the four event handlers), and
    - the transfer repository's guarded status updates (package [transfer]:
      [baseUpdateStatus], [isValidStatus] and their callers),
    followed by the properties of the specification that concern them.

    Conventions.  Go's [int64] and [uint64] are [Z] with the wrap-around written
    out ([to_int64], [to_uint64]); [*big.Int] event fields are [Z]; pointers
    returned by collaborators are [option] (with [None] for [nil]) and a
    dereference of [nil] is a panic; Go's [(T, error)] results of collaborators
    are either a sum ([result]) or, where the pointer itself matters, a pair of
    options.  Effects are threaded through a state-and-abort monad [Go] over
    the record [World] (progress store, queue, metrics, logger output). *)

From Stdlib Require Import ZArith Lia.
From stdpp Require Import base option list strings pretty gmap.

Local Open Scope string_scope.
Local Open Scope Z_scope.

(** ** Machine integers *)

(** Conversion to [uint64]: the value modulo 2^64. *)
Definition to_uint64 (z : Z) : Z := z mod 2 ^ 64.

(** Conversion to [int64]: two's complement reading of the low 64 bits. *)
Definition to_int64 (z : Z) : Z := (z + 2 ^ 63) mod 2 ^ 64 - 2 ^ 63.

(** [Int64] of [big.Int]: the low 64 bits of the magnitude, read as [int64],
    negated (in [int64]) when the number is negative. *)
Definition bigInt64 (x : Z) : Z :=
  let v := to_int64 (Z.abs x mod 2 ^ 64) in
  if x <? 0 then to_int64 (- v) else v.

(** [strconv.FormatUint(u, 10)] and the [%d] rendering of an unsigned value. *)
Definition FormatUint (u : Z) : string := pretty (Z.to_N u).

(** [String] of [big.Int]: decimal digits with a leading minus sign. *)
Definition bigString (x : Z) : string := pretty x.

(** ** Errors and results *)

(** Go [error] values; [gorm.ErrRecordNotFound] is the one the code tells apart
    (with [errors.Is]). *)
Inductive error : Type :=
| ErrRecordNotFound
| ErrOther (msg : string).

Definition isRecordNotFound (e : error) : bool :=
  match e with ErrRecordNotFound => true | ErrOther _ => false end.

(** A Go result [(T, error)] of which only one side is meaningful. *)
Inductive result (A : Type) : Type :=
| Ok (a : A)
| Err (e : error).
Arguments Ok {A} a.
Arguments Err {A} e.

(** A Go result holding a pointer and an error: the pointer may be [nil]
    whatever the error is. *)
Definition ptrResult (A : Type) : Type := (option A * option error)%type.

(** ** Data model *)

(** [types.Log] (go-ethereum): the fields the watcher reads. *)
Record Log : Type := mkLog {
  Topics : list Z;
  TxHash : string;
  Index : Z;
  BlockNumber : Z;
  Removed : bool
}.

Module RouterLock.
Record t : Type := mk {
  TargetChain : Z;
  Token : string;
  Receiver : list Byte.byte;
  Amount : Z;
  ServiceFee : Z;
  Raw : Log
}.
End RouterLock.

Module RouterBurn.
Record t : Type := mk {
  Token : string;
  Amount : Z;
  TargetChain : Z;
  Receiver : list Byte.byte;
  Raw : Log
}.
End RouterBurn.

Module RouterMint.
Record t : Type := mk {
  SourceChain : Z;
  TransactionId : string;
  Token : string;
  Amount : Z;
  Receiver : string;
  Raw : Log
}.
End RouterMint.

Module RouterUnlock.
Record t : Type := mk {
  SourceChain : Z;
  TransactionId : string;
  Token : string;
  Amount : Z;
  Receiver : string;
  Raw : Log
}.
End RouterUnlock.

(** [asset.NativeAsset] of the configuration: the fields the handlers read. *)
Module asset.
Record NativeAsset : Type := mk {
  MinAmount : Z;
  Asset : string;
  ChainId : Z
}.
End asset.

(** [transfer.Transfer] (package [model/transfer]). *)
Record Transfer : Type := mkTransfer {
  TransactionId : string;
  SourceChainId : Z;
  TargetChainId : Z;
  NativeChainId : Z;
  SourceAsset : string;
  TargetAsset : string;
  NativeAsset : string;
  Receiver : string;
  Amount : string;
  Timestamp : string
}.

(** The queue topics the handlers name (package [constants]). *)
Inductive QueueTopic : Type :=
| HederaFeeTransfer
| HederaMintHtsTransfer
| TopicMessageSubmission
| ReadOnlyHederaTransfer
| ReadOnlyHederaMintHtsTransfer
| ReadOnlyTransferSave.

(** The topics whose consumers sign or submit, and the recording ones. *)
Definition isSigningTopic (t : QueueTopic) : bool :=
  match t with
  | HederaFeeTransfer | HederaMintHtsTransfer | TopicMessageSubmission => true
  | _ => false
  end.

Definition isReadOnlyTopic (t : QueueTopic) : bool :=
  match t with
  | ReadOnlyHederaTransfer | ReadOnlyHederaMintHtsTransfer | ReadOnlyTransferSave => true
  | _ => false
  end.

(** [queue.Message]. *)
Record Message : Type := mkMessage {
  Payload : Transfer;
  Topic : QueueTopic
}.

(** Calls into package [metrics], recorded in call order. *)
Inductive MetricCall : Type :=
| CreateMajorityReachedIfNotExists (sourceChainId targetChainId : Z) (asset transferID : string)
| CreateFeeTransferredIfNotExists (sourceChainId targetChainId : Z) (asset transferID : string)
| CreateUserGetHisTokensIfNotExists (sourceChainId targetChainId : Z) (asset transferID : string)
| SetUserGetHisTokens (sourceChainId targetChainId : Z) (asset transferID : string).

Inductive Level : Type := LTrace | LDebug | LInfo | LError.

(** [FilterConfig]: the event ids and the chunk size ([abi], [topics] and
    [addresses] only feed the log query). *)
Record FilterConfig : Type := mkFilterConfig {
  mintHash : Z;
  burnHash : Z;
  lockHash : Z;
  unlockHash : Z;
  memberUpdatedHash : Z;
  maxLogsBlocks : Z
}.

(** [Watcher]: its own fields; the collaborators it holds ([repository],
    [contracts], [prometheusService], [evmClient], [mappings]) are [Env]. *)
Record Watcher : Type := mkWatcher {
  dbIdentifier : string;
  targetBlock : Z;
  sleepDuration : Z;
  validator : bool;
  filterConfig : FilterConfig
}.

(** The event ids read off the parsed router ABI. *)
Record EventIDs : Type := mkEventIDs {
  idMint : Z;
  idBurn : Z;
  idLock : Z;
  idUnlock : Z;
  idMemberUpdated : Z
}.

(** The answers of the collaborators during one step (one construction, one
    poll iteration or one handler call). *)
Record Env : Type := mkEnv {
  (* client.EVM *)
  RetryBlockNumber : result Z;
  BlockConfirmations : Z;
  RetryFilterLogs : Z -> Z -> result (list Log);
  ChainID : ptrResult Z;
  GetBlockTimestamp : Z -> Z;
  (* service.Contracts *)
  ParseLockLog : Log -> ptrResult RouterLock.t;
  ParseUnlockLog : Log -> ptrResult RouterUnlock.t;
  ParseMintLog : Log -> ptrResult RouterMint.t;
  ParseBurnLog : Log -> ptrResult RouterBurn.t;
  RemoveDecimals : Z -> string -> ptrResult Z;
  (* c.Assets *)
  WrappedToNative : string -> Z -> option asset.NativeAsset;
  NativeToWrapped : string -> Z -> Z -> string;
  FungibleNativeAsset : Z -> string -> option asset.NativeAsset;
  GetOppositeAsset : Z -> Z -> string -> string;
  (* service.Prometheus *)
  GetIsMonitoringEnabled : bool;
  (* hedera.AccountIDFromBytes followed by String, common.BytesToAddress
     followed by String *)
  AccountIDFromBytes : list Byte.byte -> result string;
  BytesToAddress : list Byte.byte -> string;
  (* abi.JSON on the router ABI *)
  RouterABI : result EventIDs;
  (* faults of the status repository, per operation *)
  GetFault : option string;
  CreateFault : option string;
  UpdateFault : option string
}.

(** ** The world the watcher acts on *)

Record World : Type := mkWorld {
  store : gmap string Z;
  queue : list Message;
  metrics : list MetricCall;
  logged : list (Level * string);
  reloads : nat;
  slept : list Z
}.

Definition setStore (s : gmap string Z) (w : World) : World :=
  mkWorld s (queue w) (metrics w) (logged w) (reloads w) (slept w).
Definition addMessage (m : Message) (w : World) : World :=
  mkWorld (store w) (queue w ++ [m]) (metrics w) (logged w) (reloads w) (slept w).
Definition addMetric (c : MetricCall) (w : World) : World :=
  mkWorld (store w) (queue w) (metrics w ++ [c]) (logged w) (reloads w) (slept w).
Definition addLog (l : Level * string) (w : World) : World :=
  mkWorld (store w) (queue w) (metrics w) (logged w ++ [l]) (reloads w) (slept w).
Definition addReload (w : World) : World :=
  mkWorld (store w) (queue w) (metrics w) (logged w) (S (reloads w)) (slept w).
Definition addSleep (d : Z) (w : World) : World :=
  mkWorld (store w) (queue w) (metrics w) (logged w) (reloads w) (slept w ++ [d]).

(** ** The monad: state, with a crash (panic) and a process exit (fatal) *)

Inductive Outcome (A : Type) : Type :=
| Ret (a : A) (w : World)
| Panic (w : World)
| Fatal (w : World).
Arguments Ret {A} a w.
Arguments Panic {A} w.
Arguments Fatal {A} w.

Definition Go (A : Type) : Type := World -> Outcome A.

(** The world an outcome leaves behind, and the value it returns, if any. *)
Definition worldOf {A : Type} (o : Outcome A) : World :=
  match o with
  | Ret _ w | Panic w | Fatal w => w
  end.

Definition returned {A : Type} (o : Outcome A) : option A :=
  match o with
  | Ret a _ => Some a
  | Panic _ | Fatal _ => None
  end.

Definition panicked {A : Type} (o : Outcome A) : bool :=
  match o with
  | Panic _ => true
  | Ret _ _ | Fatal _ => false
  end.

#[global] Instance Go_ret : MRet Go := fun A a w => Ret a w.
#[global] Instance Go_bind : MBind Go := fun A B f m w =>
  match m w with
  | Ret a w' => f a w'
  | Panic w' => Panic w'
  | Fatal w' => Fatal w'
  end.

Definition panic {A : Type} : Go A := fun w => Panic w.
Definition modify (f : World -> World) : Go unit := fun w => Ret tt (f w).

(** Dereference of a pointer: a [nil] one panics. *)
Definition deref {A : Type} (p : option A) : Go A :=
  match p with
  | Some a => mret a
  | None => panic
  end.

(** The logger: level and format string are recorded; [Fatalf] logs and exits. *)
Definition logf (l : Level) (fmt : string) : Go unit := modify (addLog (l, fmt)).
Definition Tracef : string -> Go unit := logf LTrace.
Definition Debugf : string -> Go unit := logf LDebug.
Definition Infof : string -> Go unit := logf LInfo.
Definition Errorf : string -> Go unit := logf LError.
Definition Fatalf {A : Type} (fmt : string) : Go A := fun w => Fatal (addLog (LError, fmt) w).

Definition Push (m : Message) : Go unit := modify (addMessage m).
Definition metric (c : MetricCall) : Go unit := modify (addMetric c).
Definition Sleep (d : Z) : Go unit := modify (addSleep d).

(** ** The status repository (progress store) *)

(** Modelled from the spec: the implementation of [repository.Status] is not
    among the sources.  Its contract (section 4.2) is
    [Get(identity) -> (block, NotFound|error)], [Create(identity, block) -> error]
    and [Update(identity, block) -> error], with read-your-writes consistency
    for one identity; [Update] force-sets the entry.  An operation that fails
    leaves the rows as they are. *)
Definition repository_Get (env : Env) (id : string) : Go (result Z) := fun w =>
  match GetFault env with
  | Some msg => Ret (Err (ErrOther msg)) w
  | None =>
      match store w !! id with
      | Some b => Ret (Ok b) w
      | None => Ret (Err ErrRecordNotFound) w
      end
  end.

Definition repository_Create (env : Env) (id : string) (b : Z) : Go (option error) := fun w =>
  match CreateFault env with
  | Some msg => Ret (Some (ErrOther msg)) w
  | None => Ret None (setStore (<[id:=b]> (store w)) w)
  end.

Definition repository_Update (env : Env) (id : string) (b : Z) : Go (option error) := fun w =>
  match UpdateFault env with
  | Some msg => Ret (Some (ErrOther msg)) w
  | None => Ret None (setStore (<[id:=b]> (store w)) w)
  end.

(** Modelled from the spec: [helper.Max] (package [big-numbers]) is not among
    the sources; the spec reads the call as a maximum.  Its result is stored
    in the [uint64] field [targetBlock], so it is the maximum of two [uint64]. *)
Definition Max (x y : Z) : Z := if x <? y then y else x.

(** ** Constants of the watcher *)

Definition defaultMaxLogsBlocks : Z := 500.

(** [15 * time.Second], in nanoseconds. *)
Definition defaultSleepDuration : Z := 15 * 1000000000.

Section Watcher.

(** [constants.HederaNetworkId]: the chain id of the Hedera network.  The
    constant is declared outside the sources, so the watcher is parametric
    in it. *)
Variable HederaNetworkId : Z.

(** *** Handlers *)

Definition handleMintLog (env : Env) (ew : Watcher) (eventLog : RouterMint.t) : Go unit :=
  Infof "[%s] - New Mint Event Log received.";;
  if Removed (RouterMint.Raw eventLog) then
    Debugf "[%s] - Uncle block transaction was removed."
  else
    let '(chain, e) := ChainID env in
    if e is Some _ then
      Errorf "[%s] - Failed to retrieve chain ID."
    else
      let transactionId := RouterMint.TransactionId eventLog in
      let sourceChainId := bigInt64 (RouterMint.SourceChain eventLog) in
      chain ← deref chain;
      let targetChainId := bigInt64 chain in
      let oppositeToken :=
        GetOppositeAsset env (to_uint64 sourceChainId) (to_uint64 targetChainId)
          (RouterMint.Token eventLog) in
      metric (SetUserGetHisTokens sourceChainId targetChainId oppositeToken transactionId).

Definition handleUnlockLog (env : Env) (ew : Watcher) (eventLog : RouterUnlock.t) : Go unit :=
  Debugf "[%s] - New Unlock Event Log received.";;
  if Removed (RouterUnlock.Raw eventLog) then
    Errorf "[%s] - Uncle block transaction was removed."
  else
    let '(chain, e) := ChainID env in
    if e is Some _ then
      Errorf "[%s] - Failed to retrieve chain ID."
    else
      let transactionId := RouterUnlock.TransactionId eventLog in
      let sourceChainId := bigInt64 (RouterUnlock.SourceChain eventLog) in
      chain ← deref chain;
      let targetChainId := bigInt64 chain in
      let oppositeToken :=
        GetOppositeAsset env (to_uint64 sourceChainId) (to_uint64 targetChainId)
          (RouterUnlock.Token eventLog) in
      metric (SetUserGetHisTokens sourceChainId targetChainId oppositeToken transactionId).

(** The last step of the Lock and Burn handlers: the choice of the topic.
    [hederaTopic] and [readOnlyHederaTopic] are the two topics the handler
    names for a transfer towards Hedera. *)
Definition dispatch (env : Env) (ew : Watcher) (raw : Log) (tr : Transfer)
    (hederaTopic readOnlyHederaTopic : QueueTopic) : Go unit :=
  let currentBlockNumber := BlockNumber raw in
  if validator ew && (targetBlock ew <=? currentBlockNumber) then
    if TargetChainId tr =? HederaNetworkId then
      Push {| Payload := tr; Topic := hederaTopic |}
    else
      Push {| Payload := tr; Topic := TopicMessageSubmission |}
  else
    let blockTimestamp := GetBlockTimestamp env (to_int64 (BlockNumber raw)) in
    let tr := mkTransfer (TransactionId tr) (SourceChainId tr) (TargetChainId tr)
                (NativeChainId tr) (SourceAsset tr) (TargetAsset tr) (NativeAsset tr)
                (Receiver tr) (Amount tr) (FormatUint blockTimestamp) in
    if TargetChainId tr =? HederaNetworkId then
      Push {| Payload := tr; Topic := readOnlyHederaTopic |}
    else
      Push {| Payload := tr; Topic := ReadOnlyTransferSave |}.

Definition handleBurnLog (env : Env) (ew : Watcher) (eventLog : RouterBurn.t) : Go unit :=
  let raw := RouterBurn.Raw eventLog in
  Debugf "[%s] - New Burn Event Log received.";;
  if Removed raw then
    Debugf "[%s] - Uncle block transaction was removed."
  else if (length (RouterBurn.Receiver eventLog) =? 0)%nat then
    Errorf "[%s] - Empty receiver account."
  else
    let '(chain, e) := ChainID env in
    if e is Some _ then
      Errorf "[%s] - Failed to retrieve chain ID."
    else
      chain ← deref chain;
      match WrappedToNative env (RouterBurn.Token eventLog) (bigInt64 chain) with
      | None => Errorf "[%s] - Failed to retrieve native asset of [%s]."
      | Some nativeAsset =>
          let sourceChainId := bigInt64 chain in
          let targetChainId := bigInt64 (RouterBurn.TargetChain eventLog) in
          let transactionId := TxHash raw +:+ "-" +:+ FormatUint (Index raw) in
          let token := RouterBurn.Token eventLog in
          (if GetIsMonitoringEnabled env then
             (if negb (targetChainId =? HederaNetworkId) then
                metric (CreateMajorityReachedIfNotExists sourceChainId targetChainId token transactionId)
              else
                metric (CreateFeeTransferredIfNotExists sourceChainId targetChainId token transactionId));;
             metric (CreateUserGetHisTokensIfNotExists sourceChainId targetChainId token transactionId)
           else mret tt);;
          (* This is the case when you are bridging wrapped to wrapped *)
          if negb (targetChainId =? asset.ChainId nativeAsset) then
            Errorf "[%s] - Wrapped to Wrapped transfers currently not supported [%s] - [%d] for [%d]"
          else
            match (if targetChainId =? HederaNetworkId
                   then AccountIDFromBytes env (RouterBurn.Receiver eventLog)
                   else Ok (BytesToAddress env (RouterBurn.Receiver eventLog))) with
            | Err _ => Errorf "[%s] - Failed to parse account from bytes [%v]. Error: [%s]."
            | Ok recipientAccount =>
                let '(properAmount, err) :=
                  if targetChainId =? HederaNetworkId
                  then RemoveDecimals env (RouterBurn.Amount eventLog) token
                  else (Some (RouterBurn.Amount eventLog), None) in
                if err is Some _ then
                  Errorf "[%s] - Failed to adjust [%s] amount [%s] decimals between chains."
                else
                  properAmount ← deref properAmount;
                  if properAmount =? 0 then
                    Errorf "[%s] - Insufficient amount provided: Event Amount [%s] and Proper Amount [%s]."
                  else if properAmount <? asset.MinAmount nativeAsset then
                    Errorf "[%s] - Transfer Amount [%s] less than Minimum Amount [%s]."
                  else
                    let burnEvent :=
                      {| TransactionId := transactionId;
                         SourceChainId := sourceChainId;
                         TargetChainId := targetChainId;
                         NativeChainId := asset.ChainId nativeAsset;
                         SourceAsset := token;
                         TargetAsset := asset.Asset nativeAsset;
                         NativeAsset := asset.Asset nativeAsset;
                         Receiver := recipientAccount;
                         Amount := bigString properAmount;
                         Timestamp := EmptyString |} in
                    Infof "[%s] - New Burn Event Log with Amount [%s], Receiver Address [%s] has been found.";;
                    dispatch env ew raw burnEvent HederaFeeTransfer ReadOnlyHederaTransfer
            end
      end.

Definition handleLockLog (env : Env) (ew : Watcher) (eventLog : RouterLock.t) : Go unit :=
  let raw := RouterLock.Raw eventLog in
  Debugf "[%s] - New Lock Event Log received.";;
  let transactionId := TxHash raw +:+ "-" +:+ FormatUint (Index raw) in
  let targetChainId := bigInt64 (RouterLock.TargetChain eventLog) in
  let token := RouterLock.Token eventLog in
  if Removed raw then
    Errorf "[%s] - Uncle block transaction was removed."
  else if (length (RouterLock.Receiver eventLog) =? 0)%nat then
    Errorf "[%s] - Empty receiver account."
  else
    let '(chain, e) := ChainID env in
    chain ← deref chain;
    let sourceChainId := bigInt64 chain in
    if e is Some _ then
      Errorf "[%s] - Failed to retrieve chain ID."
    else
      (if negb (targetChainId =? HederaNetworkId) then
         metric (CreateMajorityReachedIfNotExists sourceChainId targetChainId token transactionId)
       else mret tt);;
      metric (CreateUserGetHisTokensIfNotExists sourceChainId targetChainId token transactionId);;
      match (if targetChainId =? HederaNetworkId
             then AccountIDFromBytes env (RouterLock.Receiver eventLog)
             else Ok (BytesToAddress env (RouterLock.Receiver eventLog))) with
      | Err _ => Errorf "[%s] - Failed to parse account from bytes [%v]. Error: [%s]."
      | Ok recipientAccount =>
          let wrappedAsset := NativeToWrapped env token sourceChainId targetChainId in
          if String.eqb wrappedAsset EmptyString then
            Errorf "[%s] - Failed to retrieve native asset of [%s]."
          else
            nativeAsset ← deref (FungibleNativeAsset env sourceChainId token);
            if RouterLock.Amount eventLog <? asset.MinAmount nativeAsset then
              Errorf "[%s] - Transfer Amount [%s] less than Minimum Amount [%s]."
            else
              let properAmount := RouterLock.Amount eventLog - RouterLock.ServiceFee eventLog in
              let '(properAmount, err) :=
                if targetChainId =? HederaNetworkId
                then RemoveDecimals env properAmount token
                else (Some properAmount, None) in
              if err is Some _ then
                Errorf "[%s] - Failed to adjust [%s] amount [%s] decimals between chains."
              else
                properAmount ← deref properAmount;
                if properAmount =? 0 then
                  Errorf "[%s] - Insufficient amount provided: Event Amount [%s] and Proper Amount [%s]."
                else
                  let tr :=
                    {| TransactionId := transactionId;
                       SourceChainId := sourceChainId;
                       TargetChainId := targetChainId;
                       NativeChainId := sourceChainId;
                       SourceAsset := token;
                       TargetAsset := wrappedAsset;
                       NativeAsset := token;
                       Receiver := recipientAccount;
                       Amount := bigString properAmount;
                       Timestamp := EmptyString |} in
                  Infof "[%s] - New Lock Event Log with Amount [%s], Receiver Address [%s], Source Chain [%d] and Target Chain [%d] has been found.";;
                  dispatch env ew raw tr HederaMintHtsTransfer ReadOnlyHederaMintHtsTransfer
      end.

(** *** The poll loop *)

(** The body of the loop over the fetched logs in [processLogs].  A parsed
    event is a pointer: the error branch reads [Raw.TxHash] through it for
    the log line, and each handler reads it for its first log line. *)
Definition processLog (env : Env) (ew : Watcher) (log : Log) : Go unit :=
  match Topics log with
  | [] => mret tt
  | topic0 :: _ =>
      if topic0 =? lockHash (filterConfig ew) then
        let '(lock, err) := ParseLockLog env log in
        if err is Some _ then
          deref lock;;
          Errorf "Could not parse lock log [%s]. Error [%s]."
        else
          lock ← deref lock;
          handleLockLog env ew lock
      else if topic0 =? unlockHash (filterConfig ew) then
        let '(unlock, err) := ParseUnlockLog env log in
        if err is Some _ then
          deref unlock;;
          Errorf "Could not parse unlock log [%s]. Error [%s]."
        else
          unlock ← deref unlock;
          handleUnlockLog env ew unlock
      else if topic0 =? mintHash (filterConfig ew) then
        let '(mint, err) := ParseMintLog env log in
        if err is Some _ then
          deref mint;;
          Errorf "Could not parse mint log [%s]. Error [%s]."
        else
          mint ← deref mint;
          handleMintLog env ew mint
      else if topic0 =? burnHash (filterConfig ew) then
        let '(burn, err) := ParseBurnLog env log in
        if err is Some _ then
          deref burn;;
          Errorf "Could not parse burn log [%s]. Error [%s]."
        else
          burn ← deref burn;
          handleBurnLog env ew burn
      else if topic0 =? memberUpdatedHash (filterConfig ew) then
        (* go ew.contracts.ReloadMembers() *)
        modify addReload
      else mret tt
  end.

Fixpoint forEachLog (env : Env) (ew : Watcher) (logs : list Log) : Go unit :=
  match logs with
  | [] => mret tt
  | log :: rest => processLog env ew log;; forEachLog env ew rest
  end.

Definition processLogs (env : Env) (ew : Watcher) (fromBlock endBlock : Z) : Go (option error) :=
  match RetryFilterLogs env fromBlock endBlock with
  | Err err =>
      Errorf "Failed to filter logs. Error: [%s]";;
      mret (Some err)
  | Ok logs =>
      forEachLog env ew logs;;
      (* Given that the log filtering boundaries are inclusive,
         the next time log filtering is done will start from the next block,
         so that processing of duplicate events does not occur *)
      let blockToBeUpdated := to_int64 (endBlock + 1) in
      err ← repository_Update env (dbIdentifier ew) blockToBeUpdated;
      match err with
      | Some err =>
          Errorf "Failed to update latest processed block [%d]. Error: [%s]";;
          mret (Some err)
      | None => mret None
      end
  end.

(** One turn of the [for] loop of [beginWatching]; the value returned is the
    block range handed to [processLogs] and the error it answered, if the
    turn got that far. *)
Definition pollIteration (env : Env) (ew : Watcher) : Go (option (Z * Z * option error)) :=
  r ← repository_Get env (dbIdentifier ew);
  match r with
  | Err _ =>
      Errorf "Failed to retrieve EVM Watcher Status fromBlock. Error: [%s]";;
      mret None
  | Ok fromBlock =>
      match RetryBlockNumber env with
      | Err _ =>
          Errorf "Failed to retrieve latest block number. Error [%s]";;
          Sleep (sleepDuration ew);;
          mret None
      | Ok currentBlock =>
          let toBlock := to_int64 (to_uint64 (currentBlock - BlockConfirmations env)) in
          if toBlock <? fromBlock then
            Sleep (sleepDuration ew);;
            mret None
          else
            let toBlock :=
              if maxLogsBlocks (filterConfig ew) <? to_int64 (toBlock - fromBlock)
              then to_int64 (fromBlock + maxLogsBlocks (filterConfig ew))
              else toBlock in
            err ← processLogs env ew fromBlock toBlock;
            match err with
            | Some _ =>
                Errorf "Failed to process logs. Error: [%s].";;
                Sleep (sleepDuration ew);;
                mret (Some (fromBlock, toBlock, err))
            | None =>
                Sleep (sleepDuration ew);;
                mret (Some (fromBlock, toBlock, None))
            end
      end
  end.

(** The [for] loop, run for as many turns as there are collaborator answers:
    every finite prefix of the endless loop is one such run. *)
Fixpoint pollLoop (envs : list Env) (ew : Watcher) : Go unit :=
  match envs with
  | [] => mret tt
  | env :: rest => pollIteration env ew;; pollLoop rest ew
  end.

(** [beginWatching]: the first read of the store is retried (by the recursive
    call) until it succeeds, then the loop runs. *)
Fixpoint beginWatching (envs : list Env) (ew : Watcher) : Go unit :=
  match envs with
  | [] => mret tt
  | env :: rest =>
      r ← repository_Get env (dbIdentifier ew);
      match r with
      | Err _ =>
          Errorf "Failed to retrieve EVM Watcher Status fromBlock. Error: [%s]";;
          Sleep (sleepDuration ew);;
          beginWatching rest ew
      | Ok _ =>
          Infof "Processing events from [%d]";;
          pollLoop rest ew
      end
  end.

End Watcher.

(** *** Construction *)

(** The start-up target block: [helper.Max(0, currentBlock-BlockConfirmations())],
    the subtraction being one of [uint64]. *)
Definition initialTargetBlock (currentBlock confirmations : Z) : Z :=
  Max 0 (to_uint64 (currentBlock - confirmations)).

Definition NewWatcher (env : Env) (dbIdentifier : string) (startBlock : Z)
    (validator : bool) (pollingInterval maxLogsBlocks : Z) : Go Watcher :=
  match RetryBlockNumber env with
  | Err _ => Fatalf "Could not retrieve latest block. Error: [%s]."
  | Ok currentBlock =>
      let targetBlock := initialTargetBlock currentBlock (BlockConfirmations env) in
      match RouterABI env with
      | Err _ => Fatalf "Failed to parse router ABI. Error: [%s]"
      | Ok abi =>
          let maxLogsBlocks :=
            if maxLogsBlocks =? 0 then defaultMaxLogsBlocks else maxLogsBlocks in
          let filterConfig :=
            {| mintHash := idMint abi;
               burnHash := idBurn abi;
               lockHash := idLock abi;
               unlockHash := idUnlock abi;
               memberUpdatedHash := idMemberUpdated abi;
               maxLogsBlocks := maxLogsBlocks |} in
          let pollingInterval :=
            if pollingInterval =? 0 then defaultSleepDuration
            else to_int64 (pollingInterval * 1000000000) in
          targetBlock ←
            (if startBlock =? 0 then
               r ← repository_Get env dbIdentifier;
               match r with
               | Err err =>
                   if isRecordNotFound err then
                     err ← repository_Create env dbIdentifier (to_int64 targetBlock);
                     if err is Some _ then
                       Fatalf "[%s] - Failed to create Transfer Watcher timestamp. Error: [%s]"
                     else
                       Tracef "[%s] - Created new Transfer Watcher timestamp [%s]";;
                       mret targetBlock
                   else
                     Fatalf "[%s] - Failed to fetch last Transfer Watcher timestamp. Error: [%s]"
               | Ok _ => mret targetBlock
               end
             else
               err ← repository_Update env dbIdentifier startBlock;
               if err is Some _ then
                 Fatalf "[%s] - Failed to update Transfer Watcher Status timestamp. Error [%s]"
               else
                 Tracef "[%s] - Updated Transfer Watcher timestamp to [%s]";;
                 mret (to_uint64 startBlock));
          mret {| dbIdentifier := dbIdentifier;
                  targetBlock := targetBlock;
                  sleepDuration := pollingInterval;
                  validator := validator;
                  filterConfig := filterConfig |}
      end
  end.

(** ** The transfer repository: guarded status updates *)

Module TransferRepository.

(** [entity.Transfer]: the key and the status columns (the other columns are
    not touched by the status updates). *)
Record Transfer : Type := mkTransfer {
  TransactionID : string;
  Status : string;
  SignatureMsgStatus : string;
  EthTxMsgStatus : string;
  EthTxStatus : string;
  EthTxHash : string
}.

(** [Repository]: the table behind [dbClient], keyed by [transaction_id]; the
    error the database answers every statement with, if it is failing; the
    logger's output. *)
Record Repository : Type := mkRepository {
  rows : gmap string Transfer;
  dbError : option string;
  logged : list string
}.

(** The assignment [column = value] on one row; [None] for a column the
    table does not have. *)
Definition setColumn (column value : string) (t : Transfer) : option Transfer :=
  if String.eqb column "status" then
    Some (mkTransfer (TransactionID t) value (SignatureMsgStatus t) (EthTxMsgStatus t)
            (EthTxStatus t) (EthTxHash t))
  else if String.eqb column "signature_msg_status" then
    Some (mkTransfer (TransactionID t) (Status t) value (EthTxMsgStatus t)
            (EthTxStatus t) (EthTxHash t))
  else if String.eqb column "eth_tx_msg_status" then
    Some (mkTransfer (TransactionID t) (Status t) (SignatureMsgStatus t) value
            (EthTxStatus t) (EthTxHash t))
  else if String.eqb column "eth_tx_status" then
    Some (mkTransfer (TransactionID t) (Status t) (SignatureMsgStatus t) (EthTxMsgStatus t)
            value (EthTxHash t))
  else None.

(** [dbClient.Model(entity.Transfer{}).Where("transaction_id = ?", txId).
    UpdateColumn(column, value).Error]: the rows and the error.  No matching
    row is no error. *)
Definition UpdateColumn (tr : Repository) (txId column value : string)
    : gmap string Transfer * option error :=
  match dbError tr with
  | Some msg => (rows tr, Some (ErrOther msg))
  | None =>
      match rows tr !! txId with
      | None => (rows tr, None)
      | Some t =>
          match setColumn column value t with
          | Some t' => (<[txId := t']> (rows tr), None)
          | None => (rows tr, Some (ErrOther "no such column"))
          end
      end
  end.

Fixpoint isValidStatus (status : string) (possibleStatuses : list string) : bool :=
  match possibleStatuses with
  | [] => false
  | option :: rest =>
      if String.eqb status option then true else isValidStatus status rest
  end.

Definition baseUpdateStatus (tr : Repository) (statusColumn txId status : string)
    (possibleStatuses : list string) : Repository * option error :=
  if negb (isValidStatus status possibleStatuses) then
    (tr, Some (ErrOther "invalid status"))
  else
    let '(rows', err) := UpdateColumn tr txId statusColumn status in
    match err with
    | None =>
        (mkRepository rows' (dbError tr) (logged tr ++ ["[%s] - Column [%s] status to [%s]"]), None)
    | Some e => (mkRepository rows' (dbError tr) (logged tr), Some e)
    end.

Section Statuses.

(** The status constants of package [entity/transfer], declared outside the
    sources: the repository is parametric in them. *)
Variables StatusSignatureSubmitted StatusSignatureMined StatusSignatureFailed : string.
Variables StatusEthTxSubmitted StatusEthTxMined StatusEthTxReverted : string.
Variables StatusEthTxMsgSubmitted StatusEthTxMsgMined StatusEthTxMsgFailed : string.

Definition updateSignatureStatus (tr : Repository) (txId status : string)
    : Repository * option error :=
  baseUpdateStatus tr "signature_msg_status" txId status
    [StatusSignatureSubmitted; StatusSignatureMined; StatusSignatureFailed].

Definition updateEthereumTxStatus (tr : Repository) (txId status : string)
    : Repository * option error :=
  baseUpdateStatus tr "eth_tx_status" txId status
    [StatusEthTxSubmitted; StatusEthTxMined; StatusEthTxReverted].

Definition updateEthereumTxMsgStatus (tr : Repository) (txId status : string)
    : Repository * option error :=
  baseUpdateStatus tr "eth_tx_msg_status" txId status
    [StatusEthTxMsgSubmitted; StatusEthTxMsgMined; StatusEthTxMsgFailed].

Definition UpdateStatusSignatureMined (tr : Repository) (txId : string)
    : Repository * option error :=
  updateSignatureStatus tr txId StatusSignatureMined.

Definition UpdateStatusSignatureFailed (tr : Repository) (txId : string)
    : Repository * option error :=
  updateSignatureStatus tr txId StatusSignatureFailed.


(** *** The other updates and the queries of the repository *)

(** The remaining status constants of package [entity/transfer]. *)
Variables StatusInitial StatusInsufficientFee StatusInProgress StatusCompleted : string.
Variables StatusFailed StatusRecovered : string.

Definition updateStatus (tr : Repository) (txId status : string)
    : Repository * option error :=
  (* Sanity check *)
  if negb (String.eqb status StatusInitial)
     && negb (String.eqb status StatusInsufficientFee)
     && negb (String.eqb status StatusInProgress)
     && negb (String.eqb status StatusCompleted) then
    (tr, Some (ErrOther "invalid signature status"))
  else
    let '(rows', err) := UpdateColumn tr txId "status" status in
    match err with
    | None =>
        (mkRepository rows' (dbError tr) (logged tr ++ ["Updated Status of TX [%s] to [%s]"]), None)
    | Some e => (mkRepository rows' (dbError tr) (logged tr), Some e)
    end.

Definition UpdateStatusInsufficientFee (tr : Repository) (txId : string)
    : Repository * option error :=
  updateStatus tr txId StatusInsufficientFee.

Definition UpdateStatusCompleted (tr : Repository) (txId : string)
    : Repository * option error :=
  updateStatus tr txId StatusCompleted.

Definition UpdateStatusEthTxMsgSubmitted (tr : Repository) (txId : string)
    : Repository * option error :=
  updateEthereumTxMsgStatus tr txId StatusEthTxMsgSubmitted.

Definition UpdateStatusEthTxMsgMined (tr : Repository) (txId : string)
    : Repository * option error :=
  updateEthereumTxMsgStatus tr txId StatusEthTxMsgMined.

Definition UpdateStatusEthTxMsgFailed (tr : Repository) (txId : string)
    : Repository * option error :=
  updateEthereumTxMsgStatus tr txId StatusEthTxMsgFailed.

(** gorm's [Updates] with a struct writes the non-zero fields of the struct
    only: a column whose field is the empty string keeps its value. *)
Definition nonZero (value old : string) : string :=
  if String.eqb value EmptyString then old else value.

Definition mergeNonZero (values t : Transfer) : Transfer :=
  mkTransfer (nonZero (TransactionID values) (TransactionID t))
    (nonZero (Status values) (Status t))
    (nonZero (SignatureMsgStatus values) (SignatureMsgStatus t))
    (nonZero (EthTxMsgStatus values) (EthTxMsgStatus t))
    (nonZero (EthTxStatus values) (EthTxStatus t))
    (nonZero (EthTxHash values) (EthTxHash t)).

(** [dbClient.Model(entity.Transfer{}).Where("transaction_id = ?", txId).
    Updates(values).Error]: the rows and the error. *)
Definition Updates (tr : Repository) (txId : string) (values : Transfer)
    : gmap string Transfer * option error :=
  match dbError tr with
  | Some msg => (rows tr, Some (ErrOther msg))
  | None =>
      match rows tr !! txId with
      | None => (rows tr, None)
      | Some t => (<[txId := mergeNonZero values t]> (rows tr), None)
      end
  end.

(** The tail the four composite updates share: the debug line is written on
    success only, and the error is handed back. *)
Definition afterUpdates (tr : Repository) (res : gmap string Transfer * option error)
    (line : string) : Repository * option error :=
  let '(rows', err) := res in
  match err with
  | None => (mkRepository rows' (dbError tr) (logged tr ++ [line]), None)
  | Some e => (mkRepository rows' (dbError tr) (logged tr), Some e)
  end.

Definition UpdateStatusSignatureSubmitted (tr : Repository) (txId : string)
    : Repository * option error :=
  afterUpdates tr
    (Updates tr txId
       (mkTransfer EmptyString StatusInProgress StatusSignatureSubmitted EmptyString
          EmptyString EmptyString))
    "[%s] - Updated Status to [%s] and SignatureMsgStatus to [%s]".

Definition UpdateEthTxSubmitted (tr : Repository) (txId hash : string)
    : Repository * option error :=
  afterUpdates tr
    (Updates tr txId
       (mkTransfer EmptyString EmptyString EmptyString EmptyString StatusEthTxSubmitted hash))
    "[%s] - Updated Ethereum TX Status to [%s]".

Definition UpdateEthTxMined (tr : Repository) (txId : string)
    : Repository * option error :=
  afterUpdates tr
    (Updates tr txId
       (mkTransfer EmptyString StatusCompleted EmptyString EmptyString StatusEthTxMined
          EmptyString))
    "[%s] - Updated Ethereum TX Status to [%s] and Transfer status to [%s]".

Definition UpdateEthTxReverted (tr : Repository) (txId : string)
    : Repository * option error :=
  afterUpdates tr
    (Updates tr txId
       (mkTransfer EmptyString StatusFailed EmptyString EmptyString StatusEthTxReverted
          EmptyString))
    "Updated Ethereum TX Status of TX [%s] to [%s] and Transfer status to [%s]".

(** [GetByTransactionId]: a missing record is [(nil, nil)], any other error
    is handed back. *)
Definition GetByTransactionId (tr : Repository) (txId : string)
    : option Transfer * option error :=
  match dbError tr with
  | Some msg => (None, Some (ErrOther msg))
  | None => (rows tr !! txId, None)
  end.

(** [dbClient.Where(cond).Find(&transfers).Error]: the rows that satisfy the
    condition, in the order of the table. *)
Definition Find (tr : Repository) (cond : Transfer -> bool)
    : list Transfer * option error :=
  match dbError tr with
  | Some msg => ([], Some (ErrOther msg))
  | None => (List.filter cond (map snd (map_to_list (rows tr))), None)
  end.

Definition GetInitialAndSignatureSubmittedTx (tr : Repository)
    : list Transfer * option error :=
  let '(transfers, err) :=
    Find tr (fun t => String.eqb (Status t) StatusInitial
                      || String.eqb (Status t) StatusSignatureSubmitted) in
  match err with
  | Some e => ([], Some e)
  | None => (transfers, None)
  end.

Definition GetUnprocessedTransfers (tr : Repository)
    : list Transfer * option error :=
  let '(transfers, err) :=
    Find tr (fun t => String.eqb (Status t) StatusInitial
                      || String.eqb (Status t) StatusRecovered) in
  match err with
  | Some e => ([], Some e)
  | None => (transfers, None)
  end.

End Statuses.

End TransferRepository.

(** ** The handler of transfer messages (package [transfer] of the handlers) *)

Module TransferHandler.

(** [proto.TransferMessage]: the fields the handler reads. *)
Record TransferMessage : Type := mkTransferMessage {
  TransactionId : string;
  ExecuteEthTransaction : bool
}.

(** The answers of [encoding.NewTransferMessageFromBytes] and of the
    transfers service ([service.Transfers]) during one call of [Handle]. *)
Record Services : Type := mkServices {
  NewTransferMessageFromBytes : list Byte.byte -> ptrResult TransferMessage;
  InitiateNewTransfer : TransferMessage -> ptrResult TransferRepository.Transfer;
  VerifyFee : TransferMessage -> option error;
  ProcessTransfer : TransferMessage -> option error
}.

(** The calls into the transfers service, recorded in call order. *)
Inductive ServiceCall : Type :=
| CallInitiateNewTransfer (tm : TransferMessage)
| CallVerifyFee (tm : TransferMessage)
| CallProcessTransfer (tm : TransferMessage).

(** What a call of [Handle] leaves: the service calls, the logger's lines,
    and whether it ended in a panic. *)
Record Outcome : Type := mkOutcome {
  calls : list ServiceCall;
  logged : list (Level * string);
  panicked : bool
}.

Section Handler.

(** [transfer.StatusInitial] of package [entity/transfer]. *)
Variable StatusInitial : string.

Definition Handle (th : Services) (payload : list Byte.byte) : Outcome :=
  let '(transferMsg, err) := NewTransferMessageFromBytes th payload in
  if err is Some _ then
    mkOutcome [] [(LError, "Failed to parse incoming payload. Error: [%s].")] false
  else
    match transferMsg with
    | None => mkOutcome [] [] true
    | Some transferMsg =>
        let '(transactionRecord, err) := InitiateNewTransfer th transferMsg in
        let calls1 := [CallInitiateNewTransfer transferMsg] in
        if err is Some _ then
          mkOutcome calls1
            [(LError, "[%s] - Error occurred while initiating processing. Error: [%s]")] false
        else
          match transactionRecord with
          | None => mkOutcome calls1 [] true
          | Some transactionRecord =>
              if negb (String.eqb (TransferRepository.Status transactionRecord) StatusInitial) then
                mkOutcome calls1
                  [(LDebug, "[%s] - Previously added with status [%s]. Skipping further execution.")]
                  false
              else
                let '(calls2, feeErr) :=
                  if ExecuteEthTransaction transferMsg
                  then ((calls1 ++ [CallVerifyFee transferMsg])%list, VerifyFee th transferMsg)
                  else (calls1, None) in
                if feeErr is Some _ then
                  mkOutcome calls2
                    [(LError, "[%s] - Fee validation failed. Skipping further execution")] false
                else
                  let calls3 := (calls2 ++ [CallProcessTransfer transferMsg])%list in
                  if ProcessTransfer th transferMsg is Some _ then
                    mkOutcome calls3 [(LError, "[%s] - Processing failed. Error: [%s]")] false
                  else mkOutcome calls3 [] false
          end
    end.

End Handler.

End TransferHandler.

(** ** Concrete inputs used by the examples *)

Module Fixtures.

(** The chain ids of the examples: Hedera is 0, the watched chain is 1, and
    3 is another EVM chain. *)
Definition hedera : Z := 0.

Definition emptyWorld : World := mkWorld ∅ [] [] [] 0 [].

Definition rawLog (topic block : Z) (removed : bool) : Log :=
  mkLog [topic] "0xabc" 7 block removed.

Definition abi : EventIDs := mkEventIDs 11 12 13 14 15.

Definition lockEvent (target amount fee block : Z) (removed : bool) : RouterLock.t :=
  RouterLock.mk target "0xtoken" [Byte.x01] amount fee (rawLog 13 block removed).

Definition burnEvent (amount target block : Z) (removed : bool) : RouterBurn.t :=
  RouterBurn.mk "0xwrapped" amount target [Byte.x01] (rawLog 12 block removed).

Definition mintEvent (removed : bool) : RouterMint.t :=
  RouterMint.mk 3 "0.0.1-1" "0xwrapped" 5 "0xreceiver" (rawLog 11 100 removed).

Definition unlockEvent (removed : bool) : RouterUnlock.t :=
  RouterUnlock.mk 3 "0.0.1-1" "0xtoken" 5 "0xreceiver" (rawLog 14 100 removed).

(** Collaborators that answer without error; [minAmount] is the configured
    minimum of the one asset, [head] the chain head, [logs] what the log
    filter returns. *)
Definition env (minAmount head : Z) (logs : list Log) : Env :=
  {| RetryBlockNumber := Ok head;
     BlockConfirmations := 10;
     RetryFilterLogs := fun _ _ => Ok logs;
     ChainID := (Some 1, None);
     GetBlockTimestamp := fun _ => 1650000000;
     ParseLockLog := fun l => (Some (RouterLock.mk 3 "0xtoken" [Byte.x01] 1000 100 l), None);
     ParseUnlockLog := fun l => (Some (RouterUnlock.mk 3 "0.0.1-1" "0xtoken" 5 "0xreceiver" l), None);
     ParseMintLog := fun l => (Some (RouterMint.mk 3 "0.0.1-1" "0xwrapped" 5 "0xreceiver" l), None);
     ParseBurnLog := fun l => (Some (RouterBurn.mk "0xwrapped" 1000 3 [Byte.x01] l), None);
     RemoveDecimals := fun a _ => (Some (a / 10000000000), None);
     WrappedToNative := fun _ _ => Some (asset.mk minAmount "0xnative" 3);
     NativeToWrapped := fun _ _ _ => "0xwrapped";
     FungibleNativeAsset := fun _ _ => Some (asset.mk minAmount "0xtoken" 1);
     GetOppositeAsset := fun _ _ _ => "0xopposite";
     GetIsMonitoringEnabled := true;
     AccountIDFromBytes := fun _ => Ok "0.0.1234";
     BytesToAddress := fun _ => "0xreceiver";
     RouterABI := Ok abi;
     GetFault := None;
     CreateFault := None;
     UpdateFault := None |}.

(** The same collaborators with a failing chain-id lookup, a failing log
    parser (both answer a [nil] pointer with the error) and a failing log
    filter. *)
Definition withChainIDError (e : Env) : Env :=
  mkEnv (RetryBlockNumber e) (BlockConfirmations e) (RetryFilterLogs e)
    (None, Some (ErrOther "rpc timeout")) (GetBlockTimestamp e)
    (ParseLockLog e) (ParseUnlockLog e) (ParseMintLog e) (ParseBurnLog e)
    (RemoveDecimals e) (WrappedToNative e) (NativeToWrapped e) (FungibleNativeAsset e)
    (GetOppositeAsset e) (GetIsMonitoringEnabled e) (AccountIDFromBytes e)
    (BytesToAddress e) (RouterABI e) (GetFault e) (CreateFault e) (UpdateFault e).

Definition withParseError (e : Env) : Env :=
  mkEnv (RetryBlockNumber e) (BlockConfirmations e) (RetryFilterLogs e)
    (ChainID e) (GetBlockTimestamp e)
    (fun _ => (None, Some (ErrOther "abi: cannot unpack")))
    (ParseUnlockLog e) (ParseMintLog e) (ParseBurnLog e)
    (RemoveDecimals e) (WrappedToNative e) (NativeToWrapped e) (FungibleNativeAsset e)
    (GetOppositeAsset e) (GetIsMonitoringEnabled e) (AccountIDFromBytes e)
    (BytesToAddress e) (RouterABI e) (GetFault e) (CreateFault e) (UpdateFault e).

Definition withFilterError (e : Env) : Env :=
  mkEnv (RetryBlockNumber e) (BlockConfirmations e)
    (fun _ _ => Err (ErrOther "rpc timeout"))
    (ChainID e) (GetBlockTimestamp e)
    (ParseLockLog e) (ParseUnlockLog e) (ParseMintLog e) (ParseBurnLog e)
    (RemoveDecimals e) (WrappedToNative e) (NativeToWrapped e) (FungibleNativeAsset e)
    (GetOppositeAsset e) (GetIsMonitoringEnabled e) (AccountIDFromBytes e)
    (BytesToAddress e) (RouterABI e) (GetFault e) (CreateFault e) (UpdateFault e).

(** A validator whose live cutoff is block 100, and the same watcher in
    read-only mode. *)
Definition watcher (validator : bool) : Watcher :=
  {| dbIdentifier := "1-0xrouter";
     targetBlock := 100;
     sleepDuration := defaultSleepDuration;
     validator := validator;
     filterConfig := mkFilterConfig 11 12 13 14 15 defaultMaxLogsBlocks |}.

(** The status constants as the examples spell them. *)
Definition SignatureSubmitted : string := "SIGNATURE_SUBMITTED".
Definition SignatureMined : string := "SIGNATURE_MINED".
Definition SignatureFailed : string := "SIGNATURE_FAILED".

(** The store with the watermark of the example watcher at block 90. *)
Definition worldAt90 : World := setStore {[ "1-0xrouter" := 90 ]} emptyWorld.

(** A batch of two logs, a Lock and a Burn. *)
Definition batch : list Log := [rawLog 13 105 false; rawLog 12 106 false].

(** The transfer the example Lock event gives rise to, and the one of the
    example Burn event. *)
Definition lockTransfer (amount timestamp : string) : Transfer :=
  {| TransactionId := "0xabc-7";
     SourceChainId := 1;
     TargetChainId := 3;
     NativeChainId := 1;
     SourceAsset := "0xtoken";
     TargetAsset := "0xwrapped";
     NativeAsset := "0xtoken";
     Receiver := "0xreceiver";
     Amount := amount;
     Timestamp := timestamp |}.

Definition burnTransfer (amount timestamp : string) : Transfer :=
  {| TransactionId := "0xabc-7";
     SourceChainId := 1;
     TargetChainId := 3;
     NativeChainId := 3;
     SourceAsset := "0xwrapped";
     TargetAsset := "0xnative";
     NativeAsset := "0xnative";
     Receiver := "0xreceiver";
     Amount := amount;
     Timestamp := timestamp |}.

Definition repository : TransferRepository.Repository :=
  TransferRepository.mkRepository
    {[ "0xabc-7" := TransferRepository.mkTransfer "0xabc-7" "IN_PROGRESS" SignatureMined EmptyString EmptyString EmptyString ]}
    None [].

End Fixtures.


(** ** Further observations and inputs *)

(** Whether an outcome is the exit of a [log.Fatalf] call.  A panic is not
    counted here: [panicked] tells it apart. *)
Definition exited {A : Type} (o : Outcome A) : bool :=
  match o with
  | Fatal _ => true
  | Ret _ _ | Panic _ => false
  end.


Module MoreFixtures.

Import Fixtures.

(** The collaborators with monitoring switched off, and with a failing read
    of the status repository. *)
Definition withMonitoringOff (e : Env) : Env :=
  mkEnv (RetryBlockNumber e) (BlockConfirmations e) (RetryFilterLogs e)
    (ChainID e) (GetBlockTimestamp e)
    (ParseLockLog e) (ParseUnlockLog e) (ParseMintLog e) (ParseBurnLog e)
    (RemoveDecimals e) (WrappedToNative e) (NativeToWrapped e) (FungibleNativeAsset e)
    (GetOppositeAsset e) false (AccountIDFromBytes e)
    (BytesToAddress e) (RouterABI e) (GetFault e) (CreateFault e) (UpdateFault e).

Definition withGetFault (e : Env) : Env :=
  mkEnv (RetryBlockNumber e) (BlockConfirmations e) (RetryFilterLogs e)
    (ChainID e) (GetBlockTimestamp e)
    (ParseLockLog e) (ParseUnlockLog e) (ParseMintLog e) (ParseBurnLog e)
    (RemoveDecimals e) (WrappedToNative e) (NativeToWrapped e) (FungibleNativeAsset e)
    (GetOppositeAsset e) (GetIsMonitoringEnabled e) (AccountIDFromBytes e)
    (BytesToAddress e) (RouterABI e) (Some "connection refused") (CreateFault e)
    (UpdateFault e).

(** A Lock event of the example transaction at another log index, and the
    transfer it gives rise to. *)
Definition lockEventAt (index : Z) : RouterLock.t :=
  RouterLock.mk 3 "0xtoken" [Byte.x01] 1000 100 (mkLog [13] "0xabc" index 100 false).

Definition lockTransferAt (id : string) : Transfer :=
  {| TransactionId := id;
     SourceChainId := 1;
     TargetChainId := 3;
     NativeChainId := 1;
     SourceAsset := "0xtoken";
     TargetAsset := "0xwrapped";
     NativeAsset := "0xtoken";
     Receiver := "0xreceiver";
     Amount := "900";
     Timestamp := EmptyString |}.

(** Lock and Burn events without receiver bytes. *)
Definition lockWithoutReceiver : RouterLock.t :=
  RouterLock.mk 3 "0xtoken" [] 1000 100 (rawLog 13 100 false).

Definition burnWithoutReceiver : RouterBurn.t :=
  RouterBurn.mk "0xwrapped" 1000 3 [] (rawLog 12 100 false).

(** The watcher [NewWatcher] builds from the example collaborators at head
    120, without an explicit start block and with the default settings. *)
Definition builtWatcher : Watcher :=
  {| dbIdentifier := "1-0xrouter";
     targetBlock := 110;
     sleepDuration := 15000000000;
     validator := true;
     filterConfig := mkFilterConfig 11 12 13 14 15 500 |}.

(** The row of the example repository, and the repository with a failing
    database. *)
Definition row : TransferRepository.Transfer :=
  TransferRepository.mkTransfer "0xabc-7" "IN_PROGRESS" SignatureMined EmptyString
    EmptyString "0xhash".

Definition repositoryWithHash : TransferRepository.Repository :=
  TransferRepository.mkRepository {[ "0xabc-7" := row ]} None [].

Definition failingRepository : TransferRepository.Repository :=
  TransferRepository.mkRepository {[ "0xabc-7" := row ]} (Some "connection refused") [].

(** A transfer message that asks for the Ethereum transaction, and a
    transfers service that knows the transfer as new and accepts its fee. *)
Definition message : TransferHandler.TransferMessage :=
  TransferHandler.mkTransferMessage "0.0.1-1" true.

Definition services : TransferHandler.Services :=
  TransferHandler.mkServices
    (fun _ => (Some message, None))
    (fun _ => (Some (TransferRepository.mkTransfer "0.0.1-1" "INITIAL" EmptyString
                       EmptyString EmptyString EmptyString), None))
    (fun _ => None)
    (fun _ => None).

End MoreFixtures.

(** * Properties *)

(** ** Machine integers and number rendering *)

Lemma to_int64_small z : - 2 ^ 63 <= z < 2 ^ 63 -> to_int64 z = z.
Proof. intros Hz. unfold to_int64. rewrite Z.mod_small; lia. Qed.

Lemma to_uint64_small z : 0 <= z < 2 ^ 64 -> to_uint64 z = z.
Proof. intros Hz. unfold to_uint64. apply Z.mod_small. lia. Qed.

Lemma to_int64_range z : - 2 ^ 63 <= to_int64 z < 2 ^ 63.
Proof.
  unfold to_int64.
  pose proof (Z.mod_pos_bound (z + 2 ^ 63) (2 ^ 64) ltac:(lia)). lia.
Qed.

Lemma to_int64_to_uint64 z : to_int64 (to_uint64 z) = to_int64 z.
Proof.
  unfold to_int64, to_uint64. f_equal.
  rewrite Zplus_mod_idemp_l. reflexivity.
Qed.

Lemma pretty_N_go_length (x : N) (s : string) :
  (String.length s <= String.length (pretty_N_go x s))%nat.
Proof.
  revert s. induction (N.lt_wf_0 x) as [x _ IH]. intros s.
  destruct (decide (x = 0)%N) as [->|Hx].
  - rewrite pretty_N_go_0. lia.
  - rewrite pretty_N_go_step by lia.
    etrans; [|apply IH; apply N.div_lt; lia]. simpl. lia.
Qed.

Lemma pretty_N_nonempty (x : N) : pretty x ≠ EmptyString.
Proof.
  unfold pretty, pretty_N. case_decide as Hx; [discriminate|].
  rewrite pretty_N_go_step by lia. intros Heq.
  pose proof (pretty_N_go_length (x `div` 10)
    (String (pretty_N_char (x `mod` 10)) EmptyString)) as Hlen.
  rewrite Heq in Hlen. simpl in Hlen. lia.
Qed.

Lemma FormatUint_nonempty u : FormatUint u ≠ EmptyString.
Proof. apply pretty_N_nonempty. Qed.

(** ** Unfolding the monad *)

Ltac go_unfold :=
  unfold mbind, Go_bind, mret, Go_ret, Tracef, Debugf, Infof, Errorf, logf,
    Push, metric, Sleep, modify, deref, panic, Fatalf in *.

Ltac go_run := go_unfold; cbn in *.

Section WatcherProperties.

Variable HederaNetworkId : Z.

(** ** Topic selection *)

(** [dispatch] always pushes exactly one message; the payload is [tr] with,
    off the live path, the block's timestamp filled in. *)
Lemma dispatch_pushes env ew raw tr hederaTopic readOnlyHederaTopic w :
  exists m,
    dispatch HederaNetworkId env ew raw tr hederaTopic readOnlyHederaTopic w
      = Ret tt (addMessage m w)
    /\ Amount (Payload m) = Amount tr
    /\ TargetChainId (Payload m) = TargetChainId tr
    /\ (validator ew && (targetBlock ew <=? BlockNumber raw) = true ->
        Payload m = tr
        /\ Topic m = (if TargetChainId tr =? HederaNetworkId
                         then hederaTopic else TopicMessageSubmission))
    /\ (validator ew && (targetBlock ew <=? BlockNumber raw) = false ->
        Timestamp (Payload m)
          = FormatUint (GetBlockTimestamp env (to_int64 (BlockNumber raw)))
        /\ Topic m = (if TargetChainId tr =? HederaNetworkId
                         then readOnlyHederaTopic else ReadOnlyTransferSave)).
Proof.
  unfold dispatch.
  destruct (validator ew && (targetBlock ew <=? BlockNumber raw)) eqn:Hlive;
    cbn [TargetChainId];
    destruct (TargetChainId tr =? HederaNetworkId) eqn:Hh;
    eexists; (split; [reflexivity|]); cbn; repeat split; try discriminate;
    intros _; split; reflexivity.
Qed.

(** ** Orphaned logs *)

(** C10. A log whose [Removed] flag is set makes each of the four handlers
    return at once: the handler ends normally and the queue, the metrics and
    the progress store are what they were (only log lines are written). *)
Theorem removed_log_has_no_side_effect env ew w :
  (forall ev, Removed (RouterMint.Raw ev) = true ->
     exists w', handleMintLog env ew ev w = Ret tt w'
       /\ queue w' = queue w /\ metrics w' = metrics w /\ store w' = store w)
  /\ (forall ev, Removed (RouterBurn.Raw ev) = true ->
     exists w', handleBurnLog HederaNetworkId env ew ev w = Ret tt w'
       /\ queue w' = queue w /\ metrics w' = metrics w /\ store w' = store w)
  /\ (forall ev, Removed (RouterLock.Raw ev) = true ->
     exists w', handleLockLog HederaNetworkId env ew ev w = Ret tt w'
       /\ queue w' = queue w /\ metrics w' = metrics w /\ store w' = store w)
  /\ (forall ev, Removed (RouterUnlock.Raw ev) = true ->
     exists w', handleUnlockLog env ew ev w = Ret tt w'
       /\ queue w' = queue w /\ metrics w' = metrics w /\ store w' = store w).
Proof.
  repeat split; intros ev Hremoved.
  - unfold handleMintLog. go_run. rewrite Hremoved. eauto.
  - unfold handleBurnLog. go_run. rewrite Hremoved. eauto.
  - unfold handleLockLog. go_run. rewrite Hremoved. eauto.
  - unfold handleUnlockLog. go_run. rewrite Hremoved. eauto.
Qed.

Ltac by_unchanged H :=
  cbn in H; first [discriminate H | left; simplify_eq; reflexivity].

Ltac use_dispatch H env ew m Hamount Htarget Hlive Hreadonly :=
  let Hd := fresh "Hd" in
  match type of H with
  | dispatch _ _ _ ?raw ?tr ?ht ?rt ?w0 = _ =>
      destruct (dispatch_pushes env ew raw tr ht rt w0)
        as (m & Hd & Hamount & Htarget & Hlive & Hreadonly)
  end;
  rewrite Hd in H; simplify_eq; cbn in Hamount, Htarget, Hlive, Hreadonly.

Ltac finish_routing Hlive Hreadonly :=
  first [ destruct Hlive as [-> ?]; [assumption|reflexivity]
        | apply Hlive; assumption
        | apply Hreadonly; assumption ].

Lemma handleLockLog_pushed env ew ev w w' :
  handleLockLog HederaNetworkId env ew ev w = Ret tt w' ->
  queue w' = queue w \/
  exists chain na proper m,
    Removed (RouterLock.Raw ev) = false
    /\ RouterLock.Receiver ev <> []
    /\ ChainID env = (Some chain, None)
    /\ NativeToWrapped env (RouterLock.Token ev) (bigInt64 chain)
         (bigInt64 (RouterLock.TargetChain ev)) <> EmptyString
    /\ FungibleNativeAsset env (bigInt64 chain) (RouterLock.Token ev) = Some na
    /\ asset.MinAmount na <= RouterLock.Amount ev
    /\ (if bigInt64 (RouterLock.TargetChain ev) =? HederaNetworkId
        then RemoveDecimals env (RouterLock.Amount ev - RouterLock.ServiceFee ev)
               (RouterLock.Token ev) = (Some proper, None)
        else proper = RouterLock.Amount ev - RouterLock.ServiceFee ev)
    /\ proper <> 0
    /\ queue w' = (queue w ++ [m])%list
    /\ Amount (Payload m) = bigString proper
    /\ TargetChainId (Payload m) = bigInt64 (RouterLock.TargetChain ev)
    /\ (validator ew && (targetBlock ew <=? BlockNumber (RouterLock.Raw ev)) = true ->
        Timestamp (Payload m) = EmptyString
        /\ Topic m = (if bigInt64 (RouterLock.TargetChain ev) =? HederaNetworkId
                         then HederaMintHtsTransfer else TopicMessageSubmission))
    /\ (validator ew && (targetBlock ew <=? BlockNumber (RouterLock.Raw ev)) = false ->
        Timestamp (Payload m)
          = FormatUint (GetBlockTimestamp env (to_int64 (BlockNumber (RouterLock.Raw ev))))
        /\ Topic m = (if bigInt64 (RouterLock.TargetChain ev) =? HederaNetworkId
                         then ReadOnlyHederaMintHtsTransfer else ReadOnlyTransferSave)).
Proof.
  intros Hrun. unfold handleLockLog in Hrun. go_unfold. cbn -[dispatch] in Hrun.
  destruct (Removed (RouterLock.Raw ev)) eqn:Hremoved; [by_unchanged Hrun|].
  destruct (RouterLock.Receiver ev) as [|b bs] eqn:Hreceiver; [by_unchanged Hrun|].
  cbn -[dispatch] in Hrun.
  destruct (ChainID env) as [[chain|] [e|]] eqn:Hchain; try by_unchanged Hrun.
  destruct (bigInt64 (RouterLock.TargetChain ev) =? HederaNetworkId) eqn:Hhedera;
    cbn -[dispatch] in Hrun.
  - destruct (AccountIDFromBytes env (b :: bs)) as [recipient|]; [|by_unchanged Hrun].
    destruct (String.eqb_spec (NativeToWrapped env (RouterLock.Token ev) (bigInt64 chain)
                (bigInt64 (RouterLock.TargetChain ev))) EmptyString) as [|Hwrapped];
      [by_unchanged Hrun|].
    destruct (FungibleNativeAsset env (bigInt64 chain) (RouterLock.Token ev))
      as [na|] eqn:Hnative; [|by_unchanged Hrun].
    cbn -[dispatch] in Hrun.
    destruct (RouterLock.Amount ev <? asset.MinAmount na) eqn:Hmin; [by_unchanged Hrun|].
    apply Z.ltb_ge in Hmin.
    destruct (RemoveDecimals env (RouterLock.Amount ev - RouterLock.ServiceFee ev)
                (RouterLock.Token ev)) as [[proper|] [e|]] eqn:Hdecimals;
      try by_unchanged Hrun.
    cbn -[dispatch] in Hrun.
    destruct (proper =? 0) eqn:Hzero; [by_unchanged Hrun|].
    apply Z.eqb_neq in Hzero.
    use_dispatch Hrun env ew m Hamount Htarget Hlive Hreadonly.
    right. exists chain, na, proper, m. rewrite Hhedera in *.
    repeat split; try done; finish_routing Hlive Hreadonly.
  - destruct (String.eqb_spec (NativeToWrapped env (RouterLock.Token ev) (bigInt64 chain)
                (bigInt64 (RouterLock.TargetChain ev))) EmptyString) as [|Hwrapped];
      [by_unchanged Hrun|].
    destruct (FungibleNativeAsset env (bigInt64 chain) (RouterLock.Token ev))
      as [na|] eqn:Hnative; [|by_unchanged Hrun].
    cbn -[dispatch] in Hrun.
    destruct (RouterLock.Amount ev <? asset.MinAmount na) eqn:Hmin; [by_unchanged Hrun|].
    apply Z.ltb_ge in Hmin.
    cbn -[dispatch] in Hrun.
    destruct (RouterLock.Amount ev - RouterLock.ServiceFee ev =? 0) eqn:Hzero;
      [by_unchanged Hrun|].
    apply Z.eqb_neq in Hzero.
    use_dispatch Hrun env ew m Hamount Htarget Hlive Hreadonly.
    right. exists chain, na, (RouterLock.Amount ev - RouterLock.ServiceFee ev), m.
    rewrite Hhedera in *.
    repeat split; try done; finish_routing Hlive Hreadonly.
Qed.

Lemma handleBurnLog_pushed env ew ev w w' :
  handleBurnLog HederaNetworkId env ew ev w = Ret tt w' ->
  queue w' = queue w \/
  exists chain na proper m,
    Removed (RouterBurn.Raw ev) = false
    /\ RouterBurn.Receiver ev <> []
    /\ ChainID env = (Some chain, None)
    /\ WrappedToNative env (RouterBurn.Token ev) (bigInt64 chain) = Some na
    /\ asset.ChainId na = bigInt64 (RouterBurn.TargetChain ev)
    /\ (if bigInt64 (RouterBurn.TargetChain ev) =? HederaNetworkId
        then RemoveDecimals env (RouterBurn.Amount ev) (RouterBurn.Token ev)
               = (Some proper, None)
        else proper = RouterBurn.Amount ev)
    /\ proper <> 0
    /\ asset.MinAmount na <= proper
    /\ queue w' = (queue w ++ [m])%list
    /\ Amount (Payload m) = bigString proper
    /\ TargetChainId (Payload m) = bigInt64 (RouterBurn.TargetChain ev)
    /\ (validator ew && (targetBlock ew <=? BlockNumber (RouterBurn.Raw ev)) = true ->
        Timestamp (Payload m) = EmptyString
        /\ Topic m = (if bigInt64 (RouterBurn.TargetChain ev) =? HederaNetworkId
                         then HederaFeeTransfer else TopicMessageSubmission))
    /\ (validator ew && (targetBlock ew <=? BlockNumber (RouterBurn.Raw ev)) = false ->
        Timestamp (Payload m)
          = FormatUint (GetBlockTimestamp env (to_int64 (BlockNumber (RouterBurn.Raw ev))))
        /\ Topic m = (if bigInt64 (RouterBurn.TargetChain ev) =? HederaNetworkId
                         then ReadOnlyHederaTransfer else ReadOnlyTransferSave)).
Proof.
  intros Hrun. unfold handleBurnLog in Hrun. go_unfold. cbn -[dispatch] in Hrun.
  destruct (Removed (RouterBurn.Raw ev)) eqn:Hremoved; [by_unchanged Hrun|].
  destruct (RouterBurn.Receiver ev) as [|b bs] eqn:Hreceiver; [by_unchanged Hrun|].
  cbn -[dispatch] in Hrun.
  destruct (ChainID env) as [[chain|] [e|]] eqn:Hchain; try by_unchanged Hrun.
  cbn -[dispatch] in Hrun.
  destruct (WrappedToNative env (RouterBurn.Token ev) (bigInt64 chain))
    as [na|] eqn:Hnative; [|by_unchanged Hrun].
  destruct (GetIsMonitoringEnabled env);
    destruct (bigInt64 (RouterBurn.TargetChain ev) =? HederaNetworkId) eqn:Hhedera;
    cbn -[dispatch] in Hrun;
    (destruct (bigInt64 (RouterBurn.TargetChain ev) =? asset.ChainId na) eqn:Hhome;
      [|by_unchanged Hrun]);
    apply Z.eqb_eq in Hhome; cbn -[dispatch] in Hrun;
    try (destruct (AccountIDFromBytes env (b :: bs)) as [recipient|];
         [|by_unchanged Hrun]);
    try (destruct (RemoveDecimals env (RouterBurn.Amount ev) (RouterBurn.Token ev))
           as [[proper|] [e|]] eqn:Hdecimals; try by_unchanged Hrun; [idtac]);
    cbn -[dispatch] in Hrun;
    match type of Hrun with
    | context [?p =? 0] =>
        destruct (p =? 0) eqn:Hzero; [by_unchanged Hrun|];
        destruct (p <? asset.MinAmount na) eqn:Hmin; [by_unchanged Hrun|];
        apply Z.eqb_neq in Hzero; apply Z.ltb_ge in Hmin;
        use_dispatch Hrun env ew m Hamount Htarget Hlive Hreadonly;
        right; exists chain, na, p, m
    end;
    rewrite Hhedera in *;
    repeat split; try done; finish_routing Hlive Hreadonly.
Qed.

(** ** Amount rules of the Lock handler *)

(** C2 (amended). For a Lock event that reaches the amount checks (not
    removed, a receiver, a chain id, a parsed recipient, a wrapped asset and
    a native asset [na]), with [proper] the amount minus the service fee,
    decimal-adjusted when the target is Hedera: the handler ends normally;
    it pushes nothing when the event's own amount (before the fee) is below
    [asset.MinAmount na] or when [proper] is zero; otherwise it pushes exactly one
    message, whose amount is [proper] in decimal. *)
Theorem lock_amount_rule env ew ev w chain na recipient proper :
  Removed (RouterLock.Raw ev) = false ->
  RouterLock.Receiver ev <> [] ->
  ChainID env = (Some chain, None) ->
  (if bigInt64 (RouterLock.TargetChain ev) =? HederaNetworkId
   then AccountIDFromBytes env (RouterLock.Receiver ev) = Ok recipient
   else recipient = BytesToAddress env (RouterLock.Receiver ev)) ->
  NativeToWrapped env (RouterLock.Token ev) (bigInt64 chain)
    (bigInt64 (RouterLock.TargetChain ev)) <> EmptyString ->
  FungibleNativeAsset env (bigInt64 chain) (RouterLock.Token ev) = Some na ->
  (if bigInt64 (RouterLock.TargetChain ev) =? HederaNetworkId
   then RemoveDecimals env (RouterLock.Amount ev - RouterLock.ServiceFee ev)
          (RouterLock.Token ev) = (Some proper, None)
   else proper = RouterLock.Amount ev - RouterLock.ServiceFee ev) ->
  exists w',
    handleLockLog HederaNetworkId env ew ev w = Ret tt w'
    /\ (if (RouterLock.Amount ev <? asset.MinAmount na) || (proper =? 0)
        then queue w' = queue w
        else exists m, queue w' = (queue w ++ [m])%list
                       /\ Amount (Payload m) = bigString proper).
Proof.
  intros Hremoved Hreceiver Hchain Hrecipient Hwrapped Hnative Hproper.
  unfold handleLockLog. go_unfold. cbn -[dispatch].
  rewrite Hremoved. destruct (RouterLock.Receiver ev) as [|b bs] eqn:Hbytes; [done|].
  cbn -[dispatch]. rewrite Hchain. cbn -[dispatch].
  apply String.eqb_neq in Hwrapped.
  destruct (bigInt64 (RouterLock.TargetChain ev) =? HederaNetworkId) eqn:Hhedera;
    cbn -[dispatch]; rewrite ?Hrecipient, Hwrapped, Hnative; cbn -[dispatch];
    rewrite ?Hproper; subst;
    (destruct (RouterLock.Amount ev <? asset.MinAmount na); cbn -[dispatch]; [eauto|]);
    match goal with
    | |- context [?p =? 0] => destruct (p =? 0); cbn -[dispatch]; [eauto|]
    end;
    match goal with
    | |- context [dispatch _ _ _ ?raw ?tr ?ht ?rt ?w0] =>
        destruct (dispatch_pushes env ew raw tr ht rt w0) as (m & -> & Hamount & _)
    end;
    eexists; (split; [reflexivity|]); exists m; (split; [reflexivity|exact Hamount]).
Qed.

(** ** Amounts of the pushed transfers *)

Lemma pushed_one (q : list Message) (m m' : Message) :
  (q ++ [m])%list = (q ++ [m'])%list -> m = m'.
Proof. intros Heq. apply app_inj_tail in Heq. tauto. Qed.

Lemma pushed_not_unchanged (q : list Message) (m : Message) : (q ++ [m])%list <> q.
Proof.
  intros Heq. apply (f_equal (@length Message)) in Heq.
  rewrite length_app in Heq. simpl in Heq. lia.
Qed.

(** C6 (amended). A transfer pushed by the Burn handler carries a non-zero
    amount that is at least the configured minimum of the resolved native
    asset, hence a strictly positive one when that minimum is not negative.
    A transfer pushed by the Lock handler carries a non-zero amount (the
    event's amount minus the service fee, decimal-adjusted towards Hedera),
    and it is the event's amount before the fee that is at least the
    configured minimum. *)
Theorem pushed_amount_bounds env ew w w' m :
  (forall ev,
     handleBurnLog HederaNetworkId env ew ev w = Ret tt w' ->
     queue w' = (queue w ++ [m])%list ->
     exists chain na proper,
       ChainID env = (Some chain, None)
       /\ WrappedToNative env (RouterBurn.Token ev) (bigInt64 chain) = Some na
       /\ Amount (Payload m) = bigString proper
       /\ proper <> 0
       /\ asset.MinAmount na <= proper
       /\ (0 <= asset.MinAmount na -> 0 < proper))
  /\ (forall ev,
     handleLockLog HederaNetworkId env ew ev w = Ret tt w' ->
     queue w' = (queue w ++ [m])%list ->
     exists chain na proper,
       ChainID env = (Some chain, None)
       /\ FungibleNativeAsset env (bigInt64 chain) (RouterLock.Token ev) = Some na
       /\ Amount (Payload m) = bigString proper
       /\ proper <> 0
       /\ asset.MinAmount na <= RouterLock.Amount ev
       /\ (if bigInt64 (RouterLock.TargetChain ev) =? HederaNetworkId
           then RemoveDecimals env (RouterLock.Amount ev - RouterLock.ServiceFee ev)
                  (RouterLock.Token ev) = (Some proper, None)
           else proper = RouterLock.Amount ev - RouterLock.ServiceFee ev)).
Proof.
  split; intros ev Hrun Hpushed.
  - destruct (handleBurnLog_pushed _ _ _ _ _ Hrun)
      as [Hsame|(chain & na & proper & m' & ? & ? & ? & ? & ? & ? & ? & ? & Hq & ? & ?)].
    + rewrite Hsame in Hpushed. symmetry in Hpushed.
      by apply pushed_not_unchanged in Hpushed.
    + rewrite Hq in Hpushed. apply pushed_one in Hpushed as ->.
      exists chain, na, proper. repeat split; try done. lia.
  - destruct (handleLockLog_pushed _ _ _ _ _ Hrun)
      as [Hsame|(chain & na & proper & m' & ? & ? & ? & ? & ? & ? & ? & ? & Hq & ? & ?)].
    + rewrite Hsame in Hpushed. symmetry in Hpushed.
      by apply pushed_not_unchanged in Hpushed.
    + rewrite Hq in Hpushed. apply pushed_one in Hpushed as ->.
      exists chain, na, proper. repeat split; done.
Qed.

(** ** Topic selection of the Lock and Burn handlers *)

(** A Lock event that passes every check of the handler is pushed. *)
Lemma handleLockLog_accepts env ew ev w chain na recipient proper :
  Removed (RouterLock.Raw ev) = false ->
  RouterLock.Receiver ev <> [] ->
  ChainID env = (Some chain, None) ->
  (if bigInt64 (RouterLock.TargetChain ev) =? HederaNetworkId
   then AccountIDFromBytes env (RouterLock.Receiver ev) = Ok recipient
   else recipient = BytesToAddress env (RouterLock.Receiver ev)) ->
  NativeToWrapped env (RouterLock.Token ev) (bigInt64 chain)
    (bigInt64 (RouterLock.TargetChain ev)) <> EmptyString ->
  FungibleNativeAsset env (bigInt64 chain) (RouterLock.Token ev) = Some na ->
  asset.MinAmount na <= RouterLock.Amount ev ->
  (if bigInt64 (RouterLock.TargetChain ev) =? HederaNetworkId
   then RemoveDecimals env (RouterLock.Amount ev - RouterLock.ServiceFee ev)
          (RouterLock.Token ev) = (Some proper, None)
   else proper = RouterLock.Amount ev - RouterLock.ServiceFee ev) ->
  proper <> 0 ->
  exists w' m,
    handleLockLog HederaNetworkId env ew ev w = Ret tt w'
    /\ queue w' = (queue w ++ [m])%list.
Proof.
  intros Hremoved Hreceiver Hchain Hrecipient Hwrapped Hnative Hmin Hproper Hzero.
  unfold handleLockLog. go_unfold. cbn -[dispatch].
  rewrite Hremoved. destruct (RouterLock.Receiver ev) as [|b bs] eqn:Hbytes; [done|].
  cbn -[dispatch]. rewrite Hchain. cbn -[dispatch].
  apply String.eqb_neq in Hwrapped. apply Z.ltb_ge in Hmin. apply Z.eqb_neq in Hzero.
  destruct (bigInt64 (RouterLock.TargetChain ev) =? HederaNetworkId) eqn:Hhedera;
    cbn -[dispatch]; rewrite ?Hrecipient, Hwrapped, Hnative; cbn -[dispatch];
    rewrite Hmin; cbn -[dispatch]; rewrite ?Hproper; subst; cbn -[dispatch];
    rewrite Hzero; cbn -[dispatch];
    match goal with
    | |- context [dispatch _ _ _ ?raw ?tr ?ht ?rt ?w0] =>
        destruct (dispatch_pushes env ew raw tr ht rt w0) as (m & -> & _)
    end;
    eexists _, m; split; reflexivity.
Qed.

(** A Burn event that passes every check of the handler is pushed. *)
Lemma handleBurnLog_accepts env ew ev w chain na recipient proper :
  Removed (RouterBurn.Raw ev) = false ->
  RouterBurn.Receiver ev <> [] ->
  ChainID env = (Some chain, None) ->
  WrappedToNative env (RouterBurn.Token ev) (bigInt64 chain) = Some na ->
  asset.ChainId na = bigInt64 (RouterBurn.TargetChain ev) ->
  (if bigInt64 (RouterBurn.TargetChain ev) =? HederaNetworkId
   then AccountIDFromBytes env (RouterBurn.Receiver ev) = Ok recipient
   else recipient = BytesToAddress env (RouterBurn.Receiver ev)) ->
  (if bigInt64 (RouterBurn.TargetChain ev) =? HederaNetworkId
   then RemoveDecimals env (RouterBurn.Amount ev) (RouterBurn.Token ev)
          = (Some proper, None)
   else proper = RouterBurn.Amount ev) ->
  proper <> 0 ->
  asset.MinAmount na <= proper ->
  exists w' m,
    handleBurnLog HederaNetworkId env ew ev w = Ret tt w'
    /\ queue w' = (queue w ++ [m])%list.
Proof.
  intros Hremoved Hreceiver Hchain Hnative Hhome Hrecipient Hproper Hzero Hmin.
  unfold handleBurnLog. go_unfold. cbn -[dispatch].
  rewrite Hremoved. destruct (RouterBurn.Receiver ev) as [|b bs] eqn:Hbytes; [done|].
  cbn -[dispatch]. rewrite Hchain. cbn -[dispatch]. rewrite Hnative, Hhome, Z.eqb_refl.
  apply Z.ltb_ge in Hmin. apply Z.eqb_neq in Hzero.
  destruct (GetIsMonitoringEnabled env);
    destruct (bigInt64 (RouterBurn.TargetChain ev) =? HederaNetworkId) eqn:Hhedera;
    cbn -[dispatch]; rewrite ?Hrecipient, ?Hproper; subst; cbn -[dispatch];
    rewrite Hzero, Hmin; cbn -[dispatch];
    match goal with
    | |- context [dispatch _ _ _ ?raw ?tr ?ht ?rt ?w0] =>
        destruct (dispatch_pushes env ew raw tr ht rt w0) as (m & -> & _)
    end;
    eexists _, m; split; reflexivity.
Qed.

(** Whatever message the Lock handler pushes is routed by the watcher's mode
    and the log's block. *)
Lemma handleLockLog_routing env ew ev w w' m :
  handleLockLog HederaNetworkId env ew ev w = Ret tt w' ->
  queue w' = (queue w ++ [m])%list ->
  TargetChainId (Payload m) = bigInt64 (RouterLock.TargetChain ev)
  /\ (validator ew = true /\ targetBlock ew <= BlockNumber (RouterLock.Raw ev) ->
      Timestamp (Payload m) = EmptyString
      /\ Topic m = (if TargetChainId (Payload m) =? HederaNetworkId
                       then HederaMintHtsTransfer else TopicMessageSubmission)
      /\ isSigningTopic (Topic m) = true)
  /\ (validator ew = false \/ BlockNumber (RouterLock.Raw ev) < targetBlock ew ->
      Timestamp (Payload m) <> EmptyString
      /\ Timestamp (Payload m)
         = FormatUint (GetBlockTimestamp env (to_int64 (BlockNumber (RouterLock.Raw ev))))
      /\ Topic m = (if TargetChainId (Payload m) =? HederaNetworkId
                       then ReadOnlyHederaMintHtsTransfer else ReadOnlyTransferSave)
      /\ isReadOnlyTopic (Topic m) = true
      /\ isSigningTopic (Topic m) = false).
Proof.
  intros Hrun Hpushed.
  destruct (handleLockLog_pushed _ _ _ _ _ Hrun)
    as [Hsame|(chain & na & proper & m' & _ & _ & _ & _ & _ & _ & _ & _
               & Hq & _ & Htarget & Hlive & Hreadonly)].
  { rewrite Hsame in Hpushed. symmetry in Hpushed.
    by apply pushed_not_unchanged in Hpushed. }
  rewrite Hq in Hpushed. apply pushed_one in Hpushed as ->.
  rewrite Htarget. split; [reflexivity|]. split.
  - intros [Hv Hb]. apply Z.leb_le in Hb.
    destruct Hlive as [Hts Htopic]; [by rewrite Hv, Hb|].
    rewrite Hts, Htopic. repeat split. by case_match.
  - intros Hnot.
    assert (validator ew && (targetBlock ew <=? BlockNumber (RouterLock.Raw ev)) = false)
      as Hoff.
    { destruct Hnot as [-> | Hb]; [done|].
      apply andb_false_iff. right. by apply Z.leb_gt. }
    destruct (Hreadonly Hoff) as [Hts Htopic].
    rewrite Hts, Htopic. repeat split; try by case_match.
    apply FormatUint_nonempty.
Qed.

(** Whatever message the Burn handler pushes is routed by the watcher's mode
    and the log's block. *)
Lemma handleBurnLog_routing env ew ev w w' m :
  handleBurnLog HederaNetworkId env ew ev w = Ret tt w' ->
  queue w' = (queue w ++ [m])%list ->
  TargetChainId (Payload m) = bigInt64 (RouterBurn.TargetChain ev)
  /\ (validator ew = true /\ targetBlock ew <= BlockNumber (RouterBurn.Raw ev) ->
      Timestamp (Payload m) = EmptyString
      /\ Topic m = (if TargetChainId (Payload m) =? HederaNetworkId
                       then HederaFeeTransfer else TopicMessageSubmission)
      /\ isSigningTopic (Topic m) = true)
  /\ (validator ew = false \/ BlockNumber (RouterBurn.Raw ev) < targetBlock ew ->
      Timestamp (Payload m) <> EmptyString
      /\ Timestamp (Payload m)
         = FormatUint (GetBlockTimestamp env (to_int64 (BlockNumber (RouterBurn.Raw ev))))
      /\ Topic m = (if TargetChainId (Payload m) =? HederaNetworkId
                       then ReadOnlyHederaTransfer else ReadOnlyTransferSave)
      /\ isReadOnlyTopic (Topic m) = true
      /\ isSigningTopic (Topic m) = false).
Proof.
  intros Hrun Hpushed.
  destruct (handleBurnLog_pushed _ _ _ _ _ Hrun)
    as [Hsame|(chain & na & proper & m' & _ & _ & _ & _ & _ & _ & _ & _
               & Hq & _ & Htarget & Hlive & Hreadonly)].
  { rewrite Hsame in Hpushed. symmetry in Hpushed.
    by apply pushed_not_unchanged in Hpushed. }
  rewrite Hq in Hpushed. apply pushed_one in Hpushed as ->.
  rewrite Htarget. split; [reflexivity|]. split.
  - intros [Hv Hb]. apply Z.leb_le in Hb.
    destruct Hlive as [Hts Htopic]; [by rewrite Hv, Hb|].
    rewrite Hts, Htopic. repeat split. by case_match.
  - intros Hnot.
    assert (validator ew && (targetBlock ew <=? BlockNumber (RouterBurn.Raw ev)) = false)
      as Hoff.
    { destruct Hnot as [-> | Hb]; [done|].
      apply andb_false_iff. right. by apply Z.leb_gt. }
    destruct (Hreadonly Hoff) as [Hts Htopic].
    rewrite Hts, Htopic. repeat split; try by case_match.
    apply FormatUint_nonempty.
Qed.

(** C3 (amended). A Lock or Burn event that passes every check of its
    handler is pushed: the handler ends normally and appends exactly one
    message to the queue, routed by the watcher's mode and the log's block.
    In validator mode at or after the start-up target block the message
    carries no timestamp and goes, when the target chain is Hedera, to
    [HederaFeeTransfer] for a Burn and to [HederaMintHtsTransfer] for a Lock,
    and to [TopicMessageSubmission] otherwise; in every other case it carries
    the non-empty rendering of the source block's timestamp and goes to a
    read-only topic, never to a signing one.  The checks are: the log is not
    removed, there are receiver bytes, the chain id is known, the recipient
    parses, the asset resolves ([na], for a Burn with the target chain as its
    home chain), the amount [proper] adjusts and is not zero, and the minimum
    of [na] is met (by the event's amount for a Lock, by [proper] for a
    Burn).  No message of either handler is routed otherwise. *)
Theorem topic_selection env ew w :
  (forall ev chain na recipient proper,
     Removed (RouterLock.Raw ev) = false ->
     RouterLock.Receiver ev <> [] ->
     ChainID env = (Some chain, None) ->
     (if bigInt64 (RouterLock.TargetChain ev) =? HederaNetworkId
      then AccountIDFromBytes env (RouterLock.Receiver ev) = Ok recipient
      else recipient = BytesToAddress env (RouterLock.Receiver ev)) ->
     NativeToWrapped env (RouterLock.Token ev) (bigInt64 chain)
       (bigInt64 (RouterLock.TargetChain ev)) <> EmptyString ->
     FungibleNativeAsset env (bigInt64 chain) (RouterLock.Token ev) = Some na ->
     asset.MinAmount na <= RouterLock.Amount ev ->
     (if bigInt64 (RouterLock.TargetChain ev) =? HederaNetworkId
      then RemoveDecimals env (RouterLock.Amount ev - RouterLock.ServiceFee ev)
             (RouterLock.Token ev) = (Some proper, None)
      else proper = RouterLock.Amount ev - RouterLock.ServiceFee ev) ->
     proper <> 0 ->
     exists w' m,
       handleLockLog HederaNetworkId env ew ev w = Ret tt w'
       /\ queue w' = (queue w ++ [m])%list
       /\ TargetChainId (Payload m) = bigInt64 (RouterLock.TargetChain ev)
       /\ (validator ew = true /\ targetBlock ew <= BlockNumber (RouterLock.Raw ev) ->
           Timestamp (Payload m) = EmptyString
           /\ Topic m = (if TargetChainId (Payload m) =? HederaNetworkId
                            then HederaMintHtsTransfer else TopicMessageSubmission)
           /\ isSigningTopic (Topic m) = true)
       /\ (validator ew = false \/ BlockNumber (RouterLock.Raw ev) < targetBlock ew ->
           Timestamp (Payload m) <> EmptyString
           /\ Timestamp (Payload m)
              = FormatUint (GetBlockTimestamp env
                              (to_int64 (BlockNumber (RouterLock.Raw ev))))
           /\ Topic m = (if TargetChainId (Payload m) =? HederaNetworkId
                            then ReadOnlyHederaMintHtsTransfer else ReadOnlyTransferSave)
           /\ isReadOnlyTopic (Topic m) = true
           /\ isSigningTopic (Topic m) = false))
  /\ (forall ev chain na recipient proper,
     Removed (RouterBurn.Raw ev) = false ->
     RouterBurn.Receiver ev <> [] ->
     ChainID env = (Some chain, None) ->
     WrappedToNative env (RouterBurn.Token ev) (bigInt64 chain) = Some na ->
     asset.ChainId na = bigInt64 (RouterBurn.TargetChain ev) ->
     (if bigInt64 (RouterBurn.TargetChain ev) =? HederaNetworkId
      then AccountIDFromBytes env (RouterBurn.Receiver ev) = Ok recipient
      else recipient = BytesToAddress env (RouterBurn.Receiver ev)) ->
     (if bigInt64 (RouterBurn.TargetChain ev) =? HederaNetworkId
      then RemoveDecimals env (RouterBurn.Amount ev) (RouterBurn.Token ev)
             = (Some proper, None)
      else proper = RouterBurn.Amount ev) ->
     proper <> 0 ->
     asset.MinAmount na <= proper ->
     exists w' m,
       handleBurnLog HederaNetworkId env ew ev w = Ret tt w'
       /\ queue w' = (queue w ++ [m])%list
       /\ TargetChainId (Payload m) = bigInt64 (RouterBurn.TargetChain ev)
       /\ (validator ew = true /\ targetBlock ew <= BlockNumber (RouterBurn.Raw ev) ->
           Timestamp (Payload m) = EmptyString
           /\ Topic m = (if TargetChainId (Payload m) =? HederaNetworkId
                            then HederaFeeTransfer else TopicMessageSubmission)
           /\ isSigningTopic (Topic m) = true)
       /\ (validator ew = false \/ BlockNumber (RouterBurn.Raw ev) < targetBlock ew ->
           Timestamp (Payload m) <> EmptyString
           /\ Timestamp (Payload m)
              = FormatUint (GetBlockTimestamp env
                              (to_int64 (BlockNumber (RouterBurn.Raw ev))))
           /\ Topic m = (if TargetChainId (Payload m) =? HederaNetworkId
                            then ReadOnlyHederaTransfer else ReadOnlyTransferSave)
           /\ isReadOnlyTopic (Topic m) = true
           /\ isSigningTopic (Topic m) = false))
  /\ (forall ev w' m,
     handleLockLog HederaNetworkId env ew ev w = Ret tt w' ->
     queue w' = (queue w ++ [m])%list ->
     (validator ew = true /\ targetBlock ew <= BlockNumber (RouterLock.Raw ev) ->
        Timestamp (Payload m) = EmptyString
        /\ Topic m = (if TargetChainId (Payload m) =? HederaNetworkId
                         then HederaMintHtsTransfer else TopicMessageSubmission)
        /\ isSigningTopic (Topic m) = true)
     /\ (validator ew = false \/ BlockNumber (RouterLock.Raw ev) < targetBlock ew ->
        Timestamp (Payload m) <> EmptyString
        /\ Timestamp (Payload m)
           = FormatUint (GetBlockTimestamp env (to_int64 (BlockNumber (RouterLock.Raw ev))))
        /\ Topic m = (if TargetChainId (Payload m) =? HederaNetworkId
                         then ReadOnlyHederaMintHtsTransfer else ReadOnlyTransferSave)
        /\ isReadOnlyTopic (Topic m) = true
        /\ isSigningTopic (Topic m) = false))
  /\ (forall ev w' m,
     handleBurnLog HederaNetworkId env ew ev w = Ret tt w' ->
     queue w' = (queue w ++ [m])%list ->
     (validator ew = true /\ targetBlock ew <= BlockNumber (RouterBurn.Raw ev) ->
        Timestamp (Payload m) = EmptyString
        /\ Topic m = (if TargetChainId (Payload m) =? HederaNetworkId
                         then HederaFeeTransfer else TopicMessageSubmission)
        /\ isSigningTopic (Topic m) = true)
     /\ (validator ew = false \/ BlockNumber (RouterBurn.Raw ev) < targetBlock ew ->
        Timestamp (Payload m) <> EmptyString
        /\ Timestamp (Payload m)
           = FormatUint (GetBlockTimestamp env (to_int64 (BlockNumber (RouterBurn.Raw ev))))
        /\ Topic m = (if TargetChainId (Payload m) =? HederaNetworkId
                         then ReadOnlyHederaTransfer else ReadOnlyTransferSave)
        /\ isReadOnlyTopic (Topic m) = true
        /\ isSigningTopic (Topic m) = false)).
Proof.
  split; [|split; [|split]].
  - intros ev chain na recipient proper
      Hremoved Hreceiver Hchain Hrecipient Hwrapped Hnative Hmin Hproper Hzero.
    destruct (handleLockLog_accepts env ew ev w chain na recipient proper)
      as (w' & m & Hrun & Hpushed); try assumption.
    exists w', m. split; [assumption|]. split; [assumption|].
    exact (handleLockLog_routing _ _ _ _ _ _ Hrun Hpushed).
  - intros ev chain na recipient proper
      Hremoved Hreceiver Hchain Hnative Hhome Hrecipient Hproper Hzero Hmin.
    destruct (handleBurnLog_accepts env ew ev w chain na recipient proper)
      as (w' & m & Hrun & Hpushed); try assumption.
    exists w', m. split; [assumption|]. split; [assumption|].
    exact (handleBurnLog_routing _ _ _ _ _ _ Hrun Hpushed).
  - intros ev w' m Hrun Hpushed.
    exact (proj2 (handleLockLog_routing _ _ _ _ _ _ Hrun Hpushed)).
  - intros ev w' m Hrun Hpushed.
    exact (proj2 (handleBurnLog_routing _ _ _ _ _ _ Hrun Hpushed)).
Qed.

(** ** Wrapped-to-wrapped burns *)

(** C7. A Burn event whose token resolves to a native asset of another home
    chain than the event's target chain is dropped: the handler ends
    normally (no panic, no exit) and the queue and the progress store are
    what they were. *)
Theorem wrapped_to_wrapped_rejected env ew ev w chain na :
  ChainID env = (Some chain, None) ->
  WrappedToNative env (RouterBurn.Token ev) (bigInt64 chain) = Some na ->
  asset.ChainId na <> bigInt64 (RouterBurn.TargetChain ev) ->
  exists w',
    handleBurnLog HederaNetworkId env ew ev w = Ret tt w'
    /\ queue w' = queue w
    /\ store w' = store w.
Proof.
  intros Hchain Hnative Hhome.
  unfold handleBurnLog. go_unfold. cbn -[dispatch].
  destruct (Removed (RouterBurn.Raw ev)); [eauto|].
  destruct (RouterBurn.Receiver ev) as [|b bs]; [eauto|].
  cbn -[dispatch]. rewrite Hchain. cbn -[dispatch]. rewrite Hnative.
  assert ((bigInt64 (RouterBurn.TargetChain ev) =? asset.ChainId na) = false) as Hne
    by (apply Z.eqb_neq; congruence).
  destruct (GetIsMonitoringEnabled env);
    destruct (bigInt64 (RouterBurn.TargetChain ev) =? HederaNetworkId);
    cbn -[dispatch]; rewrite Hne; cbn; eauto.
Qed.

(** ** The watermark *)

Lemma processLogs_success env ew fromBlock endBlock w w' :
  processLogs HederaNetworkId env ew fromBlock endBlock w = Ret None w' ->
  store w' !! dbIdentifier ew = Some (to_int64 (endBlock + 1)).
Proof.
  unfold processLogs, repository_Update. intros Hrun.
  destruct (RetryFilterLogs env fromBlock endBlock) as [logs|e]; go_run;
    [|discriminate].
  destruct (forEachLog HederaNetworkId env ew logs w) as [[] w1|w1|w1];
    try discriminate.
  destruct (UpdateFault env); cbn in Hrun; simplify_eq.
  cbn. apply lookup_insert_eq.
Qed.

Lemma processLogs_completes env ew fromBlock endBlock w logs w1 :
  RetryFilterLogs env fromBlock endBlock = Ok logs ->
  forEachLog HederaNetworkId env ew logs w = Ret tt w1 ->
  UpdateFault env = None ->
  processLogs HederaNetworkId env ew fromBlock endBlock w
    = Ret None (setStore (<[dbIdentifier ew := to_int64 (endBlock + 1)]> (store w1)) w1).
Proof.
  intros Hfetch Hloop Hupdate. unfold processLogs, repository_Update.
  rewrite Hfetch. go_run. rewrite Hloop, Hupdate. reflexivity.
Qed.

Lemma processLogs_fetch_error env ew fromBlock endBlock w e :
  RetryFilterLogs env fromBlock endBlock = Err e ->
  processLogs HederaNetworkId env ew fromBlock endBlock w
    = Ret (Some e) (addLog (LError, "Failed to filter logs. Error: [%s]") w).
Proof. intros Hfetch. unfold processLogs. rewrite Hfetch. reflexivity. Qed.

(** The range a poll iteration works on: it starts at the stored watermark,
    ends at an [int64], and is handed to [processLogs] in the world the
    iteration started in. *)
Lemma pollIteration_range env ew w w' fromBlock toBlock err :
  pollIteration HederaNetworkId env ew w = Ret (Some (fromBlock, toBlock, err)) w' ->
  store w !! dbIdentifier ew = Some fromBlock
  /\ - 2 ^ 63 <= toBlock < 2 ^ 63
  /\ (exists currentBlock,
        RetryBlockNumber env = Ok currentBlock
        /\ toBlock =
           let head := to_int64 (to_uint64 (currentBlock - BlockConfirmations env)) in
           if maxLogsBlocks (filterConfig ew) <? to_int64 (head - fromBlock)
           then to_int64 (fromBlock + maxLogsBlocks (filterConfig ew))
           else head)
  /\ exists w1,
       processLogs HederaNetworkId env ew fromBlock toBlock w = Ret err w1
       /\ store w' = store w1 /\ queue w' = queue w1 /\ metrics w' = metrics w1.
Proof.
  unfold pollIteration, repository_Get. intros Hrun. go_unfold.
  destruct (GetFault env); [cbn in Hrun; discriminate|].
  destruct (store w !! dbIdentifier ew) as [f|] eqn:Hstored; [|cbn in Hrun; discriminate].
  cbn -[processLogs to_int64 to_uint64] in Hrun.
  destruct (RetryBlockNumber env) as [currentBlock|]; [|cbn in Hrun; discriminate].
  destruct (to_int64 (to_uint64 (currentBlock - BlockConfirmations env)) <? f);
    [cbn in Hrun; discriminate|].
  match type of Hrun with
  | context [processLogs _ _ _ ?a ?b ?c] =>
      destruct (processLogs HederaNetworkId env ew a b c) as [[e|] w1|w1|w1] eqn:Hprocess
  end; cbn -[to_int64 to_uint64] in Hrun; simplify_eq.
  - repeat split; try (case_match; apply to_int64_range); eauto 10.
  - repeat split; try (case_match; apply to_int64_range); eauto 10.
Qed.

(** C1. A poll iteration over the inclusive range [[fromBlock, toBlock]].
    When [processLogs] answers no error, the stored watermark is exactly
    [toBlock + 1], and that is where the next iteration starts.  The run of
    [processLogs] answers no error whenever the logs are fetched, the
    handlers return and the store accepts the update.  When the log fetch
    fails, the error is answered, the store and the queue are what they
    were, and the next iteration starts at the same [fromBlock] (and, the
    head and the confirmations being the same, ends at the same [toBlock]). *)
Theorem watermark_advances env ew fromBlock toBlock w :
  toBlock < 2 ^ 63 - 1 ->
  (forall w',
     pollIteration HederaNetworkId env ew w = Ret (Some (fromBlock, toBlock, None)) w' ->
     store w' !! dbIdentifier ew = Some (toBlock + 1)
     /\ forall env' w'' fromBlock' toBlock' err',
          pollIteration HederaNetworkId env' ew w'
            = Ret (Some (fromBlock', toBlock', err')) w'' ->
          fromBlock' = toBlock + 1)
  /\ (forall logs w1,
     - 2 ^ 63 <= toBlock ->
     RetryFilterLogs env fromBlock toBlock = Ok logs ->
     forEachLog HederaNetworkId env ew logs w = Ret tt w1 ->
     UpdateFault env = None ->
     exists w',
       processLogs HederaNetworkId env ew fromBlock toBlock w = Ret None w'
       /\ store w' !! dbIdentifier ew = Some (toBlock + 1)
       /\ queue w' = queue w1)
  /\ (forall e,
     RetryFilterLogs env fromBlock toBlock = Err e ->
     (exists w',
        processLogs HederaNetworkId env ew fromBlock toBlock w = Ret (Some e) w'
        /\ store w' = store w /\ queue w' = queue w)
     /\ forall w' err,
          pollIteration HederaNetworkId env ew w
            = Ret (Some (fromBlock, toBlock, err)) w' ->
          err = Some e
          /\ store w' = store w
          /\ queue w' = queue w
          /\ forall env' w'' fromBlock' toBlock' err',
               pollIteration HederaNetworkId env' ew w'
                 = Ret (Some (fromBlock', toBlock', err')) w'' ->
               fromBlock' = fromBlock
               /\ (RetryBlockNumber env' = RetryBlockNumber env ->
                   BlockConfirmations env' = BlockConfirmations env ->
                   toBlock' = toBlock)).
Proof.
  intros Hmax. split; [|split].
  - intros w' Hrun.
    destruct (pollIteration_range _ _ _ _ _ _ _ Hrun)
      as (_ & Hrange & _ & w1 & Hprocess & Hstore & _).
    apply processLogs_success in Hprocess.
    rewrite to_int64_small in Hprocess by lia.
    rewrite Hstore. split; [exact Hprocess|].
    intros env' w'' fromBlock' toBlock' err' Hnext.
    destruct (pollIteration_range _ _ _ _ _ _ _ Hnext) as (Hfrom & _).
    rewrite Hstore, Hprocess in Hfrom. congruence.
  - intros logs w1 Hmin Hfetch Hloop Hupdate.
    rewrite (processLogs_completes _ _ _ _ _ _ _ Hfetch Hloop Hupdate).
    eexists. split; [reflexivity|]. cbn.
    rewrite to_int64_small by lia. split; [apply lookup_insert_eq|reflexivity].
  - intros e Hfetch. split.
    { rewrite (processLogs_fetch_error _ _ _ _ _ _ Hfetch). eauto. }
    intros w' err Hrun.
    destruct (pollIteration_range _ _ _ _ _ _ _ Hrun)
      as (Hfrom & _ & (head & Hhead & Hto) & w1 & Hprocess & Hstore & Hqueue & _).
    rewrite (processLogs_fetch_error _ _ _ _ _ _ Hfetch) in Hprocess.
    simplify_eq. cbn in Hstore, Hqueue.
    split; [reflexivity|]. split; [exact Hstore|]. split; [exact Hqueue|].
    intros env' w'' fromBlock' toBlock' err' Hnext.
    destruct (pollIteration_range _ _ _ _ _ _ _ Hnext)
      as (Hfrom' & _ & (head' & Hhead' & Hto') & _).
    rewrite Hstore in Hfrom'. split; [congruence|].
    intros Hsamehead Hsameconf. rewrite Hsamehead, Hhead in Hhead'.
    rewrite Hsameconf in Hto'. simplify_eq. reflexivity.
Qed.

(** ** Construction: the starting block *)

(** Where the unsigned subtraction does not wrap, the start-up target block
    and the per-iteration end block are the exact differences. *)
Lemma initialTargetBlock_exact head confirmations :
  0 <= confirmations <= head -> head < 2 ^ 64 ->
  initialTargetBlock head confirmations = Z.max 0 (head - confirmations).
Proof.
  intros Hconf Hhead. unfold initialTargetBlock, Max.
  rewrite to_uint64_small by lia. destruct (Z.ltb_spec 0 (head - confirmations)); lia.
Qed.

Lemma toBlock_exact head confirmations :
  - 2 ^ 63 <= head - confirmations < 2 ^ 63 ->
  to_int64 (to_uint64 (head - confirmations)) = head - confirmations.
Proof. intros Hrange. rewrite to_int64_to_uint64. by apply to_int64_small. Qed.

Lemma initialTargetBlock_range head confirmations :
  0 <= initialTargetBlock head confirmations < 2 ^ 64.
Proof.
  unfold initialTargetBlock, Max, to_uint64.
  pose proof (Z.mod_pos_bound (head - confirmations) (2 ^ 64) ltac:(lia)).
  case_match; lia.
Qed.

(** C5. The starting-block policy of [NewWatcher], the head and the router
    ABI being available.  (a) With an explicit start block the entry of the
    identity is overwritten with it, and it is the watcher's target block.
    (b) Without one and without an entry, an entry is created at the computed
    target block.  (c) Without one and with an entry, the store is left as it
    is, whatever the head, and the first poll iteration starts at the stored
    value. *)
Theorem starting_block_policy env id startBlock validator pollingInterval maxLogs w head abi :
  RetryBlockNumber env = Ok head ->
  RouterABI env = Ok abi ->
  (startBlock <> 0 -> UpdateFault env = None ->
     exists ew w',
       NewWatcher env id startBlock validator pollingInterval maxLogs w = Ret ew w'
       /\ dbIdentifier ew = id
       /\ store w' = <[id := startBlock]> (store w)
       /\ store w' !! id = Some startBlock
       /\ (0 <= startBlock < 2 ^ 64 -> targetBlock ew = startBlock))
  /\ (startBlock = 0 -> GetFault env = None -> store w !! id = None ->
      CreateFault env = None ->
     exists ew w',
       NewWatcher env id startBlock validator pollingInterval maxLogs w = Ret ew w'
       /\ dbIdentifier ew = id
       /\ targetBlock ew = initialTargetBlock head (BlockConfirmations env)
       /\ store w' = <[id := to_int64 (targetBlock ew)]> (store w)
       /\ (targetBlock ew < 2 ^ 63 -> store w' !! id = Some (targetBlock ew)))
  /\ (forall stored,
      startBlock = 0 -> GetFault env = None -> store w !! id = Some stored ->
     exists ew w',
       NewWatcher env id startBlock validator pollingInterval maxLogs w = Ret ew w'
       /\ dbIdentifier ew = id
       /\ store w' = store w
       /\ forall env' w'' fromBlock toBlock err,
            pollIteration HederaNetworkId env' ew w'
              = Ret (Some (fromBlock, toBlock, err)) w'' ->
            fromBlock = stored).
Proof.
  intros Hhead Habi. unfold NewWatcher. rewrite Hhead, Habi.
  split; [|split].
  - intros Hstart Hupdate. apply Z.eqb_neq in Hstart. rewrite Hstart.
    unfold repository_Update. go_run. rewrite Hupdate. cbn.
    eexists _, _. split; [reflexivity|]. cbn.
    repeat split; [apply lookup_insert_eq|].
    intros Hrange. by apply to_uint64_small.
  - intros -> Hget Hstore Hcreate.
    unfold repository_Get, repository_Create. go_run.
    rewrite Hget, Hstore. cbn. rewrite Hcreate. cbn.
    eexists _, _. split; [reflexivity|]. cbn.
    repeat split. intros Hrange.
    pose proof (initialTargetBlock_range head (BlockConfirmations env)).
    rewrite to_int64_small by lia. apply lookup_insert_eq.
  - intros stored -> Hget Hstore.
    unfold repository_Get. go_run. rewrite Hget, Hstore. cbn.
    eexists _, _. split; [reflexivity|]. cbn.
    repeat split.
    intros env' w'' fromBlock toBlock err Hnext.
    apply pollIteration_range in Hnext as (Hfrom & _).
    cbn in Hfrom. congruence.
Qed.

End WatcherProperties.

(** ** The guard of the signature status *)

Section TransferRepositoryProperties.

Import TransferRepository.

Variables StatusSignatureSubmitted StatusSignatureMined StatusSignatureFailed : string.

Lemma isValidStatus_In status possibleStatuses :
  isValidStatus status possibleStatuses = true <-> In status possibleStatuses.
Proof.
  induction possibleStatuses as [|option rest IH]; cbn.
  - split; [discriminate|tauto].
  - destruct (String.eqb_spec status option) as [->|Hne].
    + split; auto.
    + rewrite IH. split; [auto|]. intros [Heq|Hin]; [congruence|exact Hin].
Qed.

(** The row a successful update of [signature_msg_status] leaves. *)
Lemma setColumn_signature status t :
  setColumn "signature_msg_status" status t
  = Some (mkTransfer (TransactionID t) (Status t) status (EthTxMsgStatus t)
            (EthTxStatus t) (EthTxHash t)).
Proof. reflexivity. Qed.

(** C4 (amended). An update of the signature status to a value outside
    [{SignatureSubmitted, SignatureMined, SignatureFailed}] answers the error
    "invalid status" and leaves the repository as it is; a value inside that
    set passes the guard: with a database that answers, no error is returned,
    the row of the transaction (if there is one) gets the value in its
    [signature_msg_status] column and the other rows are untouched. *)
Theorem signature_status_guard tr txId status :
  (status <> StatusSignatureSubmitted /\ status <> StatusSignatureMined
   /\ status <> StatusSignatureFailed ->
     updateSignatureStatus StatusSignatureSubmitted StatusSignatureMined
       StatusSignatureFailed tr txId status
     = (tr, Some (ErrOther "invalid status")))
  /\ (status = StatusSignatureSubmitted \/ status = StatusSignatureMined
      \/ status = StatusSignatureFailed ->
      dbError tr = None ->
     exists tr',
       updateSignatureStatus StatusSignatureSubmitted StatusSignatureMined
         StatusSignatureFailed tr txId status
       = (tr', None)
       /\ SignatureMsgStatus <$> (rows tr' !! txId) = (fun _ => status) <$> (rows tr !! txId)
       /\ Status <$> (rows tr' !! txId) = Status <$> (rows tr !! txId)
       /\ forall other, other <> txId -> rows tr' !! other = rows tr !! other).
Proof.
  unfold updateSignatureStatus, baseUpdateStatus. split.
  - intros (Hsubmitted & Hmined & Hfailed).
    destruct (isValidStatus status _) eqn:Hvalid; [|reflexivity].
    apply isValidStatus_In in Hvalid. cbn in Hvalid. intuition congruence.
  - intros Hin Hdb.
    assert (isValidStatus status
              [StatusSignatureSubmitted; StatusSignatureMined; StatusSignatureFailed]
            = true) as ->.
    { apply isValidStatus_In. cbn. intuition auto. }
    cbn [negb]. unfold UpdateColumn. rewrite Hdb.
    destruct (rows tr !! txId) as [t|] eqn:Hrow.
    + rewrite setColumn_signature. eexists. split; [reflexivity|]. cbn.
      rewrite lookup_insert_eq. repeat split.
      intros other Hother. by rewrite lookup_insert_ne.
    + eexists. split; [reflexivity|]. cbn. rewrite Hrow. repeat split.
Qed.

End TransferRepositoryProperties.

(** * The properties on concrete runs *)

Module Examples.

Import Fixtures.

(** ** Broken error paths *)

(** The two error paths that read through a [nil] pointer, for any answers
    of the other collaborators. *)
Lemma handleLockLog_nil_chain_panics HederaNetworkId env ew ev w e :
  Removed (RouterLock.Raw ev) = false ->
  RouterLock.Receiver ev <> [] ->
  ChainID env = (None, e) ->
  handleLockLog HederaNetworkId env ew ev w
  = Panic (addLog (LDebug, "[%s] - New Lock Event Log received.") w).
Proof.
  intros Hremoved Hreceiver Hchain. unfold handleLockLog. go_unfold. cbn.
  rewrite Hremoved. destruct (RouterLock.Receiver ev); [done|].
  cbn. rewrite Hchain. reflexivity.
Qed.

Lemma processLog_nil_parse_panics HederaNetworkId env ew log topic0 topics e w :
  Topics log = topic0 :: topics ->
  topic0 = lockHash (filterConfig ew) ->
  ParseLockLog env log = (None, Some e) ->
  processLog HederaNetworkId env ew log w = Panic w.
Proof.
  intros Htopics -> Hparse. unfold processLog.
  rewrite Htopics, Z.eqb_refl, Hparse. reflexivity.
Qed.

(** C8 (the code departs from the claim). With a chain-id lookup that
    answers [(nil, err)], the Lock handler panics on [chain.Int64()], which
    it evaluates before the error check, where the Burn handler, which checks
    first, returns; with a Lock log whose parsing answers [(nil, err)],
    [processLogs] panics on [lock.Raw] in the error's log line: the poll
    iteration crashes, the rest of the batch is not handled and the
    watermark stays where it was. *)
Theorem lock_error_paths_panic :
  panicked (handleLockLog hedera (withChainIDError (env 50 120 [])) (watcher true)
              (lockEvent 3 1000 100 100 false) emptyWorld) = true
  /\ returned (handleBurnLog hedera (withChainIDError (env 50 120 [])) (watcher true)
                 (burnEvent 1000 3 100 false) emptyWorld) = Some tt
  /\ (let run := pollIteration hedera (withParseError (env 50 120 batch))
                   (watcher true) worldAt90 in
      panicked run = true
      /\ queue (worldOf run) = []
      /\ store (worldOf run) !! "1-0xrouter" = Some 90).
Proof. vm_compute. repeat split. Qed.

(** ** The start-up target block below the confirmation depth *)

(** C9 (the code departs from the claim). With the head at block 5 and 10
    confirmations, the unsigned subtraction wraps and the start-up target
    block is 2^64 - 5, not max(0, 5 - 10) = 0; the watermark created from it
    is -5. *)
Theorem target_block_wraps_below_confirmations :
  Z.max 0 (5 - 10) = 0
  /\ initialTargetBlock 5 10 = 18446744073709551611
  /\ (let run := NewWatcher (env 50 5 []) "1-0xrouter" 0 true 0 0 emptyWorld in
      (targetBlock <$> returned run) = Some 18446744073709551611
      /\ store (worldOf run) !! "1-0xrouter" = Some (-5)).
Proof. vm_compute. repeat split. Qed.

(** ** Witnesses and counterexamples *)

Lemma watermark_advances_witness :
  returned (pollIteration hedera (env 50 120 batch) (watcher true) worldAt90)
    = Some (Some (90, 110, None))
  /\ store (worldOf (pollIteration hedera (env 50 120 batch) (watcher true) worldAt90))
       !! "1-0xrouter" = Some 111
  /\ store (worldOf (pollIteration hedera (withFilterError (env 50 120 batch))
                       (watcher true) worldAt90))
       = store worldAt90.
Proof.
  split; [vm_compute; reflexivity|]. split.
  - apply (proj1 (watermark_advances hedera (env 50 120 batch) (watcher true)
                    90 110 worldAt90 ltac:(lia))).
    vm_compute. reflexivity.
  - assert (pollIteration hedera (withFilterError (env 50 120 batch)) (watcher true) worldAt90
            = Ret (Some (90, 110, Some (ErrOther "rpc timeout")))
                (worldOf (pollIteration hedera (withFilterError (env 50 120 batch))
                            (watcher true) worldAt90))) as Hrun
      by (vm_compute; reflexivity).
    destruct (proj2 (proj2 (proj2 (watermark_advances hedera
                                     (withFilterError (env 50 120 batch)) (watcher true)
                                     90 110 worldAt90 ltac:(lia)))
                       (ErrOther "rpc timeout") eq_refl) _ _ Hrun)
      as (_ & Hstore & _).
    exact Hstore.
Defined.

Lemma removed_log_has_no_side_effect_witness :
  (exists w', handleMintLog (env 50 120 []) (watcher true) (mintEvent true) worldAt90
                = Ret tt w'
              /\ queue w' = queue worldAt90 /\ metrics w' = metrics worldAt90
              /\ store w' = store worldAt90)
  /\ (exists w', handleBurnLog hedera (env 50 120 []) (watcher true)
                   (burnEvent 1000 3 100 true) worldAt90 = Ret tt w'
                 /\ queue w' = queue worldAt90 /\ metrics w' = metrics worldAt90
                 /\ store w' = store worldAt90)
  /\ (exists w', handleLockLog hedera (env 50 120 []) (watcher true)
                   (lockEvent 3 1000 100 100 true) worldAt90 = Ret tt w'
                 /\ queue w' = queue worldAt90 /\ metrics w' = metrics worldAt90
                 /\ store w' = store worldAt90)
  /\ (exists w', handleUnlockLog (env 50 120 []) (watcher true) (unlockEvent true) worldAt90
                   = Ret tt w'
                 /\ queue w' = queue worldAt90 /\ metrics w' = metrics worldAt90
                 /\ store w' = store worldAt90).
Proof.
  pose proof (removed_log_has_no_side_effect hedera (env 50 120 []) (watcher true) worldAt90)
    as (Hmint & Hburn & Hlock & Hunlock).
  split; [|split; [|split]].
  - apply (Hmint (mintEvent true) eq_refl).
  - apply (Hburn (burnEvent 1000 3 100 true) eq_refl).
  - apply (Hlock (lockEvent 3 1000 100 100 true) eq_refl).
  - apply (Hunlock (unlockEvent true) eq_refl).
Defined.

Lemma wrapped_to_wrapped_rejected_witness :
  exists w',
    handleBurnLog hedera (env 50 120 []) (watcher true) (burnEvent 1000 5 100 false)
      emptyWorld = Ret tt w'
    /\ queue w' = queue emptyWorld
    /\ store w' = store emptyWorld.
Proof.
  apply (wrapped_to_wrapped_rejected hedera (env 50 120 []) (watcher true)
           (burnEvent 1000 5 100 false) emptyWorld 1 (asset.mk 50 "0xnative" 3)
           eq_refl eq_refl).
  vm_compute. discriminate.
Defined.

(** The example of the specification: amount 1000, service fee 100, minimum
    50, a target chain of the same precision: the transfer carries 900. *)
Lemma lock_amount_rule_witness :
  exists w',
    handleLockLog hedera (env 50 120 []) (watcher true) (lockEvent 3 1000 100 100 false)
      emptyWorld = Ret tt w'
    /\ exists m, queue w' = [m] /\ Amount (Payload m) = "900".
Proof.
  apply (lock_amount_rule hedera (env 50 120 []) (watcher true)
           (lockEvent 3 1000 100 100 false) emptyWorld 1 (asset.mk 50 "0xtoken" 1)
           "0xreceiver" 900 eq_refl ltac:(discriminate) eq_refl eq_refl
           ltac:(discriminate) eq_refl eq_refl).
Defined.

(** A minimum above the event's amount drops the event. *)
Example lock_below_minimum_dropped :
  queue (worldOf (handleLockLog hedera (env 1001 120 []) (watcher true)
                    (lockEvent 3 1000 100 100 false) emptyWorld)) = [].
Proof. vm_compute. reflexivity. Qed.

(** C2, as stated, fails: with amount 1000, service fee 100 and minimum
    1000 the event is not dropped; a transfer of 900, below the minimum, is
    pushed. *)
Lemma lock_at_minimum_is_pushed :
  FungibleNativeAsset (env 1000 120 []) 1 "0xtoken" = Some (asset.mk 1000 "0xtoken" 1)
  /\ handleLockLog hedera (env 1000 120 []) (watcher true) (lockEvent 3 1000 100 100 false)
       emptyWorld
     = Ret tt (worldOf (handleLockLog hedera (env 1000 120 []) (watcher true)
                          (lockEvent 3 1000 100 100 false) emptyWorld))
  /\ queue (worldOf (handleLockLog hedera (env 1000 120 []) (watcher true)
                       (lockEvent 3 1000 100 100 false) emptyWorld))
     = [ {| Payload := lockTransfer "900" EmptyString; Topic := TopicMessageSubmission |} ]
  /\ 900 < 1000.
Proof. vm_compute. repeat split. Qed.

Lemma pushed_amount_bounds_witness :
  (exists proper, Amount (burnTransfer "1000" EmptyString) = bigString proper
                  /\ proper <> 0 /\ 50 <= proper /\ 0 < proper)
  /\ (exists proper, Amount (lockTransfer "900" EmptyString) = bigString proper
                     /\ proper <> 0 /\ 50 <= 1000 /\ proper = 1000 - 100).
Proof.
  split.
  - destruct (proj1 (pushed_amount_bounds hedera (env 50 120 []) (watcher true) emptyWorld
               (worldOf (handleBurnLog hedera (env 50 120 []) (watcher true)
                           (burnEvent 1000 3 100 false) emptyWorld))
               {| Payload := burnTransfer "1000" EmptyString;
                  Topic := TopicMessageSubmission |})
              (burnEvent 1000 3 100 false) eq_refl eq_refl)
      as (chain & na & proper & Hchain & Hnative & Hamount & Hzero & Hmin & Hpos).
    vm_compute in Hnative. injection Hnative as <-.
    exists proper. cbn in Hmin, Hpos. repeat split; try assumption. apply Hpos. lia.
  - destruct (proj2 (pushed_amount_bounds hedera (env 50 120 []) (watcher true) emptyWorld
               (worldOf (handleLockLog hedera (env 50 120 []) (watcher true)
                           (lockEvent 3 1000 100 100 false) emptyWorld))
               {| Payload := lockTransfer "900" EmptyString;
                  Topic := TopicMessageSubmission |})
              (lockEvent 3 1000 100 100 false) eq_refl eq_refl)
      as (chain & na & proper & Hchain & Hnative & Hamount & Hzero & Hmin & Hproper).
    vm_compute in Hnative. injection Hnative as <-.
    exists proper. cbn in Hmin, Hproper. repeat split; assumption.
Defined.

(** C6, as stated, fails for Lock: with amount 1000, service fee 100 and
    minimum 950 the transfer pushed carries 900, below the minimum. *)
Lemma lock_pushes_amount_below_minimum :
  FungibleNativeAsset (env 950 120 []) 1 "0xtoken" = Some (asset.mk 950 "0xtoken" 1)
  /\ handleLockLog hedera (env 950 120 []) (watcher true) (lockEvent 3 1000 100 100 false)
       emptyWorld
     = Ret tt (worldOf (handleLockLog hedera (env 950 120 []) (watcher true)
                          (lockEvent 3 1000 100 100 false) emptyWorld))
  /\ queue (worldOf (handleLockLog hedera (env 950 120 []) (watcher true)
                       (lockEvent 3 1000 100 100 false) emptyWorld))
     = [ {| Payload := lockTransfer (bigString 900) EmptyString;
            Topic := TopicMessageSubmission |} ]
  /\ ~ 950 <= 900.
Proof. vm_compute. repeat split. intros Hle. apply Hle. reflexivity. Qed.

(** A validator's Lock event at the cutoff block passes the checks and is
    pushed to the signing topic without a timestamp; the same watcher's Burn
    event below the cutoff passes the checks and is pushed to a read-only
    topic with the block's timestamp. *)
Lemma topic_selection_witness :
  (exists w' m,
     handleLockLog hedera (env 50 120 []) (watcher true) (lockEvent 3 1000 100 100 false)
       emptyWorld = Ret tt w'
     /\ queue w' = [m]
     /\ Timestamp (Payload m) = EmptyString
     /\ Topic m = TopicMessageSubmission
     /\ isSigningTopic (Topic m) = true)
  /\ (exists w' m,
     handleBurnLog hedera (env 50 120 []) (watcher true) (burnEvent 1000 3 99 false)
       emptyWorld = Ret tt w'
     /\ queue w' = [m]
     /\ Timestamp (Payload m) = "1650000000"
     /\ Topic m = ReadOnlyTransferSave
     /\ isReadOnlyTopic (Topic m) = true
     /\ isSigningTopic (Topic m) = false).
Proof.
  split.
  - destruct (proj1 (topic_selection hedera (env 50 120 []) (watcher true) emptyWorld)
                (lockEvent 3 1000 100 100 false) 1 (asset.mk 50 "0xtoken" 1)
                "0xreceiver" 900)
      as (w' & m & Hrun & Hpushed & Htarget & Hlive & _);
      try (vm_compute; first [reflexivity | discriminate]).
    destruct Hlive as (Hts & Htopic & Hsigning).
    { split; [reflexivity | vm_compute; discriminate]. }
    rewrite Htarget in Htopic.
    exists w', m. repeat split; assumption.
  - destruct (proj1 (proj2 (topic_selection hedera (env 50 120 []) (watcher true)
                              emptyWorld))
                (burnEvent 1000 3 99 false) 1 (asset.mk 50 "0xnative" 3)
                "0xreceiver" 1000)
      as (w' & m & Hrun & Hpushed & Htarget & _ & Hbacklog);
      try (vm_compute; first [reflexivity | discriminate]).
    destruct Hbacklog as (_ & Hts & Htopic & Hreadonly & Hsigning).
    { right. vm_compute. reflexivity. }
    rewrite Htarget in Htopic.
    exists w', m. repeat split; assumption.
Defined.

(** C3, as stated, fails for Lock: a validator's Lock event towards Hedera
    at the cutoff block passes every check and is pushed without a timestamp,
    yet to [HederaMintHtsTransfer] and not to the fee topic
    [HederaFeeTransfer], which only the Burn handler names. *)
Lemma lock_towards_hedera_skips_fee_topic :
  validator (watcher true) = true
  /\ targetBlock (watcher true)
     <= BlockNumber (RouterLock.Raw (lockEvent 0 5000000000000 1000000000000 100 false))
  /\ bigInt64 (RouterLock.TargetChain (lockEvent 0 5000000000000 1000000000000 100 false))
     = hedera
  /\ handleLockLog hedera (env 50 120 []) (watcher true)
       (lockEvent 0 5000000000000 1000000000000 100 false) emptyWorld
     = Ret tt (worldOf (handleLockLog hedera (env 50 120 []) (watcher true)
                          (lockEvent 0 5000000000000 1000000000000 100 false) emptyWorld))
  /\ map (fun m => (Amount (Payload m), Timestamp (Payload m), Topic m))
       (queue (worldOf (handleLockLog hedera (env 50 120 []) (watcher true)
                          (lockEvent 0 5000000000000 1000000000000 100 false) emptyWorld)))
     = [("400", EmptyString, HederaMintHtsTransfer)]
  /\ HederaMintHtsTransfer <> HederaFeeTransfer.
Proof.
  vm_compute. repeat split; try discriminate.
Qed.

(** A Lock towards Hedera by a validator: the amount is decimal-adjusted and
    the message goes to the Hedera topic of the Lock handler; off the live
    path it goes to the read-only counterpart. *)
Example lock_towards_hedera :
  map (fun m => (Amount (Payload m), Timestamp (Payload m), Topic m))
    (queue (worldOf (handleLockLog hedera (env 50 120 []) (watcher true)
                       (lockEvent 0 5000000000000 1000000000000 100 false) emptyWorld)))
  = [("400", EmptyString, HederaMintHtsTransfer)]
  /\ map (fun m => (Amount (Payload m), Timestamp (Payload m), Topic m))
       (queue (worldOf (handleLockLog hedera (env 50 120 []) (watcher false)
                          (lockEvent 0 5000000000000 1000000000000 100 false) emptyWorld)))
     = [("400", "1650000000", ReadOnlyHederaMintHtsTransfer)].
Proof. vm_compute. split; reflexivity. Qed.

Lemma starting_block_policy_witness :
  (exists ew w',
     NewWatcher (env 50 120 []) "1-0xrouter" 77 true 0 0 worldAt90 = Ret ew w'
     /\ dbIdentifier ew = "1-0xrouter"
     /\ store w' = <["1-0xrouter" := 77]> (store worldAt90)
     /\ store w' !! "1-0xrouter" = Some 77
     /\ (0 <= 77 < 2 ^ 64 -> targetBlock ew = 77))
  /\ (exists ew w',
     NewWatcher (env 50 120 []) "1-0xrouter" 0 true 0 0 emptyWorld = Ret ew w'
     /\ dbIdentifier ew = "1-0xrouter"
     /\ targetBlock ew = initialTargetBlock 120 10
     /\ store w' = <["1-0xrouter" := to_int64 (targetBlock ew)]> (store emptyWorld)
     /\ (targetBlock ew < 2 ^ 63 -> store w' !! "1-0xrouter" = Some (targetBlock ew)))
  /\ (exists ew w',
     NewWatcher (env 50 120 []) "1-0xrouter" 0 true 0 0 worldAt90 = Ret ew w'
     /\ dbIdentifier ew = "1-0xrouter"
     /\ store w' = store worldAt90
     /\ forall env' w'' fromBlock toBlock err,
          pollIteration hedera env' ew w' = Ret (Some (fromBlock, toBlock, err)) w'' ->
          fromBlock = 90).
Proof.
  split; [|split].
  - apply (proj1 (starting_block_policy hedera (env 50 120 []) "1-0xrouter" 77 true 0 0
                    worldAt90 120 abi eq_refl eq_refl));
      [discriminate|reflexivity].
  - apply (proj1 (proj2 (starting_block_policy hedera (env 50 120 []) "1-0xrouter" 0 true 0 0
                           emptyWorld 120 abi eq_refl eq_refl)));
      reflexivity.
  - apply (proj2 (proj2 (starting_block_policy hedera (env 50 120 []) "1-0xrouter" 0 true 0 0
                           worldAt90 120 abi eq_refl eq_refl)) 90);
      reflexivity.
Defined.

(** An override persists: a restart without an explicit start block after a
    start with one resumes from the override, not from the head. *)
Example restart_after_override :
  store (worldOf (NewWatcher (env 50 5000 []) "1-0xrouter" 0 true 0 0
                    (worldOf (NewWatcher (env 50 120 []) "1-0xrouter" 77 true 0 0
                                worldAt90))))
    !! "1-0xrouter" = Some 77.
Proof. vm_compute. reflexivity. Qed.

Lemma signature_status_guard_witness :
  TransferRepository.updateSignatureStatus SignatureSubmitted SignatureMined SignatureFailed
    repository "0xabc-7" "COMPLETED"
  = (repository, Some (ErrOther "invalid status"))
  /\ exists tr',
       TransferRepository.updateSignatureStatus SignatureSubmitted SignatureMined
         SignatureFailed repository "0xabc-7" SignatureFailed
       = (tr', None)
       /\ TransferRepository.SignatureMsgStatus <$> (TransferRepository.rows tr' !! "0xabc-7")
          = Some SignatureFailed.
Proof.
  split.
  - apply (proj1 (signature_status_guard SignatureSubmitted SignatureMined SignatureFailed
                    repository "0xabc-7" "COMPLETED")).
    repeat split; discriminate.
  - destruct (proj2 (signature_status_guard SignatureSubmitted SignatureMined SignatureFailed
                       repository "0xabc-7" SignatureFailed)
                (or_intror (or_intror eq_refl)) eq_refl)
      as (tr' & Hrun & Hstatus & _).
    exists tr'. split; [exact Hrun|]. rewrite Hstatus. vm_compute. reflexivity.
Defined.

(** C4, as stated, fails: [SignatureSubmitted] is outside
    [{SignatureMined, SignatureFailed}], yet the update to it is accepted and
    replaces the stored [SignatureMined]. *)
Lemma signature_status_accepts_submitted :
  SignatureSubmitted <> SignatureMined
  /\ SignatureSubmitted <> SignatureFailed
  /\ TransferRepository.SignatureMsgStatus
       <$> (TransferRepository.rows repository !! "0xabc-7") = Some SignatureMined
  /\ snd (TransferRepository.updateSignatureStatus SignatureSubmitted SignatureMined
            SignatureFailed repository "0xabc-7" SignatureSubmitted) = None
  /\ TransferRepository.SignatureMsgStatus
       <$> (TransferRepository.rows
              (fst (TransferRepository.updateSignatureStatus SignatureSubmitted
                      SignatureMined SignatureFailed repository "0xabc-7"
                      SignatureSubmitted)) !! "0xabc-7")
     = Some SignatureSubmitted.
Proof. repeat split; try discriminate; vm_compute; reflexivity. Qed.

End Examples.

(** * Further properties of the watcher *)

(** Case analysis on the innermost scrutinee of the goal. *)
Ltac destruct_inner :=
  match goal with
  | |- context [match ?x with _ => _ end] =>
      lazymatch x with
      | context [match _ with _ => _ end] => fail
      | _ => destruct x eqn:?
      end
  end.

Ltac destruct_inner_in H :=
  match type of H with
  | context [match ?x with _ => _ end] =>
      lazymatch x with
      | context [match _ with _ => _ end] => fail
      | _ => destruct x eqn:?
      end
  end.

Ltac handler_cases := go_unfold; cbn; repeat (destruct_inner; cbn).

Ltac queue_grows :=
  first [ exists []; split; [by rewrite app_nil_r | simpl; lia]
        | eexists [_]; split; [reflexivity | simpl; lia] ].

Section WatcherCoverage.

Variable HederaNetworkId : Z.

(** What every handler leaves alone, whatever its outcome. *)
Lemma handleLockLog_frame env ew ev w :
  let o := handleLockLog HederaNetworkId env ew ev w in
  store (worldOf o) = store w
  /\ reloads (worldOf o) = reloads w
  /\ slept (worldOf o) = slept w
  /\ exited o = false
  /\ exists l, queue (worldOf o) = (queue w ++ l)%list /\ (length l <= 1)%nat.
Proof.
  unfold handleLockLog, dispatch. handler_cases; repeat split; queue_grows.
Qed.

Lemma handleBurnLog_frame env ew ev w :
  let o := handleBurnLog HederaNetworkId env ew ev w in
  store (worldOf o) = store w
  /\ reloads (worldOf o) = reloads w
  /\ slept (worldOf o) = slept w
  /\ exited o = false
  /\ exists l, queue (worldOf o) = (queue w ++ l)%list /\ (length l <= 1)%nat.
Proof.
  unfold handleBurnLog, dispatch. handler_cases; repeat split; queue_grows.
Qed.

Lemma handleMintLog_frame env ew ev w :
  let o := handleMintLog env ew ev w in
  store (worldOf o) = store w
  /\ reloads (worldOf o) = reloads w
  /\ slept (worldOf o) = slept w
  /\ exited o = false
  /\ queue (worldOf o) = queue w.
Proof. unfold handleMintLog. handler_cases; repeat split. Qed.

Lemma handleUnlockLog_frame env ew ev w :
  let o := handleUnlockLog env ew ev w in
  store (worldOf o) = store w
  /\ reloads (worldOf o) = reloads w
  /\ slept (worldOf o) = slept w
  /\ exited o = false
  /\ queue (worldOf o) = queue w.
Proof. unfold handleUnlockLog. handler_cases; repeat split. Qed.

(** X1. No handler touches the progress store, sleeps, asks for a reload
    of the members or exits the process, whatever its outcome (return or
    panic); the Mint and Unlock handlers never push to the queue, the Lock
    and Burn handlers append at most one message to it. *)
Theorem handlers_keep_progress_store env ew w :
  (forall ev, let o := handleMintLog env ew ev w in
     store (worldOf o) = store w /\ reloads (worldOf o) = reloads w
     /\ slept (worldOf o) = slept w /\ exited o = false
     /\ queue (worldOf o) = queue w)
  /\ (forall ev, let o := handleUnlockLog env ew ev w in
     store (worldOf o) = store w /\ reloads (worldOf o) = reloads w
     /\ slept (worldOf o) = slept w /\ exited o = false
     /\ queue (worldOf o) = queue w)
  /\ (forall ev, let o := handleLockLog HederaNetworkId env ew ev w in
     store (worldOf o) = store w /\ reloads (worldOf o) = reloads w
     /\ slept (worldOf o) = slept w /\ exited o = false
     /\ exists l, queue (worldOf o) = (queue w ++ l)%list /\ (length l <= 1)%nat)
  /\ (forall ev, let o := handleBurnLog HederaNetworkId env ew ev w in
     store (worldOf o) = store w /\ reloads (worldOf o) = reloads w
     /\ slept (worldOf o) = slept w /\ exited o = false
     /\ exists l, queue (worldOf o) = (queue w ++ l)%list /\ (length l <= 1)%nat).
Proof.
  split; [|split; [|split]]; intros ev.
  - apply handleMintLog_frame.
  - apply handleUnlockLog_frame.
  - apply handleLockLog_frame.
  - apply handleBurnLog_frame.
Qed.

(** X2. A Mint or Unlock log that is not removed, with the chain id at hand,
    records exactly one call of [SetUserGetHisTokens]: the source chain is
    the event's, the target chain is the watched chain, the asset is the
    opposite asset of the event's token, resolved with the two chain ids as
    [uint64]. *)
Theorem mint_unlock_record_completion env ew w chain :
  ChainID env = (Some chain, None) ->
  (forall ev, Removed (RouterMint.Raw ev) = false ->
     exists w', handleMintLog env ew ev w = Ret tt w'
       /\ metrics w' =
          (metrics w ++
           [SetUserGetHisTokens (bigInt64 (RouterMint.SourceChain ev)) (bigInt64 chain)
              (GetOppositeAsset env (to_uint64 (bigInt64 (RouterMint.SourceChain ev)))
                 (to_uint64 (bigInt64 chain)) (RouterMint.Token ev))
              (RouterMint.TransactionId ev)])%list)
  /\ (forall ev, Removed (RouterUnlock.Raw ev) = false ->
     exists w', handleUnlockLog env ew ev w = Ret tt w'
       /\ metrics w' =
          (metrics w ++
           [SetUserGetHisTokens (bigInt64 (RouterUnlock.SourceChain ev)) (bigInt64 chain)
              (GetOppositeAsset env (to_uint64 (bigInt64 (RouterUnlock.SourceChain ev)))
                 (to_uint64 (bigInt64 chain)) (RouterUnlock.Token ev))
              (RouterUnlock.TransactionId ev)])%list).
Proof.
  intros Hchain. split; intros ev Hremoved.
  - unfold handleMintLog. go_unfold. cbn. rewrite Hremoved, Hchain. cbn. eauto.
  - unfold handleUnlockLog. go_unfold. cbn. rewrite Hremoved, Hchain. cbn. eauto.
Qed.

(** X3. With monitoring disabled the Burn handler records no metric,
    whatever its outcome. *)
Theorem burn_metrics_need_monitoring env ew ev w :
  GetIsMonitoringEnabled env = false ->
  metrics (worldOf (handleBurnLog HederaNetworkId env ew ev w)) = metrics w.
Proof.
  intros Hoff. unfold handleBurnLog, dispatch. rewrite Hoff.
  handler_cases; reflexivity.
Qed.

(** X4. A Lock or Burn log that is not removed and has no receiver bytes is
    dropped before the chain id is asked for: the handler returns, whatever
    the collaborators answer, and queue, metrics and store are untouched. *)
Theorem empty_receiver_dropped env ew w :
  (forall ev, Removed (RouterLock.Raw ev) = false -> RouterLock.Receiver ev = [] ->
     exists w', handleLockLog HederaNetworkId env ew ev w = Ret tt w'
       /\ queue w' = queue w /\ metrics w' = metrics w /\ store w' = store w)
  /\ (forall ev, Removed (RouterBurn.Raw ev) = false -> RouterBurn.Receiver ev = [] ->
     exists w', handleBurnLog HederaNetworkId env ew ev w = Ret tt w'
       /\ queue w' = queue w /\ metrics w' = metrics w /\ store w' = store w).
Proof.
  split; intros ev Hremoved Hreceiver.
  - unfold handleLockLog. go_unfold. cbn. rewrite Hremoved, Hreceiver. cbn. eauto.
  - unfold handleBurnLog. go_unfold. cbn. rewrite Hremoved, Hreceiver. cbn. eauto.
Qed.

(** ** The transfers the handlers build *)

Ltac handler_cases_in H :=
  go_unfold; cbn in H; repeat (destruct_inner_in H; cbn in H); try discriminate H.

Ltac pushed_cases Hrun Hpushed :=
  injection Hrun as <-; cbn in Hpushed;
  first [ by (symmetry in Hpushed; apply pushed_not_unchanged in Hpushed)
        | apply pushed_one in Hpushed; subst ].

Ltac wrapped_found :=
  try match goal with
      | Hq : String.eqb _ _ = false |- _ => apply String.eqb_neq in Hq
      end.

Lemma handleLockLog_payload env ew ev w w' m :
  handleLockLog HederaNetworkId env ew ev w = Ret tt w' ->
  queue w' = (queue w ++ [m])%list ->
  exists chain,
    ChainID env = (Some chain, None)
    /\ TransactionId (Payload m)
       = TxHash (RouterLock.Raw ev) +:+ "-" +:+ FormatUint (Index (RouterLock.Raw ev))
    /\ SourceChainId (Payload m) = bigInt64 chain
    /\ TargetChainId (Payload m) = bigInt64 (RouterLock.TargetChain ev)
    /\ NativeChainId (Payload m) = bigInt64 chain
    /\ SourceAsset (Payload m) = RouterLock.Token ev
    /\ NativeAsset (Payload m) = RouterLock.Token ev
    /\ TargetAsset (Payload m)
       = NativeToWrapped env (RouterLock.Token ev) (bigInt64 chain)
           (bigInt64 (RouterLock.TargetChain ev))
    /\ TargetAsset (Payload m) <> EmptyString.
Proof.
  intros Hrun Hpushed. unfold handleLockLog, dispatch in Hrun.
  handler_cases_in Hrun; pushed_cases Hrun Hpushed; wrapped_found;
    eexists; cbn; repeat split; eauto.
Qed.

Lemma handleBurnLog_payload env ew ev w w' m :
  handleBurnLog HederaNetworkId env ew ev w = Ret tt w' ->
  queue w' = (queue w ++ [m])%list ->
  exists chain na,
    ChainID env = (Some chain, None)
    /\ WrappedToNative env (RouterBurn.Token ev) (bigInt64 chain) = Some na
    /\ TransactionId (Payload m)
       = TxHash (RouterBurn.Raw ev) +:+ "-" +:+ FormatUint (Index (RouterBurn.Raw ev))
    /\ SourceChainId (Payload m) = bigInt64 chain
    /\ TargetChainId (Payload m) = bigInt64 (RouterBurn.TargetChain ev)
    /\ NativeChainId (Payload m) = bigInt64 (RouterBurn.TargetChain ev)
    /\ NativeChainId (Payload m) = asset.ChainId na
    /\ SourceAsset (Payload m) = RouterBurn.Token ev
    /\ TargetAsset (Payload m) = asset.Asset na
    /\ NativeAsset (Payload m) = asset.Asset na.
Proof.
  intros Hrun Hpushed. unfold handleBurnLog, dispatch in Hrun.
  handler_cases_in Hrun; pushed_cases Hrun Hpushed;
    try match goal with
        | Hq : negb (_ =? asset.ChainId _) = false |- _ =>
            apply negb_false_iff, Z.eqb_eq in Hq
        end;
    eexists _, _; cbn; repeat split; eauto.
Qed.

(** X5. The transfer the Lock handler pushes: its id is the transaction
    hash and the log index joined by a dash, the source chain is the watched
    chain and is also the native chain, the source asset is the event's token
    and is also the native asset, and the target asset is the non-empty
    wrapped asset the registry gives for the token and the two chains. *)
Theorem lock_transfer_fields env ew ev w w' m :
  handleLockLog HederaNetworkId env ew ev w = Ret tt w' ->
  queue w' = (queue w ++ [m])%list ->
  TransactionId (Payload m)
    = TxHash (RouterLock.Raw ev) +:+ "-" +:+ FormatUint (Index (RouterLock.Raw ev))
  /\ (exists chain, ChainID env = (Some chain, None)
                    /\ SourceChainId (Payload m) = bigInt64 chain)
  /\ TargetChainId (Payload m) = bigInt64 (RouterLock.TargetChain ev)
  /\ NativeChainId (Payload m) = SourceChainId (Payload m)
  /\ SourceAsset (Payload m) = RouterLock.Token ev
  /\ NativeAsset (Payload m) = SourceAsset (Payload m)
  /\ TargetAsset (Payload m)
     = NativeToWrapped env (RouterLock.Token ev) (SourceChainId (Payload m))
         (TargetChainId (Payload m))
  /\ TargetAsset (Payload m) <> EmptyString.
Proof.
  intros Hrun Hpushed.
  destruct (handleLockLog_payload _ _ _ _ _ _ Hrun Hpushed)
    as (chain & Hchain & Hid & Hsource & Htarget & Hnative & Hasset & Hnasset & Hwrapped & Hne).
  rewrite Hsource, Htarget, Hnative, Hasset, Hnasset.
  repeat split; eauto.
Qed.

(** X6. The transfer the Burn handler pushes: the native chain is the
    target chain (the home chain of the native asset the burned token
    resolves to), and the target asset is that native asset. *)
Theorem burn_transfer_fields env ew ev w w' m :
  handleBurnLog HederaNetworkId env ew ev w = Ret tt w' ->
  queue w' = (queue w ++ [m])%list ->
  exists chain na,
    ChainID env = (Some chain, None)
    /\ WrappedToNative env (RouterBurn.Token ev) (bigInt64 chain) = Some na
    /\ TransactionId (Payload m)
       = TxHash (RouterBurn.Raw ev) +:+ "-" +:+ FormatUint (Index (RouterBurn.Raw ev))
    /\ SourceChainId (Payload m) = bigInt64 chain
    /\ TargetChainId (Payload m) = bigInt64 (RouterBurn.TargetChain ev)
    /\ NativeChainId (Payload m) = TargetChainId (Payload m)
    /\ NativeChainId (Payload m) = asset.ChainId na
    /\ SourceAsset (Payload m) = RouterBurn.Token ev
    /\ TargetAsset (Payload m) = asset.Asset na
    /\ NativeAsset (Payload m) = TargetAsset (Payload m).
Proof.
  intros Hrun Hpushed.
  destruct (handleBurnLog_payload _ _ _ _ _ _ Hrun Hpushed)
    as (chain & na & Hchain & Hresolved & Hid & Hsource & Htarget & Hnative & Hhome
        & Hasset & Htasset & Hnasset).
  exists chain, na. rewrite Htarget, Htasset. repeat split; assumption.
Qed.

Lemma transaction_id_inj (hash : string) (i j : Z) :
  0 <= i -> 0 <= j ->
  hash +:+ "-" +:+ FormatUint i = hash +:+ "-" +:+ FormatUint j -> i = j.
Proof.
  intros Hi Hj Heq. apply (inj (String.app hash)) in Heq.
  apply (inj (String.app "-")) in Heq. unfold FormatUint in Heq.
  apply (inj pretty) in Heq. lia.
Qed.

(** X7. Two logs of one transaction with different (unsigned) log indexes
    never yield transfers with the same transaction id, whether they are
    Lock or Burn events and whatever else differs between the two runs. *)
Theorem transaction_ids_distinct_per_log env ew w w' m env2 ew2 w2 w2' m2 :
  (forall ev ev2,
     handleLockLog HederaNetworkId env ew ev w = Ret tt w' ->
     queue w' = (queue w ++ [m])%list ->
     handleLockLog HederaNetworkId env2 ew2 ev2 w2 = Ret tt w2' ->
     queue w2' = (queue w2 ++ [m2])%list ->
     TxHash (RouterLock.Raw ev) = TxHash (RouterLock.Raw ev2) ->
     0 <= Index (RouterLock.Raw ev) -> 0 <= Index (RouterLock.Raw ev2) ->
     Index (RouterLock.Raw ev) <> Index (RouterLock.Raw ev2) ->
     TransactionId (Payload m) <> TransactionId (Payload m2))
  /\ (forall ev ev2,
     handleBurnLog HederaNetworkId env ew ev w = Ret tt w' ->
     queue w' = (queue w ++ [m])%list ->
     handleBurnLog HederaNetworkId env2 ew2 ev2 w2 = Ret tt w2' ->
     queue w2' = (queue w2 ++ [m2])%list ->
     TxHash (RouterBurn.Raw ev) = TxHash (RouterBurn.Raw ev2) ->
     0 <= Index (RouterBurn.Raw ev) -> 0 <= Index (RouterBurn.Raw ev2) ->
     Index (RouterBurn.Raw ev) <> Index (RouterBurn.Raw ev2) ->
     TransactionId (Payload m) <> TransactionId (Payload m2)).
Proof.
  split; intros ev ev2 Hrun Hpushed Hrun2 Hpushed2 Hhash Hi Hj Hne Heq.
  - destruct (handleLockLog_payload _ _ _ _ _ _ Hrun Hpushed) as (? & _ & Hid & _).
    destruct (handleLockLog_payload _ _ _ _ _ _ Hrun2 Hpushed2) as (? & _ & Hid2 & _).
    rewrite Hid, Hid2, Hhash in Heq. by apply transaction_id_inj in Heq.
  - destruct (handleBurnLog_payload _ _ _ _ _ _ Hrun Hpushed) as (? & ? & _ & _ & Hid & _).
    destruct (handleBurnLog_payload _ _ _ _ _ _ Hrun2 Hpushed2) as (? & ? & _ & _ & Hid2 & _).
    rewrite Hid, Hid2, Hhash in Heq. by apply transaction_id_inj in Heq.
Qed.

(** ** The log loop *)

(** X8. A log without topics, or whose first topic is none of the five event
    ids, changes nothing; a log whose first topic is the member-update id
    (and none of the four others) only asks for a reload of the members. *)
Theorem unmatched_log_ignored env ew log w :
  (Topics log = [] -> processLog HederaNetworkId env ew log w = Ret tt w)
  /\ (forall topic0 topics,
       Topics log = topic0 :: topics ->
       topic0 <> lockHash (filterConfig ew) ->
       topic0 <> unlockHash (filterConfig ew) ->
       topic0 <> mintHash (filterConfig ew) ->
       topic0 <> burnHash (filterConfig ew) ->
       (topic0 <> memberUpdatedHash (filterConfig ew) ->
          processLog HederaNetworkId env ew log w = Ret tt w)
       /\ (topic0 = memberUpdatedHash (filterConfig ew) ->
           processLog HederaNetworkId env ew log w = Ret tt (addReload w))).
Proof.
  split.
  - intros Htopics. unfold processLog. rewrite Htopics. reflexivity.
  - intros topic0 topics Htopics Hlock Hunlock Hmint Hburn.
    unfold processLog. rewrite Htopics.
    apply Z.eqb_neq in Hlock, Hunlock, Hmint, Hburn.
    rewrite Hlock, Hunlock, Hmint, Hburn. split.
    + intros Hmember. apply Z.eqb_neq in Hmember. rewrite Hmember. reflexivity.
    + intros ->. rewrite Z.eqb_refl. reflexivity.
Qed.

Lemma processLog_frame env ew log w :
  let o := processLog HederaNetworkId env ew log w in
  store (worldOf o) = store w
  /\ slept (worldOf o) = slept w
  /\ exited o = false
  /\ exists l, queue (worldOf o) = (queue w ++ l)%list /\ (length l <= 1)%nat.
Proof.
  unfold processLog. go_unfold.
  cbn -[handleLockLog handleBurnLog handleMintLog handleUnlockLog].
  repeat (destruct_inner;
          cbn -[handleLockLog handleBurnLog handleMintLog handleUnlockLog]);
    try (repeat split; queue_grows).
  - destruct (handleLockLog_frame env ew t w) as (? & ? & ? & ? & ?). auto.
  - destruct (handleUnlockLog_frame env ew t w) as (? & ? & ? & ? & Hq).
    repeat split; try done. exists []. rewrite app_nil_r. split; [done|simpl; lia].
  - destruct (handleMintLog_frame env ew t w) as (? & ? & ? & ? & Hq).
    repeat split; try done. exists []. rewrite app_nil_r. split; [done|simpl; lia].
  - destruct (handleBurnLog_frame env ew t w) as (? & ? & ? & ? & ?). auto.
Qed.

Lemma forEachLog_frame env ew logs w :
  let o := forEachLog HederaNetworkId env ew logs w in
  store (worldOf o) = store w
  /\ slept (worldOf o) = slept w
  /\ exited o = false
  /\ exists l, queue (worldOf o) = (queue w ++ l)%list /\ (length l <= length logs)%nat.
Proof.
  revert w. induction logs as [|log rest IH]; intros w; cbn.
  - repeat split. exists []. by rewrite app_nil_r.
  - go_unfold.
    destruct (processLog_frame env ew log w) as (Hs & Hz & He & l & Hq & Hl).
    destruct (processLog HederaNetworkId env ew log w) as [[] w1|w1|w1];
      cbn in *; try discriminate.
    + destruct (IH w1) as (Hs' & Hz' & He' & l' & Hq' & Hl').
      rewrite Hs', Hz', Hq', Hq. repeat split; try done.
      exists (l ++ l')%list. rewrite app_assoc, length_app. split; [done|lia].
    + repeat split; try done. exists l. split; [done|lia].
Qed.

(** X9. [processLogs] never exits the process and never sleeps; when it
    answers an error or panics, the watermark is where it was; it only
    appends to the queue, at most one message per fetched log. *)
Theorem processLogs_failure_keeps_watermark env ew fromBlock endBlock w :
  let o := processLogs HederaNetworkId env ew fromBlock endBlock w in
  exited o = false
  /\ slept (worldOf o) = slept w
  /\ (returned o <> Some None -> store (worldOf o) = store w)
  /\ exists l,
       queue (worldOf o) = (queue w ++ l)%list
       /\ (length l <= match RetryFilterLogs env fromBlock endBlock with
                       | Ok logs => length logs
                       | Err _ => 0
                       end)%nat.
Proof.
  unfold processLogs, repository_Update. go_unfold.
  destruct (RetryFilterLogs env fromBlock endBlock) as [logs|e]; cbn.
  - destruct (forEachLog_frame env ew logs w) as (Hs & Hz & He & l & Hq & Hl).
    destruct (forEachLog HederaNetworkId env ew logs w) as [[] w1|w1|w1];
      cbn in *; try discriminate.
    + destruct (UpdateFault env); cbn; repeat split; eauto. congruence.
    + repeat split; eauto.
  - repeat split. exists []. by rewrite app_nil_r.
Qed.

(** ** The poll loop *)

Lemma processLogs_never_exits env ew fromBlock endBlock w :
  exited (processLogs HederaNetworkId env ew fromBlock endBlock w) = false.
Proof.
  unfold processLogs, repository_Update. go_unfold.
  destruct (RetryFilterLogs env fromBlock endBlock) as [logs|e]; cbn; [|done].
  destruct (forEachLog_frame env ew logs w) as (_ & _ & He & _).
  destruct (forEachLog HederaNetworkId env ew logs w) as [[] w1|w1|w1];
    cbn in *; try done.
  destruct (UpdateFault env); done.
Qed.

Lemma pollIteration_frame env ew w :
  let o := pollIteration HederaNetworkId env ew w in
  exited o = false
  /\ (returned o = Some None ->
        store (worldOf o) = store w /\ queue (worldOf o) = queue w
        /\ metrics (worldOf o) = metrics w /\ reloads (worldOf o) = reloads w).
Proof.
  unfold pollIteration, repository_Get. go_unfold.
  destruct (GetFault env); cbn; [done|].
  destruct (store w !! dbIdentifier ew) as [f|]; cbn; [|done].
  destruct (RetryBlockNumber env) as [head|]; cbn -[processLogs to_int64 to_uint64];
    [|done].
  destruct (to_int64 (to_uint64 (head - BlockConfirmations env)) <? f);
    cbn -[processLogs to_int64 to_uint64]; [done|].
  match goal with
  | |- context [processLogs _ _ _ ?a ?b ?c] =>
      pose proof (processLogs_never_exits env ew a b c) as He;
      destruct (processLogs HederaNetworkId env ew a b c) as [[e|] w1|w1|w1]
  end; cbn in *; done.
Qed.

(** X10. The range a poll iteration hands to [processLogs], the stored
    watermark and the chunk size being non-negative: it starts at the stored
    watermark, it is not empty, it spans at most [maxLogsBlocks] blocks past
    its first one, and it ends at or before head minus confirmations. *)
Theorem poll_range_bounds env ew w w' fromBlock toBlock err :
  pollIteration HederaNetworkId env ew w = Ret (Some (fromBlock, toBlock, err)) w' ->
  0 <= fromBlock ->
  0 <= maxLogsBlocks (filterConfig ew) ->
  store w !! dbIdentifier ew = Some fromBlock
  /\ fromBlock <= toBlock <= fromBlock + maxLogsBlocks (filterConfig ew)
  /\ exists head,
       RetryBlockNumber env = Ok head
       /\ toBlock <= to_int64 (to_uint64 (head - BlockConfirmations env)).
Proof.
  unfold pollIteration, repository_Get. intros Hrun Hfrom Hchunk. go_unfold.
  destruct (GetFault env); [cbn in Hrun; discriminate|].
  destruct (store w !! dbIdentifier ew) as [f|] eqn:Hstored; [|cbn in Hrun; discriminate].
  cbn -[processLogs to_int64 to_uint64] in Hrun.
  destruct (RetryBlockNumber env) as [head|]; [|cbn in Hrun; discriminate].
  pose proof (to_int64_range (to_uint64 (head - BlockConfirmations env))) as Hhead.
  destruct (Z.ltb_spec (to_int64 (to_uint64 (head - BlockConfirmations env))) f)
    as [|Hle]; [cbn in Hrun; discriminate|].
  match type of Hrun with
  | context [processLogs _ _ _ ?a ?b ?c] =>
      destruct (processLogs HederaNetworkId env ew a b c) as [[e|] w1|w1|w1]
  end; cbn -[to_int64 to_uint64] in Hrun; simplify_eq;
    (split; [reflexivity|]);
    (split; [|eexists; split; [reflexivity|]]);
    rewrite (to_int64_small (_ - fromBlock)) by lia;
    destruct (Z.ltb_spec (maxLogsBlocks (filterConfig ew))
                (to_int64 (to_uint64 (head - BlockConfirmations env)) - fromBlock));
    rewrite ?to_int64_small by lia; lia.
Qed.

(** X11. A turn of the loop that processes no range leaves store, queue,
    metrics and reload requests as they were.  With no newly confirmed block
    (the watermark above head minus confirmations) the turn is one sleep of
    the polling interval and nothing else; with a failing read of the store
    the turn only writes a log line and the loop goes on without sleeping. *)
Theorem idle_turn_changes_nothing env ew w :
  (forall w', pollIteration HederaNetworkId env ew w = Ret None w' ->
     store w' = store w /\ queue w' = queue w /\ metrics w' = metrics w
     /\ reloads w' = reloads w)
  /\ (forall fromBlock head,
       GetFault env = None ->
       store w !! dbIdentifier ew = Some fromBlock ->
       RetryBlockNumber env = Ok head ->
       to_int64 (to_uint64 (head - BlockConfirmations env)) < fromBlock ->
       pollIteration HederaNetworkId env ew w = Ret None (addSleep (sleepDuration ew) w))
  /\ (forall msg,
       GetFault env = Some msg ->
       exists w', pollIteration HederaNetworkId env ew w = Ret None w'
                  /\ slept w' = slept w).
Proof.
  split; [|split].
  - intros w' Hrun. pose proof (pollIteration_frame env ew w) as (_ & Hidle).
    cbn in Hidle. rewrite Hrun in Hidle. apply Hidle. reflexivity.
  - intros fromBlock head Hget Hstored Hhead Hlt.
    unfold pollIteration, repository_Get. go_unfold. rewrite Hget, Hstored.
    cbn -[to_int64 to_uint64]. rewrite Hhead.
    apply Z.ltb_lt in Hlt. rewrite Hlt. reflexivity.
  - intros msg Hget. unfold pollIteration, repository_Get. go_unfold.
    rewrite Hget. cbn. eauto.
Qed.


(** *** Panics of the loop *)









(** X13. While the first read of the store fails, [beginWatching] only logs
    and sleeps one polling interval per attempt, then carries on with the
    remaining answers: store, queue and metrics are untouched. *)
Theorem begin_watching_retries envs rest ew w :
  Forall (fun env => GetFault env <> None) envs ->
  exists w1,
    beginWatching HederaNetworkId (envs ++ rest) ew w
      = beginWatching HederaNetworkId rest ew w1
    /\ store w1 = store w /\ queue w1 = queue w /\ metrics w1 = metrics w
    /\ slept w1 = (slept w ++ replicate (length envs) (sleepDuration ew))%list.
Proof.
  intros Hfail. revert w. induction Hfail as [|env envs Henv _ IH]; intros w.
  - exists w. cbn. rewrite app_nil_r. done.
  - cbn [app beginWatching]. unfold repository_Get at 1. go_unfold.
    destruct (GetFault env) as [msg|]; [|done]. cbn.
    match goal with
    | |- context [beginWatching _ (envs ++ rest) ew ?w0] =>
        destruct (IH w0) as (w1 & Hrun & Hs & Hq & Hm & Hz)
    end.
    exists w1. rewrite Hrun, Hs, Hq, Hm, Hz. cbn.
    repeat split. by rewrite <- app_assoc.
Qed.

End WatcherCoverage.

(** ** Construction *)

Ltac newwatcher_cases :=
  unfold NewWatcher, repository_Get, repository_Create, repository_Update;
  go_unfold; cbn; repeat (destruct_inner; cbn).

(** X14. What a constructed watcher holds: the identity and the mode it was
    given; the chunk size it was given, or 500 when that is 0, hence never
    0; the polling interval in seconds turned into nanoseconds, or 15
    seconds when it is 0; the five event ids of the router ABI; and as
    target block the explicit start block (as [uint64]) or, without one, the
    computed one. *)
Theorem new_watcher_fields env id startBlock validator0 pollingInterval maxLogs w ew w' :
  NewWatcher env id startBlock validator0 pollingInterval maxLogs w = Ret ew w' ->
  dbIdentifier ew = id
  /\ validator ew = validator0
  /\ maxLogsBlocks (filterConfig ew) = (if maxLogs =? 0 then 500 else maxLogs)
  /\ maxLogsBlocks (filterConfig ew) <> 0
  /\ sleepDuration ew = (if pollingInterval =? 0 then 15000000000
                         else to_int64 (pollingInterval * 1000000000))
  /\ (exists abi, RouterABI env = Ok abi
        /\ mintHash (filterConfig ew) = idMint abi
        /\ burnHash (filterConfig ew) = idBurn abi
        /\ lockHash (filterConfig ew) = idLock abi
        /\ unlockHash (filterConfig ew) = idUnlock abi
        /\ memberUpdatedHash (filterConfig ew) = idMemberUpdated abi)
  /\ (exists head, RetryBlockNumber env = Ok head
        /\ targetBlock ew = (if startBlock =? 0
                             then initialTargetBlock head (BlockConfirmations env)
                             else to_uint64 startBlock)).
Proof.
  intros Hrun.
  assert ((if maxLogs =? 0 then 500 else maxLogs) <> 0) as Hchunk
    by (destruct (Z.eqb_spec maxLogs 0); lia).
  revert Hrun. unfold NewWatcher, repository_Get, repository_Create, repository_Update.
  go_unfold. unfold defaultMaxLogsBlocks, defaultSleepDuration.
  destruct (RetryBlockNumber env) as [head|]; [|discriminate].
  destruct (RouterABI env) as [abi|]; [|discriminate].
  destruct (startBlock =? 0) eqn:Hstart; cbn -[to_int64 to_uint64 Z.mul];
    repeat (destruct_inner; cbn -[to_int64 to_uint64 Z.mul]);
    intros Hrun; simplify_eq; cbn -[to_int64 to_uint64 Z.mul];
    repeat split; eauto 10.
Qed.

(** X15. [NewWatcher] never panics.  It exits when the head or the router
    ABI cannot be had, and whenever it exits the progress store and the
    queue are what they were. *)
Theorem new_watcher_exit_keeps_store env id startBlock validator0 pollingInterval maxLogs w :
  let o := NewWatcher env id startBlock validator0 pollingInterval maxLogs w in
  panicked o = false
  /\ (exited o = true -> store (worldOf o) = store w /\ queue (worldOf o) = queue w)
  /\ (forall e, RetryBlockNumber env = Err e -> exited o = true)
  /\ (forall e, RouterABI env = Err e -> exited o = true).
Proof.
  cbn zeta. split; [|split; [|split]].
  - newwatcher_cases; reflexivity.
  - newwatcher_cases; intros; (discriminate || (split; reflexivity)).
  - intros e He. unfold NewWatcher. rewrite He. reflexivity.
  - intros e He. unfold NewWatcher. rewrite He. by destruct (RetryBlockNumber env).
Qed.

Lemma NewWatcher_leaves_row env id startBlock validator0 pollingInterval maxLogs w ew w' :
  NewWatcher env id startBlock validator0 pollingInterval maxLogs w = Ret ew w' ->
  (startBlock <> 0 -> store w' !! id = Some startBlock)
  /\ (startBlock = 0 -> forall b, store w !! id = Some b -> store w' = store w)
  /\ exists b, store w' !! id = Some b.
Proof.
  unfold NewWatcher, repository_Get, repository_Create, repository_Update.
  go_unfold.
  destruct (RetryBlockNumber env) as [head|]; [|discriminate].
  destruct (RouterABI env) as [abi|]; [|discriminate].
  destruct (Z.eqb_spec startBlock 0) as [->|Hne]; cbn -[to_int64 to_uint64 Z.mul].
  - destruct (GetFault env); [discriminate|].
    destruct (store w !! id) as [b|] eqn:Hrow; cbn -[to_int64 to_uint64 Z.mul].
    + intros Hrun. simplify_eq. repeat split; eauto. done.
    + destruct (CreateFault env); cbn -[to_int64 to_uint64 Z.mul]; [discriminate|].
      intros Hrun. simplify_eq. cbn -[to_int64 to_uint64]. rewrite lookup_insert_eq.
      repeat split; eauto; done.
  - destruct (UpdateFault env); cbn -[to_int64 to_uint64 Z.mul]; [discriminate|].
    intros Hrun. simplify_eq. cbn. rewrite lookup_insert_eq.
    repeat split; eauto; done.
Qed.

(** X16. Restarts without an explicit start block never move the
    watermark: after any construction that returned, a construction without
    an explicit start block (whatever the head is by then) leaves the store
    as it is; so an explicit start block persists across such restarts. *)
Theorem restart_keeps_watermark env id startBlock validator0 pollingInterval maxLogs w ew w'
    env2 validator2 pollingInterval2 maxLogs2 ew2 w'' :
  NewWatcher env id startBlock validator0 pollingInterval maxLogs w = Ret ew w' ->
  NewWatcher env2 id 0 validator2 pollingInterval2 maxLogs2 w' = Ret ew2 w'' ->
  store w'' = store w'
  /\ (startBlock <> 0 -> store w'' !! id = Some startBlock).
Proof.
  intros Hfirst Hsecond.
  destruct (NewWatcher_leaves_row _ _ _ _ _ _ _ _ _ Hfirst) as (Hexplicit & _ & b & Hrow).
  destruct (NewWatcher_leaves_row _ _ _ _ _ _ _ _ _ Hsecond) as (_ & Hkeep & _).
  rewrite (Hkeep eq_refl b Hrow). split; [reflexivity|exact Hexplicit].
Qed.

(** * Further properties of the transfer repository *)

Section RepositoryCoverage.

Import TransferRepository.

Variables StatusSignatureSubmitted StatusSignatureMined StatusSignatureFailed : string.
Variables StatusEthTxSubmitted StatusEthTxMined StatusEthTxReverted : string.
Variables StatusEthTxMsgSubmitted StatusEthTxMsgMined StatusEthTxMsgFailed : string.
Variables StatusInitial StatusInsufficientFee StatusInProgress StatusCompleted : string.
Variables StatusFailed StatusRecovered : string.

Lemma repository_eta tr : mkRepository (rows tr) (dbError tr) (logged tr) = tr.
Proof. by destruct tr. Qed.

Lemma baseUpdateStatus_invalid tr column txId status possible :
  ~ In status possible ->
  baseUpdateStatus tr column txId status possible
  = (tr, Some (ErrOther "invalid status")).
Proof.
  intros Hout. unfold baseUpdateStatus.
  destruct (isValidStatus status possible) eqn:Hvalid; [|reflexivity].
  apply isValidStatus_In in Hvalid. contradiction.
Qed.

Lemma baseUpdateStatus_valid tr column txId status possible :
  In status possible ->
  baseUpdateStatus tr column txId status possible
  = let '(rows', err) := UpdateColumn tr txId column status in
    match err with
    | None =>
        (mkRepository rows' (dbError tr)
           (logged tr ++ ["[%s] - Column [%s] status to [%s]"]), None)
    | Some e => (mkRepository rows' (dbError tr) (logged tr), Some e)
    end.
Proof.
  intros Hin. unfold baseUpdateStatus.
  apply isValidStatus_In in Hin. rewrite Hin. reflexivity.
Qed.

(** X17. The guard of [baseUpdateStatus], for any column and allow-list (so
    for the three tracks that go through it): a value outside the list is
    answered with "invalid status" and nothing changes; a value inside it,
    with a database that answers, is written to the column of the
    transaction's row and one debug line is logged; and when the transaction
    has no row the update still answers no error, with the rows unchanged. *)
Theorem base_update_guard tr column txId status possible :
  (~ In status possible ->
     baseUpdateStatus tr column txId status possible
     = (tr, Some (ErrOther "invalid status")))
  /\ (forall t t',
       In status possible -> dbError tr = None ->
       rows tr !! txId = Some t -> setColumn column status t = Some t' ->
       baseUpdateStatus tr column txId status possible
       = (mkRepository (<[txId := t']> (rows tr)) None
            (logged tr ++ ["[%s] - Column [%s] status to [%s]"]), None))
  /\ (In status possible -> dbError tr = None -> rows tr !! txId = None ->
       baseUpdateStatus tr column txId status possible
       = (mkRepository (rows tr) None
            (logged tr ++ ["[%s] - Column [%s] status to [%s]"]), None)).
Proof.
  split; [apply baseUpdateStatus_invalid|]. split.
  - intros t t' Hin Hdb Hrow Hset. rewrite baseUpdateStatus_valid by done.
    unfold UpdateColumn. rewrite Hdb, Hrow, Hset. reflexivity.
  - intros Hin Hdb Hrow. rewrite baseUpdateStatus_valid by done.
    unfold UpdateColumn. rewrite Hdb, Hrow. reflexivity.
Qed.

(** X18. The sanity check of [updateStatus]: only [StatusInitial],
    [StatusInsufficientFee], [StatusInProgress] and [StatusCompleted] pass;
    any other value is answered with "invalid signature status" and nothing
    changes.  A value that passes, with a database that answers, is written
    to the [status] column of the transaction's row; the three other status
    columns, the hash and the other rows are untouched. *)
Theorem update_status_guard tr txId status :
  (status <> StatusInitial /\ status <> StatusInsufficientFee
   /\ status <> StatusInProgress /\ status <> StatusCompleted ->
     updateStatus StatusInitial StatusInsufficientFee StatusInProgress StatusCompleted
       tr txId status
     = (tr, Some (ErrOther "invalid signature status")))
  /\ (status = StatusInitial \/ status = StatusInsufficientFee
      \/ status = StatusInProgress \/ status = StatusCompleted ->
      dbError tr = None ->
     exists tr',
       updateStatus StatusInitial StatusInsufficientFee StatusInProgress StatusCompleted
         tr txId status
       = (tr', None)
       /\ rows tr' !! txId
          = (fun t => mkTransfer (TransactionID t) status (SignatureMsgStatus t)
                        (EthTxMsgStatus t) (EthTxStatus t) (EthTxHash t))
              <$> (rows tr !! txId)
       /\ forall other, other <> txId -> rows tr' !! other = rows tr !! other).
Proof.
  unfold updateStatus. split.
  - intros (H1 & H2 & H3 & H4).
    apply String.eqb_neq in H1, H2, H3, H4. rewrite H1, H2, H3, H4. reflexivity.
  - intros Hin Hdb.
    assert (negb (String.eqb status StatusInitial)
            && negb (String.eqb status StatusInsufficientFee)
            && negb (String.eqb status StatusInProgress)
            && negb (String.eqb status StatusCompleted) = false) as ->.
    { destruct Hin as [-> | [-> | [-> | ->]]]; rewrite String.eqb_refl; cbn;
        rewrite ?andb_false_r; reflexivity. }
    unfold UpdateColumn. rewrite Hdb.
    destruct (rows tr !! txId) as [t|] eqn:Hrow; cbn.
    + eexists. split; [reflexivity|]. cbn. rewrite lookup_insert_eq.
      split; [reflexivity|]. intros other Hother. by rewrite lookup_insert_ne.
    + eexists. split; [reflexivity|]. cbn. rewrite Hrow. done.
Qed.

Lemma UpdateColumn_failing tr txId column value msg :
  dbError tr = Some msg ->
  UpdateColumn tr txId column value = (rows tr, Some (ErrOther msg)).
Proof. intros Hdb. unfold UpdateColumn. by rewrite Hdb. Qed.

Lemma Updates_failing tr txId values msg :
  dbError tr = Some msg ->
  Updates tr txId values = (rows tr, Some (ErrOther msg)).
Proof. intros Hdb. unfold Updates. by rewrite Hdb. Qed.

(** X19. The exported guarded updates never trip their guard, and they do
    not look at the value the row holds: with a database that answers, each
    returns no error, whatever the row's columns are, and leaves its
    constant in its column. *)
Theorem exported_updates_pass_guard tr txId t :
  dbError tr = None ->
  rows tr !! txId = Some t ->
  (exists tr', UpdateStatusSignatureMined StatusSignatureSubmitted StatusSignatureMined
                 StatusSignatureFailed tr txId = (tr', None)
     /\ SignatureMsgStatus <$> (rows tr' !! txId) = Some StatusSignatureMined)
  /\ (exists tr', UpdateStatusSignatureFailed StatusSignatureSubmitted StatusSignatureMined
                    StatusSignatureFailed tr txId = (tr', None)
     /\ SignatureMsgStatus <$> (rows tr' !! txId) = Some StatusSignatureFailed)
  /\ (exists tr', UpdateStatusEthTxMsgSubmitted StatusEthTxMsgSubmitted StatusEthTxMsgMined
                    StatusEthTxMsgFailed tr txId = (tr', None)
     /\ EthTxMsgStatus <$> (rows tr' !! txId) = Some StatusEthTxMsgSubmitted)
  /\ (exists tr', UpdateStatusEthTxMsgMined StatusEthTxMsgSubmitted StatusEthTxMsgMined
                    StatusEthTxMsgFailed tr txId = (tr', None)
     /\ EthTxMsgStatus <$> (rows tr' !! txId) = Some StatusEthTxMsgMined)
  /\ (exists tr', UpdateStatusEthTxMsgFailed StatusEthTxMsgSubmitted StatusEthTxMsgMined
                    StatusEthTxMsgFailed tr txId = (tr', None)
     /\ EthTxMsgStatus <$> (rows tr' !! txId) = Some StatusEthTxMsgFailed)
  /\ (exists tr', UpdateStatusCompleted StatusInitial StatusInsufficientFee StatusInProgress
                    StatusCompleted tr txId = (tr', None)
     /\ Status <$> (rows tr' !! txId) = Some StatusCompleted)
  /\ (exists tr', UpdateStatusInsufficientFee StatusInitial StatusInsufficientFee
                    StatusInProgress StatusCompleted tr txId = (tr', None)
     /\ Status <$> (rows tr' !! txId) = Some StatusInsufficientFee).
Proof.
  intros Hdb Hrow.
  unfold UpdateStatusSignatureMined, UpdateStatusSignatureFailed,
    UpdateStatusEthTxMsgSubmitted, UpdateStatusEthTxMsgMined, UpdateStatusEthTxMsgFailed,
    UpdateStatusCompleted, UpdateStatusInsufficientFee,
    updateSignatureStatus, updateEthereumTxMsgStatus, updateStatus.
  rewrite !baseUpdateStatus_valid by (cbn; tauto).
  rewrite !String.eqb_refl. cbn [negb andb]. rewrite ?andb_false_r.
  unfold UpdateColumn. rewrite Hdb, Hrow. cbn.
  repeat split; eexists; (split; [reflexivity|]); cbn; by rewrite lookup_insert_eq.
Qed.

(** X20. With a failing database every update (guarded, for a value that
    passes the guard, or composite) answers the database's error, and the
    repository, rows and logger output, is what it was. *)
Theorem failing_database_changes_nothing tr txId msg :
  dbError tr = Some msg ->
  (forall column status possible,
     In status possible ->
     baseUpdateStatus tr column txId status possible = (tr, Some (ErrOther msg)))
  /\ UpdateStatusCompleted StatusInitial StatusInsufficientFee StatusInProgress
       StatusCompleted tr txId = (tr, Some (ErrOther msg))
  /\ UpdateStatusSignatureSubmitted StatusSignatureSubmitted StatusInProgress tr txId
     = (tr, Some (ErrOther msg))
  /\ (forall hash,
       UpdateEthTxSubmitted StatusEthTxSubmitted tr txId hash = (tr, Some (ErrOther msg)))
  /\ UpdateEthTxMined StatusEthTxMined StatusCompleted tr txId = (tr, Some (ErrOther msg))
  /\ UpdateEthTxReverted StatusEthTxReverted StatusFailed tr txId
     = (tr, Some (ErrOther msg)).
Proof.
  intros Hdb. repeat split.
  - intros column status possible Hin. rewrite baseUpdateStatus_valid by done.
    rewrite (UpdateColumn_failing _ _ _ _ _ Hdb). by rewrite repository_eta.
  - unfold UpdateStatusCompleted, updateStatus. rewrite !String.eqb_refl.
    cbn [negb andb]. rewrite ?andb_false_r.
    rewrite (UpdateColumn_failing _ _ _ _ _ Hdb). by rewrite repository_eta.
  - unfold UpdateStatusSignatureSubmitted, afterUpdates.
    rewrite (Updates_failing _ _ _ _ Hdb). by rewrite repository_eta.
  - intros hash. unfold UpdateEthTxSubmitted, afterUpdates.
    rewrite (Updates_failing _ _ _ _ Hdb). by rewrite repository_eta.
  - unfold UpdateEthTxMined, afterUpdates.
    rewrite (Updates_failing _ _ _ _ Hdb). by rewrite repository_eta.
  - unfold UpdateEthTxReverted, afterUpdates.
    rewrite (Updates_failing _ _ _ _ Hdb). by rewrite repository_eta.
Qed.

Ltac update_cases Hdb Hrow :=
  cbn; rewrite ?Hdb; cbn; rewrite ?Hrow, ?lookup_insert_eq; cbn;
  rewrite ?Hdb; cbn; rewrite ?Hrow, ?lookup_insert_eq; cbn;
  rewrite ?insert_insert_eq.

(** X21. The tracks are independent: on one transaction, an update of the
    signature status and an update of the Ethereum transaction message
    status leave the same rows in either order, whatever the two values
    (valid or not) and whatever the database answers. *)
Theorem tracks_commute tr txId s1 s2 :
  let sig r := fst (updateSignatureStatus StatusSignatureSubmitted StatusSignatureMined
                      StatusSignatureFailed r txId s1) in
  let msg r := fst (updateEthereumTxMsgStatus StatusEthTxMsgSubmitted StatusEthTxMsgMined
                      StatusEthTxMsgFailed r txId s2) in
  rows (msg (sig tr)) = rows (sig (msg tr)).
Proof.
  cbn zeta.
  unfold updateSignatureStatus, updateEthereumTxMsgStatus, baseUpdateStatus, UpdateColumn.
  destruct (isValidStatus s1 _); destruct (isValidStatus s2 _);
    destruct (dbError tr) eqn:Hdb; destruct (rows tr !! txId) eqn:Hrow;
    update_cases Hdb Hrow; reflexivity.
Qed.

(** X22. The last write wins: two guarded updates of one column of one
    transaction, the second with a value of the allow-list, leave the rows
    the second alone would leave (the first value need not be valid, and the
    row's history plays no part). *)
Theorem last_update_wins tr column txId s1 s2 possible :
  In s2 possible ->
  rows (fst (baseUpdateStatus (fst (baseUpdateStatus tr column txId s1 possible))
               column txId s2 possible))
  = rows (fst (baseUpdateStatus tr column txId s2 possible)).
Proof.
  intros Hin. apply isValidStatus_In in Hin.
  unfold baseUpdateStatus, UpdateColumn. rewrite Hin.
  destruct (isValidStatus s1 possible); cbn [negb]; [|reflexivity].
  destruct (dbError tr) eqn:Hdb; [update_cases Hdb Hdb; reflexivity|].
  destruct (rows tr !! txId) as [t|] eqn:Hrow; [|update_cases Hdb Hrow; reflexivity].
  unfold setColumn.
  repeat (destruct (String.eqb column _); [update_cases Hdb Hrow; reflexivity|]).
  update_cases Hdb Hrow. reflexivity.
Qed.

(** X23. The composite updates, the database answering and the transaction
    having a row [t]: each writes its two columns at once and leaves the
    others, provided the constants are not empty (gorm skips the empty
    fields of the struct it is given); an empty hash handed to
    [UpdateEthTxSubmitted] keeps the stored one. *)
Theorem composite_updates_write_both tr txId t :
  dbError tr = None ->
  rows tr !! txId = Some t ->
  (StatusSignatureSubmitted <> EmptyString -> StatusInProgress <> EmptyString ->
     exists tr',
       UpdateStatusSignatureSubmitted StatusSignatureSubmitted StatusInProgress tr txId
       = (tr', None)
       /\ rows tr' !! txId
          = Some (mkTransfer (TransactionID t) StatusInProgress StatusSignatureSubmitted
                    (EthTxMsgStatus t) (EthTxStatus t) (EthTxHash t)))
  /\ (StatusEthTxMined <> EmptyString -> StatusCompleted <> EmptyString ->
     exists tr',
       UpdateEthTxMined StatusEthTxMined StatusCompleted tr txId = (tr', None)
       /\ rows tr' !! txId
          = Some (mkTransfer (TransactionID t) StatusCompleted (SignatureMsgStatus t)
                    (EthTxMsgStatus t) StatusEthTxMined (EthTxHash t)))
  /\ (StatusEthTxReverted <> EmptyString -> StatusFailed <> EmptyString ->
     exists tr',
       UpdateEthTxReverted StatusEthTxReverted StatusFailed tr txId = (tr', None)
       /\ rows tr' !! txId
          = Some (mkTransfer (TransactionID t) StatusFailed (SignatureMsgStatus t)
                    (EthTxMsgStatus t) StatusEthTxReverted (EthTxHash t)))
  /\ (forall hash, StatusEthTxSubmitted <> EmptyString ->
     exists tr',
       UpdateEthTxSubmitted StatusEthTxSubmitted tr txId hash = (tr', None)
       /\ rows tr' !! txId
          = Some (mkTransfer (TransactionID t) (Status t) (SignatureMsgStatus t)
                    (EthTxMsgStatus t) StatusEthTxSubmitted
                    (if String.eqb hash EmptyString then EthTxHash t else hash))).
Proof.
  intros Hdb Hrow.
  unfold UpdateStatusSignatureSubmitted, UpdateEthTxMined, UpdateEthTxReverted,
    UpdateEthTxSubmitted, afterUpdates, Updates.
  rewrite Hdb, Hrow. unfold mergeNonZero, nonZero. cbn.
  repeat split; intros;
    repeat match goal with
           | Hne : _ <> EmptyString |- _ => apply String.eqb_neq in Hne; rewrite Hne
           end;
    eexists; (split; [reflexivity|]); cbn; by rewrite lookup_insert_eq.
Qed.

(** X24. Reading back: with a database that answers, [GetByTransactionId]
    after an accepted update of the signature status returns the row with
    the new value in that column and the other columns as they were; for a
    transaction without a row it returns neither a record nor an error,
    before and after the update (which answers no error either). *)
Theorem get_after_update tr txId status :
  status = StatusSignatureSubmitted \/ status = StatusSignatureMined
  \/ status = StatusSignatureFailed ->
  dbError tr = None ->
  let tr' := fst (updateSignatureStatus StatusSignatureSubmitted StatusSignatureMined
                    StatusSignatureFailed tr txId status) in
  (forall t, rows tr !! txId = Some t ->
     GetByTransactionId tr' txId
     = (Some (mkTransfer (TransactionID t) (Status t) status (EthTxMsgStatus t)
                (EthTxStatus t) (EthTxHash t)), None))
  /\ (rows tr !! txId = None ->
      GetByTransactionId tr txId = (None, None)
      /\ GetByTransactionId tr' txId = (None, None)
      /\ snd (updateSignatureStatus StatusSignatureSubmitted StatusSignatureMined
                StatusSignatureFailed tr txId status) = None).
Proof.
  intros Hin Hdb. cbn zeta. unfold updateSignatureStatus, GetByTransactionId.
  rewrite baseUpdateStatus_valid by (cbn; intuition congruence).
  unfold UpdateColumn. rewrite Hdb. split.
  - intros t Hrow. rewrite Hrow. cbn. by rewrite lookup_insert_eq.
  - intros Hrow. rewrite Hrow. cbn. by rewrite Hrow.
Qed.

Lemma Find_In tr cond t :
  dbError tr = None ->
  In t (fst (Find tr cond)) <-> (exists txId, rows tr !! txId = Some t) /\ cond t = true.
Proof.
  intros Hdb. unfold Find. rewrite Hdb. cbn.
  rewrite filter_In, in_map_iff. split.
  - intros [([txId t'] & Heq & Hin) Hcond]. cbn in Heq. subst t'.
    apply list_elem_of_In, elem_of_map_to_list in Hin. eauto.
  - intros [[txId Hrow] Hcond]. split; [|done].
    exists (txId, t). split; [done|]. by apply list_elem_of_In, elem_of_map_to_list.
Qed.

Lemma GetUnprocessedTransfers_In tr t :
  dbError tr = None ->
  In t (fst (GetUnprocessedTransfers StatusInitial StatusRecovered tr))
  <-> (exists txId, rows tr !! txId = Some t)
      /\ (Status t = StatusInitial \/ Status t = StatusRecovered).
Proof.
  intros Hdb. unfold GetUnprocessedTransfers.
  match goal with
  | |- context [Find tr ?c] =>
      pose proof (Find_In tr c t Hdb) as Hfind;
      destruct (Find tr c) as [l [e|]] eqn:Hrun
  end.
  - unfold Find in Hrun. rewrite Hdb in Hrun. discriminate.
  - cbn in *. rewrite Hfind, orb_true_iff, !String.eqb_eq. tauto.
Qed.

Lemma GetInitialAndSignatureSubmittedTx_In tr t :
  dbError tr = None ->
  In t (fst (GetInitialAndSignatureSubmittedTx StatusSignatureSubmitted StatusInitial tr))
  <-> (exists txId, rows tr !! txId = Some t)
      /\ (Status t = StatusInitial \/ Status t = StatusSignatureSubmitted).
Proof.
  intros Hdb. unfold GetInitialAndSignatureSubmittedTx.
  match goal with
  | |- context [Find tr ?c] =>
      pose proof (Find_In tr c t Hdb) as Hfind;
      destruct (Find tr c) as [l [e|]] eqn:Hrun
  end.
  - unfold Find in Hrun. rewrite Hdb in Hrun. discriminate.
  - cbn in *. rewrite Hfind, orb_true_iff, !String.eqb_eq. tauto.
Qed.

(** X25. The two queries by status, with a database that answers, return
    exactly the rows whose [status] is [StatusInitial] or, respectively,
    [StatusSignatureSubmitted] and [StatusRecovered], and no error; with a
    failing database they return no row and the error.  So a transfer that
    [UpdateStatusCompleted] has completed is not returned as unprocessed,
    provided [StatusCompleted] is another constant than those two. *)
Theorem status_queries tr :
  (dbError tr = None ->
     (forall t,
        In t (fst (GetInitialAndSignatureSubmittedTx StatusSignatureSubmitted StatusInitial tr))
        <-> (exists txId, rows tr !! txId = Some t)
            /\ (Status t = StatusInitial \/ Status t = StatusSignatureSubmitted))
     /\ (forall t,
        In t (fst (GetUnprocessedTransfers StatusInitial StatusRecovered tr))
        <-> (exists txId, rows tr !! txId = Some t)
            /\ (Status t = StatusInitial \/ Status t = StatusRecovered))
     /\ snd (GetInitialAndSignatureSubmittedTx StatusSignatureSubmitted StatusInitial tr) = None
     /\ snd (GetUnprocessedTransfers StatusInitial StatusRecovered tr) = None)
  /\ (forall msg, dbError tr = Some msg ->
       GetInitialAndSignatureSubmittedTx StatusSignatureSubmitted StatusInitial tr
       = ([], Some (ErrOther msg))
       /\ GetUnprocessedTransfers StatusInitial StatusRecovered tr
          = ([], Some (ErrOther msg)))
  /\ (forall txId t',
       dbError tr = None ->
       StatusCompleted <> StatusInitial -> StatusCompleted <> StatusRecovered ->
       rows (fst (UpdateStatusCompleted StatusInitial StatusInsufficientFee StatusInProgress
                    StatusCompleted tr txId)) !! txId = Some t' ->
       ~ In t' (fst (GetUnprocessedTransfers StatusInitial StatusRecovered
                       (fst (UpdateStatusCompleted StatusInitial StatusInsufficientFee
                               StatusInProgress StatusCompleted tr txId))))).
Proof.
  split; [|split].
  - intros Hdb. split; [|split; [|split]].
    + intros t. by apply GetInitialAndSignatureSubmittedTx_In.
    + intros t. by apply GetUnprocessedTransfers_In.
    + unfold GetInitialAndSignatureSubmittedTx, Find. by rewrite Hdb.
    + unfold GetUnprocessedTransfers, Find. by rewrite Hdb.
  - intros msg Hdb.
    unfold GetInitialAndSignatureSubmittedTx, GetUnprocessedTransfers, Find.
    by rewrite Hdb.
  - intros txId t' Hdb Hinitial Hrecovered Hrow Hin.
    assert (dbError (fst (UpdateStatusCompleted StatusInitial StatusInsufficientFee
                            StatusInProgress StatusCompleted tr txId)) = None
            /\ Status t' = StatusCompleted) as [Hdb' Hstatus].
    { revert Hrow. unfold UpdateStatusCompleted, updateStatus.
      rewrite !String.eqb_refl. cbn [negb andb]. rewrite ?andb_false_r.
      unfold UpdateColumn. rewrite Hdb.
      destruct (rows tr !! txId) as [t|] eqn:Hold; cbn.
      - rewrite lookup_insert_eq. intros Hrow. by simplify_eq.
      - congruence. }
    apply GetUnprocessedTransfers_In in Hin as [_ Hcond]; [|exact Hdb'].
    rewrite Hstatus in Hcond. tauto.
Qed.

End RepositoryCoverage.

(** * Properties of the handler of transfer messages *)

Section HandlerCoverage.

Import TransferHandler.

Variable StatusInitial : string.

Ltac handle_cases :=
  unfold Handle; repeat (destruct_inner; cbn in * );
  repeat match goal with
         | Hne : negb (String.eqb _ _) = false |- _ =>
             apply negb_false_iff, String.eqb_eq in Hne
         | Hne : negb (String.eqb _ _) = true |- _ =>
             apply negb_true_iff, String.eqb_neq in Hne
         end.

(** X26. [Handle] hands a message to [ProcessTransfer] exactly when the
    payload parses, [InitiateNewTransfer] answers a record whose status is
    [StatusInitial] (a transfer seen before is skipped), and, for a message
    that asks for the Ethereum transaction, [VerifyFee] answers no error. *)
Theorem transfer_processed_only_when_new th payload tm :
  In (CallProcessTransfer tm) (calls (Handle StatusInitial th payload))
  <-> NewTransferMessageFromBytes th payload = (Some tm, None)
      /\ (exists record,
            InitiateNewTransfer th tm = (Some record, None)
            /\ TransferRepository.Status record = StatusInitial)
      /\ (ExecuteEthTransaction tm = true -> VerifyFee th tm = None).
Proof.
  split.
  - handle_cases; intros Hin; cbn in Hin;
      repeat (destruct Hin as [Hin|Hin]; [try discriminate Hin|]); try contradiction;
      simplify_eq; repeat split; eauto; intros; congruence.
  - intros (Hparse & (record & Hinit & Hstatus) & Hfee).
    unfold Handle. rewrite Hparse, Hinit, Hstatus, String.eqb_refl. cbn.
    destruct (ExecuteEthTransaction tm); cbn.
    + rewrite Hfee by done. destruct (ProcessTransfer th tm); cbn; auto.
    + destruct (ProcessTransfer th tm); cbn; auto.
Qed.

(** X27. The calls [Handle] makes into the transfers service: none when the
    payload does not parse; otherwise [InitiateNewTransfer] first, then
    [VerifyFee] only for a message that asks for the Ethereum transaction
    and whose record is new, then [ProcessTransfer], each at most once and
    on the parsed message.  The errors of the service are logged, not
    raised: [Handle] panics only when the parser or [InitiateNewTransfer]
    answers a [nil] pointer without an error. *)
Theorem handle_call_order th payload :
  let o := Handle StatusInitial th payload in
  (calls o = []
   \/ exists tm,
        NewTransferMessageFromBytes th payload = (Some tm, None)
        /\ (calls o = [CallInitiateNewTransfer tm]
            \/ calls o = [CallInitiateNewTransfer tm; CallProcessTransfer tm]
            \/ (ExecuteEthTransaction tm = true
                /\ (exists record,
                      InitiateNewTransfer th tm = (Some record, None)
                      /\ TransferRepository.Status record = StatusInitial)
                /\ (calls o = [CallInitiateNewTransfer tm; CallVerifyFee tm]
                    \/ calls o = [CallInitiateNewTransfer tm; CallVerifyFee tm;
                                  CallProcessTransfer tm]))))
  /\ (snd (NewTransferMessageFromBytes th payload) <> None ->
      calls o = [] /\ panicked o = false)
  /\ (panicked o = true
      <-> NewTransferMessageFromBytes th payload = (None, None)
          \/ exists tm, NewTransferMessageFromBytes th payload = (Some tm, None)
                        /\ InitiateNewTransfer th tm = (None, None)).
Proof.
  cbn zeta. split; [|split].
  - handle_cases; eauto 12.
  - handle_cases; intros Herr; cbn in Herr; done.
  - split.
    + handle_cases; intros Hp; try discriminate Hp; eauto.
    + intros [Hparse|(tm & Hparse & Hinit)]; unfold Handle.
      * rewrite Hparse. reflexivity.
      * rewrite Hparse, Hinit. reflexivity.
Qed.

End HandlerCoverage.

(** * The further properties on concrete runs *)

Module MoreExamples.

Import Fixtures MoreFixtures.

Lemma mint_unlock_record_completion_witness :
  exists w',
    handleMintLog (env 50 120 []) (watcher true) (mintEvent false) emptyWorld = Ret tt w'
    /\ metrics w' = [SetUserGetHisTokens 3 1 "0xopposite" "0.0.1-1"].
Proof.
  apply (proj1 (mint_unlock_record_completion (env 50 120 []) (watcher true) emptyWorld 1
                  eq_refl) (mintEvent false) eq_refl).
Defined.

Lemma burn_metrics_need_monitoring_witness :
  metrics (worldOf (handleBurnLog hedera (withMonitoringOff (env 50 120 [])) (watcher true)
                      (burnEvent 1000 3 100 false) emptyWorld)) = [].
Proof.
  apply (burn_metrics_need_monitoring hedera (withMonitoringOff (env 50 120 []))
           (watcher true) (burnEvent 1000 3 100 false) emptyWorld eq_refl).
Defined.

Lemma empty_receiver_dropped_witness :
  (exists w', handleLockLog hedera (withChainIDError (env 50 120 [])) (watcher true)
                lockWithoutReceiver worldAt90 = Ret tt w'
     /\ queue w' = queue worldAt90 /\ metrics w' = metrics worldAt90
     /\ store w' = store worldAt90)
  /\ (exists w', handleBurnLog hedera (withChainIDError (env 50 120 [])) (watcher true)
                   burnWithoutReceiver worldAt90 = Ret tt w'
     /\ queue w' = queue worldAt90 /\ metrics w' = metrics worldAt90
     /\ store w' = store worldAt90).
Proof.
  pose proof (empty_receiver_dropped hedera (withChainIDError (env 50 120 []))
                (watcher true) worldAt90) as (Hlock & Hburn).
  split.
  - apply (Hlock lockWithoutReceiver eq_refl eq_refl).
  - apply (Hburn burnWithoutReceiver eq_refl eq_refl).
Defined.

Lemma lock_transfer_fields_witness :
  TransactionId (lockTransferAt "0xabc-7") = "0xabc-7"
  /\ NativeChainId (lockTransferAt "0xabc-7") = SourceChainId (lockTransferAt "0xabc-7")
  /\ NativeAsset (lockTransferAt "0xabc-7") = SourceAsset (lockTransferAt "0xabc-7")
  /\ TargetAsset (lockTransferAt "0xabc-7") <> EmptyString.
Proof.
  destruct (lock_transfer_fields hedera (env 50 120 []) (watcher true) (lockEventAt 7)
              emptyWorld
              (worldOf (handleLockLog hedera (env 50 120 []) (watcher true) (lockEventAt 7)
                          emptyWorld))
              {| Payload := lockTransferAt "0xabc-7"; Topic := TopicMessageSubmission |}
              eq_refl eq_refl)
    as (Hid & _ & _ & Hnative & _ & Hasset & _ & Hwrapped).
  repeat split; assumption.
Defined.

Lemma burn_transfer_fields_witness :
  NativeChainId (burnTransfer "1000" EmptyString) = TargetChainId (burnTransfer "1000" EmptyString)
  /\ NativeAsset (burnTransfer "1000" EmptyString) = TargetAsset (burnTransfer "1000" EmptyString).
Proof.
  destruct (burn_transfer_fields hedera (env 50 120 []) (watcher true)
              (burnEvent 1000 3 100 false) emptyWorld
              (worldOf (handleBurnLog hedera (env 50 120 []) (watcher true)
                          (burnEvent 1000 3 100 false) emptyWorld))
              {| Payload := burnTransfer "1000" EmptyString; Topic := TopicMessageSubmission |}
              eq_refl eq_refl)
    as (chain & na & _ & _ & _ & _ & _ & Hnative & _ & _ & _ & Hasset).
  split; assumption.
Defined.

Lemma transaction_ids_distinct_per_log_witness :
  TransactionId (lockTransferAt "0xabc-7") = "0xabc-7"
  /\ TransactionId (lockTransferAt "0xabc-8") = "0xabc-8"
  /\ TransactionId (lockTransferAt "0xabc-7") <> TransactionId (lockTransferAt "0xabc-8").
Proof.
  split; [reflexivity|]. split; [reflexivity|].
  apply (proj1 (transaction_ids_distinct_per_log hedera (env 50 120 []) (watcher true)
                  emptyWorld
                  (worldOf (handleLockLog hedera (env 50 120 []) (watcher true)
                              (lockEventAt 7) emptyWorld))
                  {| Payload := lockTransferAt "0xabc-7"; Topic := TopicMessageSubmission |}
                  (env 50 120 []) (watcher true) emptyWorld
                  (worldOf (handleLockLog hedera (env 50 120 []) (watcher true)
                              (lockEventAt 8) emptyWorld))
                  {| Payload := lockTransferAt "0xabc-8"; Topic := TopicMessageSubmission |})
           (lockEventAt 7) (lockEventAt 8) eq_refl eq_refl eq_refl eq_refl eq_refl).
  - vm_compute. discriminate.
  - vm_compute. discriminate.
  - vm_compute. discriminate.
Defined.

Lemma unmatched_log_ignored_witness :
  processLog hedera (env 50 120 []) (watcher true) (rawLog 99 100 false) worldAt90
    = Ret tt worldAt90
  /\ processLog hedera (env 50 120 []) (watcher true) (rawLog 15 100 false) worldAt90
     = Ret tt (addReload worldAt90).
Proof.
  split.
  - apply (proj2 (unmatched_log_ignored hedera (env 50 120 []) (watcher true)
                    (rawLog 99 100 false) worldAt90) 99 [] eq_refl);
      vm_compute; discriminate.
  - apply (proj2 (unmatched_log_ignored hedera (env 50 120 []) (watcher true)
                    (rawLog 15 100 false) worldAt90) 15 [] eq_refl);
      try (vm_compute; discriminate). reflexivity.
Defined.

Lemma poll_range_bounds_witness :
  store worldAt90 !! "1-0xrouter" = Some 90
  /\ 90 <= 110 <= 90 + 500
  /\ exists head, RetryBlockNumber (env 50 120 batch) = Ok head
                  /\ 110 <= to_int64 (to_uint64 (head - 10)).
Proof.
  apply (poll_range_bounds hedera (env 50 120 batch) (watcher true) worldAt90
           (worldOf (pollIteration hedera (env 50 120 batch) (watcher true) worldAt90))
           90 110 None eq_refl);
    vm_compute; discriminate.
Defined.

(** With the head far ahead the range is cut at the chunk size. *)
Example poll_range_clamped :
  returned (pollIteration hedera (env 50 5000 []) (watcher true) worldAt90)
  = Some (Some (90, 590, None)).
Proof. vm_compute. reflexivity. Qed.

Lemma idle_turn_changes_nothing_witness :
  pollIteration hedera (env 50 95 batch) (watcher true) worldAt90
  = Ret None (addSleep 15000000000 worldAt90).
Proof.
  apply (proj1 (proj2 (idle_turn_changes_nothing hedera (env 50 95 batch) (watcher true)
                         worldAt90)) 90 95 eq_refl eq_refl eq_refl).
  vm_compute. reflexivity.
Defined.

Lemma begin_watching_retries_witness :
  exists w1,
    beginWatching hedera
      ([withGetFault (env 50 120 []); withGetFault (env 50 120 [])]
       ++ [env 50 120 []; env 50 120 batch]) (watcher true) worldAt90
    = beginWatching hedera [env 50 120 []; env 50 120 batch] (watcher true) w1
    /\ store w1 = store worldAt90 /\ queue w1 = queue worldAt90
    /\ metrics w1 = metrics worldAt90
    /\ slept w1 = [15000000000; 15000000000].
Proof.
  apply (begin_watching_retries hedera
           [withGetFault (env 50 120 []); withGetFault (env 50 120 [])]
           [env 50 120 []; env 50 120 batch] (watcher true) worldAt90).
  repeat constructor; discriminate.
Defined.

Lemma new_watcher_fields_witness :
  dbIdentifier builtWatcher = "1-0xrouter"
  /\ validator builtWatcher = true
  /\ maxLogsBlocks (filterConfig builtWatcher) = 500
  /\ maxLogsBlocks (filterConfig builtWatcher) <> 0
  /\ sleepDuration builtWatcher = 15000000000.
Proof.
  destruct (new_watcher_fields (env 50 120 []) "1-0xrouter" 0 true 0 0 emptyWorld builtWatcher
              (worldOf (NewWatcher (env 50 120 []) "1-0xrouter" 0 true 0 0 emptyWorld))
              eq_refl)
    as (Hid & Hmode & Hchunk & Hnonzero & Hsleep & _).
  repeat split; assumption.
Defined.

Lemma restart_keeps_watermark_witness :
  store (worldOf (NewWatcher (env 50 5000 []) "1-0xrouter" 0 false 30 100
                    (worldOf (NewWatcher (env 50 120 []) "1-0xrouter" 77 true 0 0
                                worldAt90))))
  = store (worldOf (NewWatcher (env 50 120 []) "1-0xrouter" 77 true 0 0 worldAt90))
  /\ (77 <> 0 ->
      store (worldOf (NewWatcher (env 50 5000 []) "1-0xrouter" 0 false 30 100
                        (worldOf (NewWatcher (env 50 120 []) "1-0xrouter" 77 true 0 0
                                    worldAt90))))
        !! "1-0xrouter" = Some 77).
Proof.
  apply (restart_keeps_watermark (env 50 120 []) "1-0xrouter" 77 true 0 0 worldAt90
           {| dbIdentifier := "1-0xrouter"; targetBlock := 77;
              sleepDuration := 15000000000; validator := true;
              filterConfig := mkFilterConfig 11 12 13 14 15 500 |}
           (worldOf (NewWatcher (env 50 120 []) "1-0xrouter" 77 true 0 0 worldAt90))
           (env 50 5000 []) false 30 100
           {| dbIdentifier := "1-0xrouter"; targetBlock := 4990;
              sleepDuration := 30000000000; validator := false;
              filterConfig := mkFilterConfig 11 12 13 14 15 100 |}
           (worldOf (NewWatcher (env 50 5000 []) "1-0xrouter" 0 false 30 100
                       (worldOf (NewWatcher (env 50 120 []) "1-0xrouter" 77 true 0 0
                                   worldAt90))))
           eq_refl eq_refl).
Defined.

Lemma base_update_guard_witness :
  TransferRepository.baseUpdateStatus repositoryWithHash "eth_tx_status" "0xabc-7"
    "ETH_TX_MINED" ["ETH_TX_SUBMITTED"; "ETH_TX_MINED"; "ETH_TX_REVERTED"]
  = (TransferRepository.mkRepository
       (<["0xabc-7" := TransferRepository.mkTransfer "0xabc-7" "IN_PROGRESS" SignatureMined
                         EmptyString "ETH_TX_MINED" "0xhash"]>
          (TransferRepository.rows repositoryWithHash))
       None ["[%s] - Column [%s] status to [%s]"], None)
  /\ TransferRepository.baseUpdateStatus repositoryWithHash "eth_tx_status" "0xabc-7"
       "COMPLETED" ["ETH_TX_SUBMITTED"; "ETH_TX_MINED"; "ETH_TX_REVERTED"]
     = (repositoryWithHash, Some (ErrOther "invalid status")).
Proof.
  split.
  - apply (proj1 (proj2 (base_update_guard repositoryWithHash "eth_tx_status" "0xabc-7"
                           "ETH_TX_MINED"
                           ["ETH_TX_SUBMITTED"; "ETH_TX_MINED"; "ETH_TX_REVERTED"]))
             row); try reflexivity.
    right. left. reflexivity.
  - apply (proj1 (base_update_guard repositoryWithHash "eth_tx_status" "0xabc-7"
                    "COMPLETED" ["ETH_TX_SUBMITTED"; "ETH_TX_MINED"; "ETH_TX_REVERTED"])).
    cbn. intros [H|[H|[H|[]]]]; discriminate H.
Defined.

Lemma update_status_guard_witness :
  TransferRepository.updateStatus "INITIAL" "INSUFFICIENT_FEE" "IN_PROGRESS" "COMPLETED"
    repositoryWithHash "0xabc-7" "FAILED"
  = (repositoryWithHash, Some (ErrOther "invalid signature status"))
  /\ exists tr',
       TransferRepository.updateStatus "INITIAL" "INSUFFICIENT_FEE" "IN_PROGRESS" "COMPLETED"
         repositoryWithHash "0xabc-7" "COMPLETED"
       = (tr', None)
       /\ TransferRepository.Status <$> (TransferRepository.rows tr' !! "0xabc-7")
          = Some "COMPLETED".
Proof.
  split.
  - apply (proj1 (update_status_guard "INITIAL" "INSUFFICIENT_FEE" "IN_PROGRESS" "COMPLETED"
                    repositoryWithHash "0xabc-7" "FAILED")).
    repeat split; discriminate.
  - destruct (proj2 (update_status_guard "INITIAL" "INSUFFICIENT_FEE" "IN_PROGRESS"
                       "COMPLETED" repositoryWithHash "0xabc-7" "COMPLETED")
                (or_intror (or_intror (or_intror eq_refl))) eq_refl)
      as (tr' & Hrun & Hrow & _).
    exists tr'. split; [exact Hrun|]. rewrite Hrow. reflexivity.
Defined.

Lemma exported_updates_pass_guard_witness :
  exists tr',
    TransferRepository.UpdateStatusSignatureMined SignatureSubmitted SignatureMined
      SignatureFailed repositoryWithHash "0xabc-7" = (tr', None)
    /\ TransferRepository.SignatureMsgStatus <$> (TransferRepository.rows tr' !! "0xabc-7")
       = Some SignatureMined.
Proof.
  apply (proj1 (exported_updates_pass_guard SignatureSubmitted SignatureMined SignatureFailed
                  "ETH_TX_MSG_SUBMITTED" "ETH_TX_MSG_MINED" "ETH_TX_MSG_FAILED"
                  "INITIAL" "INSUFFICIENT_FEE" "IN_PROGRESS" "COMPLETED"
                  repositoryWithHash "0xabc-7" row eq_refl eq_refl)).
Defined.

Lemma failing_database_changes_nothing_witness :
  TransferRepository.UpdateStatusCompleted "INITIAL" "INSUFFICIENT_FEE" "IN_PROGRESS"
    "COMPLETED" failingRepository "0xabc-7"
  = (failingRepository, Some (ErrOther "connection refused"))
  /\ TransferRepository.UpdateEthTxMined "ETH_TX_MINED" "COMPLETED" failingRepository
       "0xabc-7"
     = (failingRepository, Some (ErrOther "connection refused")).
Proof.
  pose proof (failing_database_changes_nothing SignatureSubmitted "ETH_TX_SUBMITTED"
                "ETH_TX_MINED" "ETH_TX_REVERTED" "INITIAL" "INSUFFICIENT_FEE" "IN_PROGRESS"
                "COMPLETED" "FAILED" failingRepository "0xabc-7" "connection refused"
                eq_refl)
    as (_ & Hcompleted & _ & _ & Hmined & _).
  split; assumption.
Defined.

Lemma last_update_wins_witness :
  TransferRepository.rows
    (fst (TransferRepository.baseUpdateStatus
            (fst (TransferRepository.baseUpdateStatus repositoryWithHash
                    "signature_msg_status" "0xabc-7" SignatureSubmitted
                    [SignatureSubmitted; SignatureMined; SignatureFailed]))
            "signature_msg_status" "0xabc-7" SignatureFailed
            [SignatureSubmitted; SignatureMined; SignatureFailed]))
  = TransferRepository.rows
      (fst (TransferRepository.baseUpdateStatus repositoryWithHash
              "signature_msg_status" "0xabc-7" SignatureFailed
              [SignatureSubmitted; SignatureMined; SignatureFailed])).
Proof.
  apply (last_update_wins repositoryWithHash "signature_msg_status" "0xabc-7"
           SignatureSubmitted SignatureFailed
           [SignatureSubmitted; SignatureMined; SignatureFailed]).
  right. right. left. reflexivity.
Defined.

Lemma composite_updates_write_both_witness :
  (exists tr',
     TransferRepository.UpdateEthTxMined "ETH_TX_MINED" "COMPLETED" repositoryWithHash
       "0xabc-7" = (tr', None)
     /\ TransferRepository.rows tr' !! "0xabc-7"
        = Some (TransferRepository.mkTransfer "0xabc-7" "COMPLETED" SignatureMined
                  EmptyString "ETH_TX_MINED" "0xhash"))
  /\ (exists tr',
       TransferRepository.UpdateEthTxSubmitted "ETH_TX_SUBMITTED" repositoryWithHash
         "0xabc-7" EmptyString = (tr', None)
       /\ TransferRepository.rows tr' !! "0xabc-7"
          = Some (TransferRepository.mkTransfer "0xabc-7" "IN_PROGRESS" SignatureMined
                    EmptyString "ETH_TX_SUBMITTED" "0xhash")).
Proof.
  pose proof (composite_updates_write_both SignatureSubmitted "ETH_TX_SUBMITTED"
                "ETH_TX_MINED" "ETH_TX_REVERTED" "IN_PROGRESS" "COMPLETED" "FAILED"
                repositoryWithHash "0xabc-7" row eq_refl eq_refl)
    as (_ & Hmined & _ & Hsubmitted).
  split.
  - apply Hmined; discriminate.
  - apply (Hsubmitted EmptyString). discriminate.
Defined.

Lemma get_after_update_witness :
  TransferRepository.GetByTransactionId
    (fst (TransferRepository.updateSignatureStatus SignatureSubmitted SignatureMined
            SignatureFailed repositoryWithHash "0xabc-7" SignatureFailed)) "0xabc-7"
  = (Some (TransferRepository.mkTransfer "0xabc-7" "IN_PROGRESS" SignatureFailed EmptyString
             EmptyString "0xhash"), None)
  /\ TransferRepository.GetByTransactionId repositoryWithHash "0xother" = (None, None).
Proof.
  split.
  - apply (proj1 (get_after_update SignatureSubmitted SignatureMined SignatureFailed
                    repositoryWithHash "0xabc-7" SignatureFailed
                    (or_intror (or_intror eq_refl)) eq_refl) row eq_refl).
  - apply (proj2 (get_after_update SignatureSubmitted SignatureMined SignatureFailed
                    repositoryWithHash "0xother" SignatureFailed
                    (or_intror (or_intror eq_refl)) eq_refl) eq_refl).
Defined.

Lemma status_queries_witness :
  TransferRepository.GetUnprocessedTransfers "INITIAL" "RECOVERED" failingRepository
  = ([], Some (ErrOther "connection refused"))
  /\ ~ In (TransferRepository.mkTransfer "0xabc-7" "COMPLETED" SignatureMined EmptyString
             EmptyString "0xhash")
         (fst (TransferRepository.GetUnprocessedTransfers "INITIAL" "RECOVERED"
                 (fst (TransferRepository.UpdateStatusCompleted "INITIAL" "INSUFFICIENT_FEE"
                         "IN_PROGRESS" "COMPLETED" repositoryWithHash "0xabc-7")))).
Proof.
  pose proof (status_queries SignatureSubmitted "INITIAL" "INSUFFICIENT_FEE" "IN_PROGRESS"
                "COMPLETED" "RECOVERED") as Hqueries.
  split.
  - apply (proj1 (proj2 (Hqueries failingRepository)) "connection refused" eq_refl).
  - apply (proj2 (proj2 (Hqueries repositoryWithHash)) "0xabc-7"); try reflexivity;
      discriminate.
Defined.

(** A message seen for the first time goes through the three calls; the same
    message with a record that is no longer new stops after the first. *)
Example handle_new_and_known :
  TransferHandler.calls (TransferHandler.Handle "INITIAL" services [])
  = [TransferHandler.CallInitiateNewTransfer message; TransferHandler.CallVerifyFee message;
     TransferHandler.CallProcessTransfer message]
  /\ TransferHandler.calls (TransferHandler.Handle "INITIAL"
        (TransferHandler.mkServices
           (fun _ => (Some message, None))
           (fun _ => (Some (TransferRepository.mkTransfer "0.0.1-1" "COMPLETED" EmptyString
                              EmptyString EmptyString EmptyString), None))
           (fun _ => None) (fun _ => None)) [])
     = [TransferHandler.CallInitiateNewTransfer message].
Proof. split; reflexivity. Qed.


End MoreExamples.
